(** * ACCESS-OM2 remapping-weight driver: tools/make_remap_weights.py

    A shallow embedding of the script and of the parts of its environment
    that its behaviour depends on: the file system, the two output streams,
    the NetCDF files it edits, and the external programs it spawns. *)

From Stdlib Require Import ZArith List Ascii Floats.
From stdpp Require Import gmap strings list fin_maps pretty.

Open Scope string_scope.
Open Scope list_scope.

(** ** NetCDF datasets

    A dataset is a list of named dimensions and a list of named variables.
    As in the NetCDF data model a variable refers to its dimensions by
    identifier (the position in the dimension list), so renaming a dimension
    does not touch any variable.  Data is kept flat, in row-major order. *)

Record variable := NcVar { vdims : list nat; vdata : list float }.

Record dataset := Dataset {
  ds_dims : list (string * nat);
  ds_vars : list (string * variable)
}.

(** The default fill value of an 'f8' variable (cells never written). *)
Definition NC_FILL_DOUBLE : float := 0x1.ep+122%float.

(** ** Grids, files, exceptions *)

Definition mask := list (list Z).

Inductive grid_kind := Core2 | Jra55 | Jra55River | Mom.

Record grid := Grid { gkind : grid_kind; gfiles : list string; mask_t : mask }.

Inductive file :=
  | FText (s : string)              (* plain text, also the empty temp file *)
  | FData (m : mask)                (* a grid definition / forcing / mask input *)
  | FScrip (g : grid) (m : mask)    (* a SCRIP grid description with its mask *)
  | FNc (ds : dataset).             (* a NetCDF weight file *)

Inductive exn :=
  | NameError (name : string)
  | OSError (what : string)
  | CalledProcessError (returncode : Z) (output : string)
  | TypeError
  | KeyError (key : string)
  | ValueError
  | IndexError
  | RuntimeError.

(** What an external process did. *)
Inductive proc_outcome :=
  | Exited (rc : Z) (output : string)
  | SpawnFailed.                     (* the program could not be started *)

(** What the script did to the outside, in order: the grid descriptions it
    had written and the commands it ran, each with its outcome. *)
Inductive event :=
  | EvWriteScrip (path : string) (g : grid) (m : mask)
  | EvExec (cmd : list string) (o : proc_outcome).

(** ** The world the script runs in *)

Record state := State {
  fs : gmap string file;
  stdout : list string;
  stderr : list string;
  trace : list event;
  next_tmp : nat
}.

Definition set_fs (f : gmap string file → gmap string file) (st : state) : state :=
  State (f (fs st)) (stdout st) (stderr st) (trace st) (next_tmp st).
Definition add_stdout (s : string) (st : state) : state :=
  State (fs st) (stdout st ++ [s]) (stderr st) (trace st) (next_tmp st).
Definition add_stderr (s : string) (st : state) : state :=
  State (fs st) (stdout st) (stderr st ++ [s]) (trace st) (next_tmp st).
Definition add_event (e : event) (st : state) : state :=
  State (fs st) (stdout st) (stderr st) (trace st ++ [e]) (next_tmp st).
Definition bump_tmp (st : state) : state :=
  State (fs st) (stdout st) (stderr st) (trace st) (S (next_tmp st)).

(** The weight generator is opaque: all that is known of a run is its exit
    status and output, the weight file it may write to its [-w] path, and
    the log it may leave in the working directory. *)
Record esmf_effect := EsmfEffect {
  esmf_proc : proc_outcome;
  esmf_weights : option dataset;
  esmf_log : option string
}.

(** Two texts are built by the Python library from what it finds at run
    time, and are left opaque as well: the help message of argparse (program
    name, wrapping and headings depend on argv[0], the terminal and the
    library version), and the [repr] of a string that cannot be printed
    between single quotes as it is. *)
Record env := Env {
  my_dir : string;                   (* directory holding the script *)
  cpu_count : nat;
  esmf_run : list string → gmap string file → esmf_effect;
  file_bytes : file → string;        (* raw content of a non-text file *)
  help_text : string;                (* what parser.print_help() prints *)
  str_repr : string → string         (* repr of a string that needs escapes
                                        or other quotes *)
}.

(** ** A state-and-exception monad for Python control flow *)

Inductive result (A : Type) := Ok (a : A) | Raise (e : exn).
Arguments Ok {A} a.
Arguments Raise {A} e.

Definition M (A : Type) : Type := state → result A * state.

#[global] Instance M_ret : MRet M := λ A a st, (Ok a, st).
#[global] Instance M_bind : MBind M := λ A B f m st,
  match m st with
  | (Ok a, st') => f a st'
  | (Raise e, st') => (Raise e, st')
  end.

Definition raise {A} (e : exn) : M A := λ st, (Raise e, st).

(** [try: m except CalledProcessError as e: h e] *)
Definition try_except_CalledProcessError {A} (m : M A) (h : Z → string → M A) : M A :=
  λ st, match m st with
        | (Raise (CalledProcessError rc out), st') => h rc out st'
        | r => r
        end.

(** [for x in l: body x] *)
Fixpoint for_each {A} (l : list A) (body : A → M unit) : M unit :=
  match l with
  | [] => mret tt
  | x :: l' => body x ≫= λ _, for_each l' body
  end.

(** ** Library primitives *)

Definition print (s : string) : M unit := λ st, (Ok tt, add_stdout s st).
Definition print_stderr (s : string) : M unit := λ st, (Ok tt, add_stderr s st).

(** [os.path.join] of two components. *)
Fixpoint ends_with_slash (s : string) : bool :=
  match s with
  | EmptyString => false
  | String c EmptyString => bool_decide (c = "/"%char)
  | String _ s' => ends_with_slash s'
  end.

Definition starts_with_slash (s : string) : bool :=
  match s with
  | String c _ => bool_decide (c = "/"%char)
  | EmptyString => false
  end.

Definition path_join2 (a b : string) : string :=
  if starts_with_slash b then b
  else if bool_decide (a = "") || ends_with_slash a then a +:+ b
  else a +:+ "/" +:+ b.

Definition path_join (a : string) (rest : list string) : string :=
  foldl path_join2 a rest.

(** [tempfile.mkstemp(suffix='.nc')]: the operating system hands out a name
    that no file has, and creates the empty file.  Names are drawn from a
    counter; [temps_free] below states that the names a combination will
    draw are free. *)
Definition tmp_path (k : nat) : string := "/tmp/tmp" +:+ pretty k +:+ ".nc".

Definition mkstemp : M string := λ st,
  let p := tmp_path (next_tmp st) in
  (Ok p, bump_tmp (set_fs (insert p (FText "")) st)).

Definition os_remove (p : string) : M unit := λ st,
  match fs st !! p with
  | Some _ => (Ok tt, set_fs (delete p) st)
  | None => (Raise (OSError p), st)
  end.

Definition os_path_exists (p : string) : M bool := λ st,
  (Ok (bool_decide (is_Some (fs st !! p))), st).

(** [open(p).read()] *)
Definition read_file (E : env) (p : string) : M string := λ st,
  match fs st !! p with
  | Some (FText s) => (Ok s, st)
  | Some f => (Ok (file_bytes E f), st)
  | None => (Raise (OSError p), st)
  end.

(** [shutil.move(src, dst)] between two file names. *)
Definition shutil_move (src dst : string) : M unit := λ st,
  match fs st !! src with
  | Some f => (Ok tt, set_fs (λ m, <[dst := f]> (delete src m)) st)
  | None => (Raise (OSError src), st)
  end.

(** ** NetCDF operations (netCDF4 Python bindings) *)

Definition has_name {A} (n : string) (l : list (string * A)) : bool :=
  bool_decide (n ∈ l.*1).

Definition lift {A} (r : result A) : M A := λ st, (r, st).

(** [nc.Dataset(path)] / [nc.Dataset(path, 'r+')].  The script may pass
    [None] where a path is expected.  The two modes are not told apart:
    opening a path that holds no NetCDF file raises in both. *)
Definition nc_Dataset (path : option string) : M dataset := λ st,
  match path with
  | None => (Raise TypeError, st)
  | Some p =>
      match fs st !! p with
      | Some (FNc ds) => (Ok ds, st)
      | _ => (Raise (OSError p), st)
      end
  end.

(** Changes made through an open dataset reach the file. *)
Definition nc_sync (path : string) (ds : dataset) : M unit := λ st,
  (Ok tt, set_fs (insert path (FNc ds)) st).

Definition dim_id (n : string) (ds : dataset) : option nat :=
  fst <$> list_find (λ e, e.1 = n) (ds_dims ds).

Definition dim_size (ds : dataset) (i : nat) : nat :=
  default 0%nat (snd <$> ds_dims ds !! i).

Definition var_size (ds : dataset) (ids : list nat) : nat :=
  foldr Nat.mul 1%nat (dim_size ds <$> ids).

(** [f.createVariable(name, 'f8', dimnames)] *)
Definition createVariable (name : string) (dimnames : list string)
    (ds : dataset) : result dataset :=
  match mapM (λ d, dim_id d ds) dimnames with
  | None => Raise ValueError
  | Some ids =>
      if has_name name (ds_vars ds) then Raise RuntimeError
      else Ok (Dataset (ds_dims ds)
                 (ds_vars ds ++
                    [(name, NcVar ids (replicate (var_size ds ids) NC_FILL_DOUBLE))]))
  end.

(** [f.variables[name]] *)
Definition get_variable (name : string) (ds : dataset) : result variable :=
  match list_find (λ e, e.1 = name) (ds_vars ds) with
  | Some (_, (_, v)) => Ok v
  | None => Raise (KeyError name)
  end.

(** Column 0 of a row-major matrix with rows of [k] cells, read and
    written. *)
Fixpoint column0 (k : nat) (rows : nat) (data : list float) : list float :=
  match rows with
  | O => []
  | S rows' => default NC_FILL_DOUBLE (head data) :: column0 k rows' (drop k data)
  end.

Fixpoint set_column0 (k : nat) (vals : list float) (data : list float) : list float :=
  match vals with
  | [] => data
  | v :: vals' => (v :: tail (take k data)) ++ set_column0 k vals' (drop k data)
  end.

(** [var[:, 0] = vals] on a two-dimensional variable; a single value is
    broadcast along the column. *)
Definition assign_column0 (ds : dataset) (v : variable) (vals : list float)
    : result variable :=
  match vdims v with
  | [d0; d1] =>
      let n := dim_size ds d0 in
      let k := dim_size ds d1 in
      if bool_decide (k = 0%nat) then Raise IndexError
      else if bool_decide (length vals = n) then
        Ok (NcVar (vdims v) (set_column0 k vals (vdata v)))
      else if bool_decide (length vals = 1%nat) then
        Ok (NcVar (vdims v)
              (set_column0 k (replicate n (default NC_FILL_DOUBLE (head vals))) (vdata v)))
      else Raise ValueError
  | _ => Raise IndexError
  end.

Definition set_variable (name : string) (v : variable) (ds : dataset) : dataset :=
  Dataset (ds_dims ds)
    (map (λ e, if decide (e.1 = name) then (e.1, v) else e) (ds_vars ds)).

(** ** External programs *)

Inductive rename := RDim (old new : string) | RVar (old new : string).

Fixpoint split_comma (s : string) : option (string * string) :=
  match s with
  | EmptyString => None
  | String c s' =>
      if bool_decide (c = ","%char) then Some ("", s')
      else match split_comma s' with
           | Some (a, b) => Some (String c a, b)
           | None => None
           end
  end.

(** The command line of ncrename: [-d old,new] and [-v old,new] options,
    then the positional arguments. *)
Fixpoint parse_ncrename (args : list string) : option (list rename * list string) :=
  match args with
  | k :: x :: rest =>
      if decide (k = "-d") then
        match split_comma x, parse_ncrename rest with
        | Some (o, n), Some (rs, pos) => Some (RDim o n :: rs, pos)
        | _, _ => None
        end
      else if decide (k = "-v") then
        match split_comma x, parse_ncrename rest with
        | Some (o, n), Some (rs, pos) => Some (RVar o n :: rs, pos)
        | _, _ => None
        end
      else Some ([], args)
  | _ => Some ([], args)
  end.

Definition rename_in {A} (old new : string) (l : list (string * A))
    : option (list (string * A)) :=
  if has_name old l then
    if has_name new l then None
    else Some (map (λ e, (if decide (e.1 = old) then new else e.1, e.2)) l)
  else None.

Definition apply_rename (r : rename) (ds : dataset) : option dataset :=
  match r with
  | RDim o n => (λ d, Dataset d (ds_vars ds)) <$> rename_in o n (ds_dims ds)
  | RVar o n => Dataset (ds_dims ds) <$> rename_in o n (ds_vars ds)
  end.

Fixpoint apply_renames (rs : list rename) (ds : dataset) : option dataset :=
  match rs with
  | [] => Some ds
  | r :: rs' =>
      match apply_rename r ds with
      | Some ds' => apply_renames rs' ds'
      | None => None
      end
  end.

(** Modelled from the spec: the external rename utility (NCO's ncrename),
    which is not part of the repository.  It renames the listed dimensions
    and variables of its input into its output file; it fails, writing no
    output, when the input is not a NetCDF file, when a name to rename is
    absent or a new name is taken, or when the output exists already (it
    would prompt). *)
Definition ncrename (args : list string) (m : gmap string file)
    : proc_outcome * gmap string file :=
  match parse_ncrename args with
  | Some (rs, [input; output]) =>
      match m !! input, m !! output with
      | Some (FNc ds), None =>
          match apply_renames rs ds with
          | Some ds' => (Exited 0 "", <[output := FNc ds']> m)
          | None => (Exited 1 "ncrename: ERROR name not found or in use", m)
          end
      | Some (FNc _), Some _ => (Exited 1 "ncrename: output file exists", m)
      | _, _ => (Exited 1 ("ncrename: ERROR file " +:+ input +:+ " not found"), m)
      end
  | _ => (Exited 1 "ncrename: usage", m)
  end.

(** Option [key value] pairs of a command line. *)
Fixpoint find_opt (key : string) (args : list string) : option string :=
  match args with
  | k :: v :: rest => if decide (k = key) then Some v else find_opt key rest
  | _ => None
  end.

Definition esmf_log_name : string := "PET0.RegridWeightGen.Log".

(** The effect of one run of [mpirun -np n ESMF_RegridWeightGen ...] on the
    file system. *)
Definition esmf_writes (eff : esmf_effect) (args : list string)
    (m : gmap string file) : gmap string file :=
  let m1 := match esmf_weights eff, find_opt "-w" (drop 3 args) with
            | Some ds, Some w => <[w := FNc ds]> m
            | _, _ => m
            end in
  match esmf_log eff with
  | Some s => <[esmf_log_name := FText s]> m1
  | None => m1
  end.

(** [sp.check_output(cmd)] *)
Definition finish_process (prog : string) (o : proc_outcome) : M string := λ st,
  match o with
  | Exited rc out =>
      if decide (rc = 0%Z) then (Ok out, st)
      else (Raise (CalledProcessError rc out), st)
  | SpawnFailed => (Raise (OSError prog), st)
  end.

Definition check_output (E : env) (cmd : list string) : M string := λ st,
  match cmd with
  | [] => (Raise IndexError, st)
  | prog :: args =>
      if decide (prog = "ncrename") then
        let '(o, m') := ncrename args (fs st) in
        finish_process prog o (add_event (EvExec cmd o) (set_fs (λ _, m') st))
      else if decide (prog = "mpirun") then
        let eff := esmf_run E cmd (fs st) in
        finish_process prog (esmf_proc eff)
          (add_event (EvExec cmd (esmf_proc eff)) (set_fs (esmf_writes eff args) st))
      else (Raise (OSError prog), add_event (EvExec cmd SpawnFailed) st)
  end.

(** ** The grid-object library (esmgrids) *)

(** Modelled from the spec: the grid-object library is an external
    collaborator.  A constructor reads its definition file(s) and fails when
    one cannot be read; a grid serialises itself to a grid-description file
    with its own mask, or with the mask given to override it. *)
Definition read_grid_file (p : string) : M mask := λ st,
  match fs st !! p with
  | Some (FData m) => (Ok m, st)
  | _ => (Raise (OSError p), st)
  end.

Definition Core2Grid (p : string) : M grid :=
  m ← read_grid_file p; mret (Grid Core2 [p] m).

Definition Jra55Grid (p : string) : M grid :=
  m ← read_grid_file p; mret (Grid Jra55 [p] m).

Definition Jra55RiverGrid (p : string) : M grid :=
  m ← read_grid_file p; mret (Grid Jra55River [p] m).

Definition MomGrid_fromfile (hgrid mask_file : string) : M grid :=
  _ ← read_grid_file hgrid;
  m ← read_grid_file mask_file;
  mret (Grid Mom [hgrid; mask_file] m).

Definition write_scrip (g : grid) (path : string) (mask_override : option mask)
    : M unit := λ st,
  let m := default (mask_t g) mask_override in
  (Ok tt, add_event (EvWriteScrip path g m) (set_fs (insert path (FScrip g m)) st)).

(** [np.zeros_like(m, dtype=int)] *)
Definition zeros_like (m : mask) : mask := map (map (λ _, 0%Z)) m.

(** ** The script *)

(** The [-d]/[-v] options of the ncrename command line, as in the source. *)
Definition ncrename_options : list string :=
  [ "-d"; "n_a,src_grid_size"; "-d"; "n_b,dst_grid_size"; "-d"; "n_s,num_links";
    "-d"; "nv_a,src_grid_corners"; "-d"; "nv_b,dst_grid_corners";
    "-v"; "yc_a,src_grid_center_lat"; "-v"; "yc_b,dst_grid_center_lat";
    "-v"; "xc_a,src_grid_center_lon"; "-v"; "xc_b,dst_grid_center_lon";
    "-v"; "yv_a,src_grid_corner_lat"; "-v"; "xv_a,src_grid_corner_lon";
    "-v"; "yv_b,dst_grid_corner_lat"; "-v"; "xv_b,dst_grid_corner_lon";
    "-v"; "mask_a,src_grid_imask"; "-v"; "mask_b,dst_grid_imask";
    "-v"; "area_a,src_grid_area"; "-v"; "area_b,dst_grid_area";
    "-v"; "frac_a,src_grid_frac"; "-v"; "frac_b,dst_grid_frac";
    "-v"; "col,src_address"; "-v"; "row,dst_address" ].

(** ['{}'.format(x)] of a path that may be [None]. *)
Definition format_path (p : option string) : string := default "None" p.

(** [shlex.split] of the formatted command: the tokens of the command line
    (the paths are temp names, free of blanks and quotes). *)
Definition ncrename_cmd (weights : option string) (new_weights : string) : list string :=
  "ncrename" :: ncrename_options ++ [format_path weights; new_weights].

(** The [with] block of the converter: "Fix the dimension of the
    remap_matrix". *)
Definition fix_remap_matrix (weights : option string) (new_weights : string) : M unit :=
  f_old ← nc_Dataset weights;
  f_new ← nc_Dataset (Some new_weights);
  f_new1 ← lift (createVariable "remap_matrix" ["num_links"; "num_wgts"] f_new);
  nc_sync new_weights f_new1;;
  remap_matrix ← lift (get_variable "remap_matrix" f_new1);
  S ← lift (get_variable "S" f_old);
  remap_matrix' ← lift (assign_column0 f_new1 remap_matrix (vdata S));
  nc_sync new_weights (set_variable "remap_matrix" remap_matrix' f_new1).

(** The [try] statement around the rename subprocess. *)
Definition rename_step (E : env) (weights : option string) (new_weights : string) : M unit :=
  try_except_CalledProcessError
    (_ ← check_output E (ncrename_cmd weights new_weights); mret tt)
    (λ _ output, print_stderr output).

Definition convert_to_scrip_output (E : env) (weights : option string) : M string :=
  new_weights ← mkstemp;
  os_remove new_weights;;
  rename_step E weights new_weights;;
  fix_remap_matrix weights new_weights;;
  match weights with
  | Some w => os_remove w
  | None => raise TypeError
  end;;
  mret new_weights.

(** [repr] of a string.  A string of printable ASCII characters with no
    single quote and no backslash is printed between single quotes as it
    is; any other string is escaped, or printed between double quotes. *)
Definition plain_char (c : ascii) : bool :=
  let n := nat_of_ascii c in
  (32 <=? n)%nat && (n <=? 126)%nat && negb (n =? 39)%nat && negb (n =? 92)%nat.

Fixpoint plain (s : string) : bool :=
  match s with
  | EmptyString => true
  | String c s' => plain_char c && plain s'
  end.

Definition repr (E : env) (s : string) : string :=
  if plain s then "'" +:+ s +:+ "'" else str_repr E s.

(** [print(cmd)] of a list of strings. *)
Definition repr_list (E : env) (l : list string) : string :=
  "[" +:+ String.concat ", " (repr E <$> l) +:+ "]".

Definition esmf_cmd (E : env) (esmf src_grid_scrip dest_grid_scrip method
    regrid_weights : string) (ignore_unmapped : list string) : list string :=
  ["mpirun"; "-np"; pretty (cpu_count E `div` 2)%nat] ++ [esmf] ++
  ["-s"; src_grid_scrip; "-d"; dest_grid_scrip; "-m"; method; "-w"; regrid_weights]
  ++ ignore_unmapped.

(** The [except] clause of [create_weights]. *)
Definition report_esmf_failure (E : env) (returncode : Z) (output : string) : M unit :=
  print_stderr ("Error: ESMF_RegridWeightGen failed ret " +:+ pretty returncode);;
  print_stderr output;;
  let log := esmf_log_name in
  log_exists ← os_path_exists log;
  if (log_exists : bool) then
    print_stderr ("Contents of " +:+ log +:+ ":");;
    text ← read_file E log;
    print_stderr text
  else mret tt.

(** The result is [None] after a failed run of the generator, else the path
    of the raw weight file. *)
Definition create_weights (E : env) (src_grid dest_grid : grid) (method : string)
    (ignore_unmapped unmasked_src unmasked_dest : bool) : M (option string) :=
  src_grid_scrip ← mkstemp;
  dest_grid_scrip ← mkstemp;
  regrid_weights ← mkstemp;
  (if unmasked_src
   then write_scrip src_grid src_grid_scrip (Some (zeros_like (mask_t src_grid)))
   else write_scrip src_grid src_grid_scrip None);;
  (if unmasked_dest
   then write_scrip dest_grid dest_grid_scrip (Some (zeros_like (mask_t dest_grid)))
   else write_scrip dest_grid dest_grid_scrip None);;
  let ignore_unmapped := if ignore_unmapped then ["--ignore_unmapped"] else [] in
  let esmf := path_join (my_dir E) ["contrib"; "bin"; "ESMF_RegridWeightGen"] in
  found ← os_path_exists esmf;
  let esmf := if (found : bool) then esmf else "ESMF_RegridWeightGen" in
  let cmd := esmf_cmd E esmf src_grid_scrip dest_grid_scrip method regrid_weights
               ignore_unmapped in
  generated ← try_except_CalledProcessError
    (print (repr_list E cmd);;
     _ ← check_output E cmd;
     mret true)
    (λ returncode output,
       report_esmf_failure E returncode output;;
       mret false);
  if (generated : bool) then
    os_remove src_grid_scrip;;
    os_remove dest_grid_scrip;;
    mret (Some regrid_weights)
  else mret None.

(** The keyword defaults of [create_weights]. *)
Definition default_method : string := "conserve".
Definition default_ignore_unmapped : bool := false.
Definition default_unmasked_src : bool := true.
Definition default_unmasked_dest : bool := false.

(** An entry of the grid-definition dictionary: a path, or a pair of paths. *)
Inductive grid_def :=
  | OnePath (p : string)
  | TwoPaths (hgrid mask_file : string).

Definition find_grid_defs (input_dir jra55_input : string) : gmap string grid_def :=
  let d := ∅ in
  let d := <["MOM1" := TwoPaths (path_join input_dir ["mom_1deg"; "ocean_hgrid.nc"])
                                (path_join input_dir ["mom_1deg"; "ocean_mask.nc"])]> d in
  let d := <["MOM025" := TwoPaths (path_join input_dir ["mom_025deg"; "ocean_hgrid.nc"])
                                  (path_join input_dir ["mom_025deg"; "ocean_mask.nc"])]> d in
  let d := <["MOM01" := TwoPaths (path_join input_dir ["mom_01deg"; "ocean_hgrid.nc"])
                                 (path_join input_dir ["mom_01deg"; "ocean_mask.nc"])]> d in
  let d := <["CORE2" := OnePath (path_join input_dir ["core_nyf"; "t_10.0001.nc"])]> d in
  let d := <["JRA55" := OnePath (path_join jra55_input ["RYF.t_10.1990_1991.nc"])]> d in
  let d := <["JRA55_runoff" :=
               OnePath (path_join jra55_input ["RYF.runoff_all.1990_1991.nc"])]> d in
  d.

(** [grid_file_dict[k]], [grid_file_dict[k][0]], [grid_file_dict[k][1]] *)
Definition dict_get (d : gmap string grid_def) (k : string) : M grid_def :=
  match d !! k with
  | Some v => mret v
  | None => raise (KeyError k)
  end.

Definition as_path (v : grid_def) : M string :=
  match v with
  | OnePath p => mret p
  | TwoPaths _ _ => raise TypeError
  end.

Definition item (i : nat) (v : grid_def) : M string :=
  match v, i with
  | TwoPaths h _, 0%nat => mret h
  | TwoPaths _ m, 1%nat => mret m
  | _, _ => raise TypeError
  end.

(** The namespace [parser.parse_args()] returns.  A command line argparse
    does not accept, or one asking for help, ends the process inside
    parse_args, before any statement modelled here. *)
Record args := Args {
  input_dir : string;
  jra55_input : string;
  atm : option string;
  ocean : option string;
  method : option string
}.

Definition atm_options : list string := ["CORE2"; "JRA55"; "JRA55_runoff"].
Definition ocean_options : list string := ["MOM1"; "MOM01"; "MOM025"].
Definition method_options : list string := ["patch"; "conserve2nd"].

(** [parser.print_help()]: the help message argparse builds from the
    declared arguments goes to standard output. *)
Definition print_help (E : env) : M unit := print (help_text E).

Definition output_name (atm ocean method : string) : string :=
  atm +:+ "_" +:+ ocean +:+ "_" +:+ method +:+ ".nc".

(** The body of the innermost loop of [main]. *)
Definition process_combination (E : env) (grid_file_dict : gmap string grid_def)
    (atm ocean method : string) : M unit :=
  src_grid ←
    (if decide (atm = "CORE2") then
       v ← dict_get grid_file_dict atm; p ← as_path v; Core2Grid p
     else if decide (atm = "JRA55") then
       v ← dict_get grid_file_dict atm; p ← as_path v; Jra55Grid p
     else
       (* the name Jra552RiverGrid is bound nowhere in the module *)
       raise (NameError "Jra552RiverGrid"));
  hgrid ← (v ← dict_get grid_file_dict ocean; item 0 v);
  mask_file ← (v ← dict_get grid_file_dict ocean; item 1 v);
  dest_grid ← MomGrid_fromfile hgrid mask_file;
  weights ← create_weights E src_grid dest_grid method
              default_ignore_unmapped default_unmasked_src default_unmasked_dest;
  weights ← convert_to_scrip_output E weights;
  shutil_move weights (output_name atm ocean method).

(** The three nested loops of [main] and its [return 0]. *)
Definition main_loops (E : env) (a : args) (atms oceans methods : list string) : M Z :=
  let grid_file_dict := find_grid_defs (input_dir a) (jra55_input a) in
  for_each atms (λ atm,
    for_each oceans (λ ocean,
      for_each methods (λ method,
        process_combination E grid_file_dict atm ocean method)));;
  mret 0%Z.

(** The early [return 1] of a rejected [--atm] or [--ocean] value (the
    message is the same for both). *)
Definition bad_grid (E : env) : M Z :=
  print_stderr "Error: bad atm grid.";;
  print_help E;;
  mret 1%Z.

Definition main_method (E : env) (a : args) (atms oceans : list string) : M Z :=
  match method a with
  | None => main_loops E a atms oceans method_options
  | Some x => main_loops E a atms oceans [x]
  end.

Definition main_ocean (E : env) (a : args) (atms : list string) : M Z :=
  match ocean a with
  | None => main_method E a atms ocean_options
  | Some x =>
      if bool_decide (x ∈ ocean_options) then main_method E a atms [x]
      else bad_grid E
  end.

Definition main (E : env) (a : args) : M Z :=
  match atm a with
  | None => main_ocean E a atm_options
  | Some x =>
      if bool_decide (x ∈ atm_options) then main_ocean E a [x]
      else bad_grid E
  end.

(** [sys.exit(main())]: the exit status of the process.  An exception that
    nothing catches ends the interpreter with status 1. *)
Definition exit_status (r : result Z) : Z :=
  match r with
  | Ok code => code
  | Raise _ => 1%Z
  end.

Definition run (E : env) (a : args) (st : state) : Z * state :=
  let '(r, st') := main E a st in (exit_status r, st').

(** ** A small concrete world, for running the script *)

Module Sample.

(** A weight file as the generator writes one: two source cells, one
    destination cell, three links. *)
Definition raw_weights : dataset :=
  Dataset
    [ ("n_a", 2); ("n_b", 1); ("n_s", 3); ("nv_a", 4); ("nv_b", 4);
      ("num_wgts", 1); ("src_grid_rank", 2); ("dst_grid_rank", 2) ]%nat
    [ ("yc_a", NcVar [0] [0x1p+0; 0x1p+1]%float);
      ("yc_b", NcVar [1] [0x1p+0]%float);
      ("xc_a", NcVar [0] [0x1p+2; 0x1p+3]%float);
      ("xc_b", NcVar [1] [0x1p+2]%float);
      ("yv_a", NcVar [0; 3] (replicate 8 0x1p+0%float));
      ("xv_a", NcVar [0; 3] (replicate 8 0x1p+1%float));
      ("yv_b", NcVar [1; 4] (replicate 4 0x1p+0%float));
      ("xv_b", NcVar [1; 4] (replicate 4 0x1p+1%float));
      ("mask_a", NcVar [0] [0x1p+0; 0x1p+0]%float);
      ("mask_b", NcVar [1] [0x1p+0]%float);
      ("area_a", NcVar [0] [0x1p-1; 0x1p-1]%float);
      ("area_b", NcVar [1] [0x1p+0]%float);
      ("frac_a", NcVar [0] [0x1p+0; 0x1p+0]%float);
      ("frac_b", NcVar [1] [0x1p+0]%float);
      ("col", NcVar [2] [0x1p+0; 0x1p+1; 0x1p+1]%float);
      ("row", NcVar [2] [0x1p+0; 0x1p+0; 0x1p+0]%float);
      ("S", NcVar [2] [0x1p-1; 0x1p-2; 0x1p-2]%float) ]%nat.

(** A generator that always succeeds and writes [raw_weights]. *)
Definition E_ok : env :=
  Env "/opt/tools" 8
      (λ _ _, EsmfEffect (Exited 0 "done") (Some raw_weights) None)
      (λ _, "")
      "usage: make_remap_weights.py [-h] [--atm ATM] [--ocean OCEAN] [--method METHOD] input_dir jra55_input"
      (λ s, s).

(** A generator that fails with status 3 and leaves a log. *)
Definition E_fail : env :=
  Env "/opt/tools" 8
      (λ _ _, EsmfEffect (Exited 3 "aborted") None (Some "PET0 log text"))
      (λ _, "")
      "usage: make_remap_weights.py [-h] [--atm ATM] [--ocean OCEAN] [--method METHOD] input_dir jra55_input"
      (λ s, s).

Definition ocean_mask : mask := [[1; 0]; [0; 1]]%Z.
Definition atm_mask : mask := [[1; 1; 1]]%Z.

Definition files : gmap string file :=
  list_to_map
    [ ("/in/mom_1deg/ocean_hgrid.nc", FData []);
      ("/in/mom_1deg/ocean_mask.nc", FData ocean_mask);
      ("/in/mom_01deg/ocean_hgrid.nc", FData []);
      ("/in/mom_01deg/ocean_mask.nc", FData ocean_mask);
      ("/in/mom_025deg/ocean_hgrid.nc", FData []);
      ("/in/mom_025deg/ocean_mask.nc", FData ocean_mask);
      ("/in/core_nyf/t_10.0001.nc", FData atm_mask);
      ("/jra/RYF.t_10.1990_1991.nc", FData atm_mask);
      ("/jra/RYF.runoff_all.1990_1991.nc", FData atm_mask) ].

Definition st0 : state := State files [] [] [] 0.

Definition cli (atm ocean method : option string) : args :=
  Args "/in" "/jra" atm ocean method.

(** The state after a successful [create_weights]: the raw weight file
    sits under the third temp name. *)
Definition st_raw : state :=
  State (<[tmp_path 2 := FNc raw_weights]> files) [] [] [] 3.

Definition atm_grid : grid := Grid Core2 ["/in/core_nyf/t_10.0001.nc"] atm_mask.
Definition ocean_grid : grid :=
  Grid Mom ["/in/mom_1deg/ocean_hgrid.nc"; "/in/mom_1deg/ocean_mask.nc"] ocean_mask.

End Sample.

(** * Vocabulary of the properties *)

(** A computation that raises from every state. *)
Definition always_raises {A} (m : M A) : Prop :=
  ∀ st, ∃ e st', m st = (Raise e, st').

(** A filter was given a value outside its option set. *)
Definition rejected (given : option string) (options : list string) : Prop :=
  ∃ x, given = Some x ∧ x ∉ options.

(** The reading of C2 for the --method filter: a value outside the method
    options ends the run with the usage message, a non-zero status, and
    nothing processed. *)
Definition method_is_checked : Prop :=
  ∀ E a st x, method a = Some x → x ∉ method_options →
    (run E a st).1 ≠ 0%Z ∧ help_text E ∈ stdout (run E a st).2 ∧
    fs (run E a st).2 = fs st.

(** The output names of the full product, in the order of the loops. *)
Definition all_output_names : list string :=
  a ← atm_options; o ← ocean_options; m ← method_options; [output_name a o m].

(** The mask a side's grid description is written with. *)
Definition written_mask (g : grid) (unmasked : bool) : mask :=
  if unmasked then zeros_like (mask_t g) else mask_t g.

(** The state in which the generator is launched: three temp files were
    made and the two grid descriptions written. *)
Definition prepared (src dst : grid) (us ud : bool) (st : state) : state :=
  let n := next_tmp st in
  let st := bump_tmp (set_fs (insert (tmp_path n) (FText "")) st) in
  let st := bump_tmp (set_fs (insert (tmp_path (S n)) (FText "")) st) in
  let st := bump_tmp (set_fs (insert (tmp_path (S (S n))) (FText "")) st) in
  let st := add_event (EvWriteScrip (tmp_path n) src (written_mask src us))
              (set_fs (insert (tmp_path n) (FScrip src (written_mask src us))) st) in
  add_event (EvWriteScrip (tmp_path (S n)) dst (written_mask dst ud))
    (set_fs (insert (tmp_path (S n)) (FScrip dst (written_mask dst ud))) st).

(** The generator's command line. *)
Definition launch_cmd (E : env) (method : string) (iu : bool) (st : state)
    (st1 : state) : list string :=
  let esmf := path_join (my_dir E) ["contrib"; "bin"; "ESMF_RegridWeightGen"] in
  esmf_cmd E
    (if bool_decide (is_Some (fs st1 !! esmf)) then esmf else "ESMF_RegridWeightGen")
    (tmp_path (next_tmp st)) (tmp_path (S (next_tmp st))) method
    (tmp_path (S (S (next_tmp st))))
    (if iu then ["--ignore_unmapped"] else []).

(** The state right after the generator ran. *)
Definition launched (E : env) (cmd : list string) (st1 : state) : state :=
  let eff := esmf_run E cmd (fs st1) in
  add_event (EvExec cmd (esmf_proc eff))
    (set_fs (esmf_writes eff (tail cmd)) (add_stdout (repr_list E cmd) st1)).

(** Computations that leave the event trace alone. *)
Definition keeps_trace {A} (m : M A) : Prop := ∀ st, trace (m st).2 = trace st.

(** The text [open(log).read()] yields for a file. *)
Definition file_text (E : env) (f : file) : string :=
  match f with
  | FText s => s
  | _ => file_bytes E f
  end.

(** What the [except] clause prints about the log, if there is one. *)
Definition log_lines (E : env) (m : gmap string file) : list string :=
  match m !! esmf_log_name with
  | Some f => ["Contents of PET0.RegridWeightGen.Log:"; file_text E f]
  | None => []
  end.

(** Computations all of whose events satisfy [P]. *)
Definition emits (P : event → Prop) {A} (m : M A) : Prop :=
  ∀ st, ∃ evs, trace (m st).2 = trace st ++ evs ∧ Forall P evs.

(** Computations whose results satisfy [Q]. *)
Definition returns {A} (Q : A → Prop) (m : M A) : Prop :=
  ∀ st a st', m st = (Ok a, st') → Q a.

(** What the driver's calls look like: an atmosphere grid is written with
    an all-zero mask and an ocean grid with its own; the generator's command
    line carries no trailing flag. *)
Definition default_call (E : env) (e : event) : Prop :=
  match e with
  | EvWriteScrip _ g m =>
      m = match gkind g with
          | Mom => mask_t g
          | _ => zeros_like (mask_t g)
          end
  | EvExec cmd _ =>
      head cmd = Some "mpirun" →
      ∃ esmf s d method w, cmd = esmf_cmd E esmf s d method w []
  end.

(** The renames of the command line, as tables from old name to new. *)
Definition dim_renames : list (string * string) :=
  [ ("n_a", "src_grid_size"); ("n_b", "dst_grid_size"); ("n_s", "num_links");
    ("nv_a", "src_grid_corners"); ("nv_b", "dst_grid_corners") ].

Definition var_renames : list (string * string) :=
  [ ("yc_a", "src_grid_center_lat"); ("yc_b", "dst_grid_center_lat");
    ("xc_a", "src_grid_center_lon"); ("xc_b", "dst_grid_center_lon");
    ("yv_a", "src_grid_corner_lat"); ("xv_a", "src_grid_corner_lon");
    ("yv_b", "dst_grid_corner_lat"); ("xv_b", "dst_grid_corner_lon");
    ("mask_a", "src_grid_imask"); ("mask_b", "dst_grid_imask");
    ("area_a", "src_grid_area"); ("area_b", "dst_grid_area");
    ("frac_a", "src_grid_frac"); ("frac_b", "dst_grid_frac");
    ("col", "src_address"); ("row", "dst_address") ].

Definition rename_table : list rename :=
  (uncurry RDim <$> dim_renames) ++ (uncurry RVar <$> var_renames).

(** A name after renaming by a table. *)
Fixpoint rename_name (tbl : list (string * string)) (n : string) : string :=
  match tbl with
  | [] => n
  | (o, n') :: t => if decide (n = o) then n' else rename_name t n
  end.

Definition rename_entries {A} (tbl : list (string * string))
    (l : list (string * A)) : list (string * A) :=
  (λ e, (rename_name tbl e.1, e.2)) <$> l.

Fixpoint rename_seq {A} (tbl : list (string * string)) (l : list (string * A))
    : option (list (string * A)) :=
  match tbl with
  | [] => Some l
  | (o, n) :: t =>
      match rename_in o n l with
      | Some l' => rename_seq t l'
      | None => None
      end
  end.

(** A table that renames one-to-one, into names it does not rename. *)
Definition one_to_one (tbl : list (string * string)) : Prop :=
  NoDup tbl.*1 ∧ NoDup tbl.*2 ∧ Forall (λ o, o ∉ tbl.*2) tbl.*1.

(** The entries a table can be applied to: every old name is there, no new
    name is. *)
Definition renamable {A} (tbl : list (string * string)) (l : list (string * A)) : bool :=
  forallb (λ o, has_name o l) tbl.*1 && forallb (λ n, negb (has_name n l)) tbl.*2.

(** The dataset ncrename leaves. *)
Definition renamed (ds : dataset) : dataset :=
  Dataset (rename_entries dim_renames (ds_dims ds))
          (rename_entries var_renames (ds_vars ds)).

(** The state the rename command is run in: the temp name was claimed and
    given up again. *)
Definition renaming_from (st : state) : state :=
  set_fs (delete (tmp_path (next_tmp st)))
    (bump_tmp (set_fs (insert (tmp_path (next_tmp st)) (FText "")) st)).

(** The [with] block on the two datasets alone. *)
Definition fix_dataset (f_old f_new : dataset) : result dataset :=
  match createVariable "remap_matrix" ["num_links"; "num_wgts"] f_new with
  | Ok f_new1 =>
      match get_variable "remap_matrix" f_new1 with
      | Ok remap_matrix =>
          match get_variable "S" f_old with
          | Ok s =>
              match assign_column0 f_new1 remap_matrix (vdata s) with
              | Ok remap_matrix' => Ok (set_variable "remap_matrix" remap_matrix' f_new1)
              | Raise e => Raise e
              end
          | Raise e => Raise e
          end
      | Raise e => Raise e
      end
  | Raise e => Raise e
  end.

(** Without the renamed file the [with] block raises at once, from one of
    its two opens. *)
Definition open_error (w : option string) (nw : string) (m : gmap string file) : exn :=
  match w with
  | None => TypeError
  | Some p =>
      match m !! p with
      | Some (FNc _) => OSError nw
      | _ => OSError p
      end
  end.

(** A weight file as the converter expects it from the generator: the names
    to rename are there and the new ones are free, there is no remap_matrix
    yet, the num_wgts dimension is not empty, and S has one value per link. *)
Definition raw_weight_file (ds : dataset) : bool :=
  renamable dim_renames (ds_dims ds) && renamable var_renames (ds_vars ds) &&
  negb (has_name "remap_matrix" (ds_vars ds)) &&
  match dim_id "n_s" ds, dim_id "num_wgts" ds, get_variable "S" ds with
  | Some i, Some j, Ok s =>
      bool_decide (dim_size ds j ≠ 0%nat) &&
      bool_decide (length (vdata s) = dim_size ds i)
  | _, _, _ => false
  end.

(** The dataset the converter leaves: the renamed raw file with the weight
    matrix added. *)
Definition remap_matrix_of (ds : dataset) (i j : nat) (s : variable) : variable :=
  NcVar [i; j]
    (set_column0 (dim_size ds j) (vdata s)
       (replicate (dim_size ds i * (dim_size ds j * 1)) NC_FILL_DOUBLE)).

Definition converted (ds : dataset) (i j : nat) (s : variable) : dataset :=
  Dataset (rename_entries dim_renames (ds_dims ds))
    (rename_entries var_renames (ds_vars ds) ++
       [("remap_matrix", remap_matrix_of ds i j s)]).

(** Entries renamed by a table: the old names are gone, the new ones are
    there, and every entry stays in its place with its content, under its
    old name if the table does not rename it and under the new one if it
    does. *)
Definition renamed_by {A} (tbl : list (string * string))
    (l l' : list (string * A)) : Prop :=
  (∀ o, o ∈ tbl.*1 → o ∉ l'.*1) ∧
  (∀ n, n ∈ tbl.*2 → n ∈ l'.*1) ∧
  (∀ i x a, l !! i = Some (x, a) → x ∉ tbl.*1 → l' !! i = Some (x, a)) ∧
  (∀ i o n a, (o, n) ∈ tbl → l !! i = Some (o, a) → l' !! i = Some (n, a)) ∧
  length l' = length l.

(** Computations that only read. *)
Definition keeps_state {A} (m : M A) : Prop := ∀ st, (m st).2 = st.

(** The four temp names a combination uses are free. *)
Definition temps_free (st : state) : Prop :=
  Forall (λ k, fs st !! tmp_path (next_tmp st + k) = None) (seq 0 4).

(** What the generator may leave in the working directory besides the
    weight file. *)
Definition with_log (log : option string) (m : gmap string file) : gmap string file :=
  match log with
  | Some s => <[esmf_log_name := FText s]> m
  | None => m
  end.

(** A command that ended with status 0; writing a grid is no command. *)
Definition exited_zero (e : event) : Prop :=
  match e with
  | EvExec _ o => ∃ out, o = Exited 0 out
  | EvWriteScrip _ _ _ => True
  end.

(** Computations all of whose events satisfy [P] when they end normally. *)
Definition emits_if_ok (P : event → Prop) {A} (m : M A) : Prop :=
  ∀ st a st', m st = (Ok a, st') →
    ∃ evs, trace st' = trace st ++ evs ∧ Forall P evs.

(** The generator in the script's own tree, preferred to the one on the
    search path. *)
Definition contrib_esmf (E : env) : string :=
  path_join (my_dir E) ["contrib"; "bin"; "ESMF_RegridWeightGen"].

(** The next [count] temp names are free. *)
Definition free_temps (count : nat) (st : state) : Prop :=
  Forall (λ k, fs st !! tmp_path (next_tmp st + k) = None) (seq 0 count).

(** The last character of a string, if it has one. *)
Fixpoint last_char (s : string) : option ascii :=
  match s with
  | EmptyString => None
  | String c EmptyString => Some c
  | String _ s' => last_char s'
  end.

(** No temp name the counter has yet to hand out is taken. *)
Definition temps_unused (st : state) : Prop :=
  ∀ k : nat, (next_tmp st ≤ k)%nat → fs st !! tmp_path k = None.

(** The values a filter selects: the one given, or all options. *)
Definition selected (given : option string) (options : list string) : list string :=
  match given with
  | Some x => [x]
  | None => options
  end.

(** The combinations of three lists, in the order in which three nested
    loops visit them. *)
Definition combinations (atms oceans methods : list string)
    : list (string * string * string) :=
  a ← atms; o ← oceans; m ← methods; [(a, o, m)].

Definition selected_combinations (a : args) : list (string * string * string) :=
  combinations (selected (atm a) atm_options) (selected (ocean a) ocean_options)
    (selected (method a) method_options).

(** The loop body on one combination, and the name of its output. *)
Definition combination_body (E : env) (d : gmap string grid_def)
    (c : string * string * string) : M unit :=
  process_combination E d c.1.1 c.1.2 c.2.

Definition combination_output (c : string * string * string) : string :=
  output_name c.1.1 c.1.2 c.2.

(** Both grid filters pass the checks of main. *)
Definition valid_filters (a : args) : bool :=
  match atm a with
  | Some x => bool_decide (x ∈ atm_options)
  | None => true
  end &&
  match ocean a with
  | Some x => bool_decide (x ∈ ocean_options)
  | None => true
  end.

(** Computations that leave a component of the state alone, however they
    end. *)
Definition preserves {B} (proj : state → B) {A} (m : M A) : Prop :=
  ∀ st, proj (m st).2 = proj st.

(** The file system but for one path. *)
Definition fs_off (q : string) (st : state) : gmap string file := delete q (fs st).

(** What was printed, on both streams. *)
Definition printed (st : state) : list string * list string :=
  (stdout st, stderr st).

(** A raw weight file with two weights per link, and a state that holds it
    under the third temp name. *)
Definition wide_weights : dataset :=
  Dataset (<[5%nat := ("num_wgts", 2%nat)]> (ds_dims Sample.raw_weights))
          (ds_vars Sample.raw_weights).

Definition st_wide : state :=
  State (<[tmp_path 2 := FNc wide_weights]> Sample.files) [] [] [] 3.

(** The two grids of a combination, as the loop body builds them (the
    if/elif/else on the atmosphere grid, and MomGrid.fromfile on the two
    paths of the ocean grid). *)
Definition source_grid (grid_file_dict : gmap string grid_def) (atm : string)
    : M grid :=
  if decide (atm = "CORE2") then
    v ← dict_get grid_file_dict atm; p ← as_path v; Core2Grid p
  else if decide (atm = "JRA55") then
    v ← dict_get grid_file_dict atm; p ← as_path v; Jra55Grid p
  else raise (NameError "Jra552RiverGrid").

Definition dest_grid (grid_file_dict : gmap string grid_def) (ocean : string)
    : M grid :=
  hgrid ← (v ← dict_get grid_file_dict ocean; item 0 v);
  mask_file ← (v ← dict_get grid_file_dict ocean; item 1 v);
  MomGrid_fromfile hgrid mask_file.

(** The command lines of the generator among some events, in their order. *)
Definition generator_cmds (evs : list event) : list (list string) :=
  omap (λ e, match e with
             | EvExec cmd _ =>
                 if decide (head cmd = Some "mpirun") then Some cmd else None
             | EvWriteScrip _ _ _ => None
             end) evs.

(** * Properties *)

(** Membership in a list of literals, decided by evaluation. *)
Ltac by_evaluation :=
  match goal with |- ?P => apply (bool_decide_unpack P); vm_compute; exact I end.

(** ** Running the monad *)

Lemma bind_Ok {A B} (m : M A) (f : A → M B) st a st' :
  m st = (Ok a, st') → (m ≫= f) st = f a st'.
Proof. intros H. unfold mbind, M_bind. by rewrite H. Qed.

Lemma bind_Raise {A B} (m : M A) (f : A → M B) st e st' :
  m st = (Raise e, st') → (m ≫= f) st = (Raise e, st').
Proof. intros H. unfold mbind, M_bind. by rewrite H. Qed.

Lemma bind_inv_Ok {A B} (m : M A) (f : A → M B) st b st' :
  (m ≫= f) st = (Ok b, st') →
  ∃ a st1, m st = (Ok a, st1) ∧ f a st1 = (Ok b, st').
Proof.
  unfold mbind, M_bind. destruct (m st) as [[a|e] st1]; [eauto | discriminate].
Qed.

Lemma always_raises_bind_l {A B} (m : M A) (f : A → M B) :
  always_raises m → always_raises (m ≫= f).
Proof.
  intros H st. destruct (H st) as (e & st' & Hm).
  exists e, st'. by apply bind_Raise.
Qed.

Lemma always_raises_bind_r {A B} (m : M A) (f : A → M B) :
  (∀ a, always_raises (f a)) → always_raises (m ≫= f).
Proof.
  intros H st. unfold mbind, M_bind.
  destruct (m st) as [[a|e] st1]; [apply H | eauto].
Qed.

Lemma always_raises_for_each {A} (l : list A) (body : A → M unit) x :
  x ∈ l → always_raises (body x) → always_raises (for_each l body).
Proof.
  intros Hin Hx. induction l as [|y l IH]; [by apply elem_of_nil in Hin|].
  apply elem_of_cons in Hin as [<-|Hin]; simpl.
  - by apply always_raises_bind_l.
  - apply always_raises_bind_r. intros _. by apply IH.
Qed.

(** ** The command-line filters *)

Lemma bad_grid_run E st :
  bad_grid E st =
  (Ok 1%Z, add_stdout (help_text E) (add_stderr "Error: bad atm grid." st)).
Proof. reflexivity. Qed.

Lemma main_rejected E a st :
  rejected (atm a) atm_options ∨ rejected (ocean a) ocean_options →
  main E a st = bad_grid E st.
Proof.
  intros [(x & Hx & Hbad)|(x & Hx & Hbad)]; unfold main.
  - rewrite Hx. by rewrite bool_decide_false.
  - assert (main_ocean E a = λ _, bad_grid E) as Hocean.
    { unfold main_ocean. rewrite Hx. by rewrite bool_decide_false. }
    destruct (atm a) as [y|]; [case_bool_decide|]; by rewrite ?Hocean.
Qed.

(** C3: an invocation whose --atm value is not one of CORE2, JRA55,
    JRA55_runoff, or whose --ocean value is not one of MOM1, MOM01, MOM025,
    exits with status 1; the file system is as it was (no weight file is
    created) and no external command was run. *)
Theorem invalid_grid_exits_1 E a st :
  rejected (atm a) atm_options ∨ rejected (ocean a) ocean_options →
  ∃ st', run E a st = (1%Z, st') ∧ fs st' = fs st ∧ trace st' = trace st.
Proof.
  intros H. unfold run. rewrite (main_rejected E a st H), bad_grid_run.
  eexists. split; [reflexivity|]. done.
Qed.

Lemma invalid_grid_exits_1_witness :
  ∃ st', run Sample.E_ok (Sample.cli (Some "CORE2") (Some "MOM2") None) Sample.st0
         = (1%Z, st') ∧ fs st' = fs Sample.st0 ∧ trace st' = trace Sample.st0.
Proof.
  apply invalid_grid_exits_1. right. exists "MOM2".
  split; [reflexivity|]. by_evaluation.
Defined.

(** C2 fails for --method: "bilinear" is not among the method options, yet
    the run goes through with status 0. *)
Lemma method_is_not_checked : ¬ method_is_checked.
Proof.
  intros H.
  destruct (H Sample.E_ok (Sample.cli (Some "CORE2") (Some "MOM1") (Some "bilinear"))
              Sample.st0 "bilinear" eq_refl) as [Hcode _].
  - by_evaluation.
  - apply Hcode. by vm_compute.
Qed.

(** ** The full product *)

Lemma runoff_raises E d ocean method st :
  process_combination E d "JRA55_runoff" ocean method st
  = (Raise (NameError "Jra552RiverGrid"), st).
Proof. reflexivity. Qed.

(** C1 fails on the code: with the three filters omitted the driver never
    completes.  Whatever the environment, it ends in an exception: the
    branch for JRA55_runoff calls a name that is not bound, so at most the
    twelve CORE2 and JRA55 combinations are processed. *)
Theorem all_filters_omitted_raises E i j st :
  ∃ e st', main E (Args i j None None None) st = (Raise e, st').
Proof.
  revert st.
  change (always_raises
            (main_loops E (Args i j None None None)
               atm_options ocean_options method_options)).
  unfold main_loops. apply always_raises_bind_l.
  apply always_raises_for_each with (x := "JRA55_runoff");
    [by_evaluation|].
  apply always_raises_for_each with (x := "MOM1");
    [by_evaluation|].
  apply always_raises_for_each with (x := "patch");
    [by_evaluation|].
  intros st. eexists _, _. apply runoff_raises.
Qed.

(** In the sample world the run stops at the thirteenth combination: of the
    eighteen weight files only the twelve of CORE2 and JRA55 exist. *)
Lemma all_filters_omitted_sample :
  let r := main Sample.E_ok (Sample.cli None None None) Sample.st0 in
  r.1 = Raise (NameError "Jra552RiverGrid") ∧
  length all_output_names = 18%nat ∧
  (λ n, bool_decide (is_Some (fs r.2 !! n))) <$> all_output_names
  = replicate 12 true ++ replicate 6 false.
Proof. vm_compute. done. Qed.

(** ** The weight computation *)

Lemma check_output_esmf E esmf s d m w flags st :
  let cmd := esmf_cmd E esmf s d m w flags in
  let eff := esmf_run E cmd (fs st) in
  check_output E cmd st =
  finish_process "mpirun" (esmf_proc eff)
    (add_event (EvExec cmd (esmf_proc eff)) (set_fs (esmf_writes eff (tail cmd)) st)).
Proof.
  intros cmd eff. unfold check_output. subst eff cmd. unfold esmf_cmd.
  cbn [app]. rewrite decide_False by done. rewrite decide_True by done. reflexivity.
Qed.

Lemma write_scrip_if g p (unmasked : bool) st :
  (if unmasked then write_scrip g p (Some (zeros_like (mask_t g)))
   else write_scrip g p None) st =
  (Ok tt, add_event (EvWriteScrip p g (written_mask g unmasked))
            (set_fs (insert p (FScrip g (written_mask g unmasked))) st)).
Proof. by destruct unmasked. Qed.

Lemma failed_generation {A} (h : M unit) (k : M (option A)) st :
  (let (r, st') := (h ≫= λ _, mret false) st in
   match r with
   | Ok a => (if (a : bool) then k else mret None) st'
   | Raise e => (Raise e, st')
   end) = (h ≫= λ _, mret None) st.
Proof. unfold mbind, M_bind. by destruct (h st) as [[[]|e] st']. Qed.

Lemma create_weights_run E src dst method iu us ud st :
  let st1 := prepared src dst us ud st in
  let cmd := launch_cmd E method iu st st1 in
  let st2 := launched E cmd st1 in
  create_weights E src dst method iu us ud st =
  match esmf_proc (esmf_run E cmd (fs st1)) with
  | Exited rc out =>
      if decide (rc = 0%Z) then
        (os_remove (tmp_path (next_tmp st));;
         os_remove (tmp_path (S (next_tmp st)));;
         mret (Some (tmp_path (S (S (next_tmp st)))))) st2
      else (report_esmf_failure E rc out;; mret None) st2
  | SpawnFailed => (Raise (OSError "mpirun"), st2)
  end.
Proof.
  intros st1 cmd st2. unfold create_weights.
  unfold mbind at 1 2 3 4 5 6 7. unfold M_bind at 1 2 3 4 5 6 7.
  unfold mkstemp. cbv zeta. cbv iota beta. rewrite !write_scrip_if.
  cbv iota beta. unfold os_path_exists. cbv iota beta.
  unfold try_except_CalledProcessError.
  unfold mbind at 1 2. unfold M_bind at 1 2. unfold print. cbv iota beta.
  rewrite check_output_esmf. cbv zeta.
  subst st2. unfold launched. cbv zeta.
  change (esmf_run E _ _) with (esmf_run E cmd (fs st1)).
  destruct (esmf_run E cmd (fs st1)) as [[rc out|] w log];
    unfold finish_process, esmf_proc.
  - destruct (decide (rc = 0%Z)); [reflexivity|]. apply failed_generation.
  - reflexivity.
Qed.

Lemma keeps_trace_ret {A} (a : A) : keeps_trace (mret a).
Proof. done. Qed.

Lemma keeps_trace_bind {A B} (m : M A) (f : A → M B) :
  keeps_trace m → (∀ a, keeps_trace (f a)) → keeps_trace (m ≫= f).
Proof.
  intros Hm Hf st. unfold mbind, M_bind. specialize (Hm st).
  destruct (m st) as [[a|e] st1]; simpl in *; [|done].
  by rewrite Hf.
Qed.

Lemma keeps_trace_os_remove p : keeps_trace (os_remove p).
Proof. intros st. unfold os_remove. by destruct (fs st !! p). Qed.

Lemma report_esmf_failure_run E rc out st :
  report_esmf_failure E rc out st =
  (Ok tt,
   State (fs st) (stdout st)
     (stderr st ++
        ["Error: ESMF_RegridWeightGen failed ret " +:+ pretty rc; out] ++
        log_lines E (fs st))
     (trace st) (next_tmp st)).
Proof.
  unfold report_esmf_failure, log_lines, read_file, os_path_exists, print_stderr.
  unfold mbind, M_bind. cbn [add_stderr fs stdout stderr trace next_tmp].
  destruct (fs st !! esmf_log_name) as [f|] eqn:Hlog.
  - rewrite bool_decide_true by eauto. cbn [add_stderr fs stdout stderr trace next_tmp].
    rewrite Hlog.
    destruct f; unfold add_stderr; cbn; by rewrite <- !app_assoc.
  - rewrite bool_decide_false by (by intros [? ?]).
    unfold add_stderr; cbn. by rewrite <- !app_assoc.
Qed.

Lemma zeros_like_zero m : Forall (Forall (λ z, z = 0%Z)) (zeros_like m).
Proof.
  unfold zeros_like. apply Forall_fmap, Forall_true. intros row.
  apply Forall_fmap, Forall_true. done.
Qed.

Lemma zeros_like_shape m : length <$> zeros_like m = length <$> m.
Proof.
  unfold zeros_like. rewrite <- list_fmap_compose. apply list_fmap_ext.
  intros _ row _. simpl. by rewrite length_map.
Qed.

Lemma trace_prepared src dst us ud st :
  trace (prepared src dst us ud st) =
  trace st ++ [EvWriteScrip (tmp_path (next_tmp st)) src (written_mask src us);
               EvWriteScrip (tmp_path (S (next_tmp st))) dst (written_mask dst ud)].
Proof. unfold prepared. cbn. by rewrite <- app_assoc. Qed.

Lemma trace_launched E cmd st1 :
  trace (launched E cmd st1) =
  trace st1 ++ [EvExec cmd (esmf_proc (esmf_run E cmd (fs st1)))].
Proof. done. Qed.

(** Every run of [create_weights] does the same three things to the
    outside: two grid descriptions written, one command run. *)
Lemma create_weights_trace E src dst method iu us ud st :
  let st1 := prepared src dst us ud st in
  let cmd := launch_cmd E method iu st st1 in
  trace (create_weights E src dst method iu us ud st).2 =
  trace st ++
    [EvWriteScrip (tmp_path (next_tmp st)) src (written_mask src us);
     EvWriteScrip (tmp_path (S (next_tmp st))) dst (written_mask dst ud);
     EvExec cmd (esmf_proc (esmf_run E cmd (fs st1)))].
Proof.
  intros st1 cmd. rewrite create_weights_run. fold st1 cmd.
  assert (trace (launched E cmd st1) =
          trace st ++
            [EvWriteScrip (tmp_path (next_tmp st)) src (written_mask src us);
             EvWriteScrip (tmp_path (S (next_tmp st))) dst (written_mask dst ud);
             EvExec cmd (esmf_proc (esmf_run E cmd (fs st1)))]) as Hl.
  { rewrite trace_launched. unfold st1. rewrite trace_prepared.
    by rewrite <- app_assoc. }
  destruct (esmf_proc (esmf_run E cmd (fs st1))) as [rc out|]; [|done].
  destruct (decide (rc = 0%Z)).
  - rewrite <- Hl.
    apply (keeps_trace_bind (os_remove _)); [apply keeps_trace_os_remove|].
    intros _. apply (keeps_trace_bind (os_remove _)); [apply keeps_trace_os_remove|].
    intros _. apply keeps_trace_ret.
  - rewrite <- Hl. unfold mbind, M_bind. by rewrite report_esmf_failure_run.
Qed.

(** C4: in create_weights each side's grid description is written with an
    all-zero mask of the shape of the grid's own mask when that side's
    unmasked flag is set, and with the grid's own mask when it is not.  The
    two writes are the first things the function does to the outside, in
    every run. *)
Theorem create_weights_masks E src dst method iu us ud st :
  ∃ cmd o,
    trace (create_weights E src dst method iu us ud st).2 =
    trace st ++
      [EvWriteScrip (tmp_path (next_tmp st)) src
         (if us then zeros_like (mask_t src) else mask_t src);
       EvWriteScrip (tmp_path (S (next_tmp st))) dst
         (if ud then zeros_like (mask_t dst) else mask_t dst);
       EvExec cmd o] ∧
    Forall (Forall (λ z, z = 0%Z)) (zeros_like (mask_t src)) ∧
    length <$> zeros_like (mask_t src) = length <$> mask_t src ∧
    Forall (Forall (λ z, z = 0%Z)) (zeros_like (mask_t dst)) ∧
    length <$> zeros_like (mask_t dst) = length <$> mask_t dst.
Proof.
  eexists _, _. split; [apply create_weights_trace|].
  auto using zeros_like_zero, zeros_like_shape.
Qed.

(** C5: when the weight generator exits with a non-zero status,
    create_weights returns None without raising, having printed to the
    error stream the status, the captured output and, if the log file
    PET0.RegridWeightGen.Log exists in the working directory, a heading and
    the contents of that file. *)
Theorem create_weights_failure E src dst method iu us ud st r st' cmd rc out :
  create_weights E src dst method iu us ud st = (r, st') →
  last (trace st') = Some (EvExec cmd (Exited rc out)) →
  rc ≠ 0%Z →
  r = Ok None ∧
  stderr st' =
    stderr st ++
      ["Error: ESMF_RegridWeightGen failed ret " +:+ pretty rc; out] ++
      match fs st' !! "PET0.RegridWeightGen.Log" with
      | Some f => ["Contents of PET0.RegridWeightGen.Log:"; file_text E f]
      | None => []
      end.
Proof.
  intros Hrun Hlast Hrc.
  pose proof (create_weights_trace E src dst method iu us ud st) as Htr.
  cbv zeta in Htr. rewrite Hrun in Htr. cbn [snd] in Htr.
  rewrite create_weights_run in Hrun. cbv zeta in Hrun.
  set (o := esmf_proc _) in Htr, Hrun. clearbody o.
  rewrite Htr, last_app in Hlast. cbn [last] in Hlast.
  injection Hlast as _ ->.
  rewrite decide_False in Hrun by done.
  unfold mbind, M_bind in Hrun. rewrite report_esmf_failure_run in Hrun.
  injection Hrun as <- <-. split; [done|]. cbn. reflexivity.
Qed.

Lemma create_weights_failure_witness :
  (create_weights Sample.E_fail Sample.atm_grid Sample.ocean_grid "patch"
     false true false Sample.st0).1 = Ok None ∧
  stderr (create_weights Sample.E_fail Sample.atm_grid Sample.ocean_grid "patch"
            false true false Sample.st0).2 =
    stderr Sample.st0 ++
      ["Error: ESMF_RegridWeightGen failed ret " +:+ pretty 3%Z; "aborted"] ++
      match fs (create_weights Sample.E_fail Sample.atm_grid Sample.ocean_grid
                  "patch" false true false Sample.st0).2
            !! "PET0.RegridWeightGen.Log" with
      | Some f => ["Contents of PET0.RegridWeightGen.Log:"; file_text Sample.E_fail f]
      | None => []
      end.
Proof.
  apply (create_weights_failure Sample.E_fail Sample.atm_grid Sample.ocean_grid
           "patch" false true false Sample.st0 _ _
           (launch_cmd Sample.E_fail "patch" false Sample.st0
              (prepared Sample.atm_grid Sample.ocean_grid true false Sample.st0))
           3%Z "aborted").
  - apply surjective_pairing.
  - vm_compute. reflexivity.
  - lia.
Defined.

(** ** What the driver does to the outside *)

Lemma keeps_trace_raise {A} e : keeps_trace (raise (A := A) e).
Proof. done. Qed.

Lemma keeps_trace_lift {A} (r : result A) : keeps_trace (lift r).
Proof. done. Qed.

Lemma keeps_trace_mkstemp : keeps_trace mkstemp.
Proof. done. Qed.

Lemma keeps_trace_print s : keeps_trace (print s).
Proof. done. Qed.

Lemma keeps_trace_print_stderr s : keeps_trace (print_stderr s).
Proof. done. Qed.

Lemma keeps_trace_nc_Dataset p : keeps_trace (nc_Dataset p).
Proof. intros st. unfold nc_Dataset. by repeat case_match. Qed.

Lemma keeps_trace_nc_sync p ds : keeps_trace (nc_sync p ds).
Proof. done. Qed.

Lemma keeps_trace_read_grid_file p : keeps_trace (read_grid_file p).
Proof. intros st. unfold read_grid_file. by repeat case_match. Qed.

Lemma keeps_trace_shutil_move a b : keeps_trace (shutil_move a b).
Proof. intros st. unfold shutil_move. by case_match. Qed.

Lemma keeps_trace_dict_get d k : keeps_trace (dict_get d k).
Proof. intros st. unfold dict_get. by case_match. Qed.

Lemma keeps_trace_as_path v : keeps_trace (as_path v).
Proof. by destruct v. Qed.

Lemma keeps_trace_item i v : keeps_trace (item i v).
Proof. intros st. unfold item. by repeat case_match. Qed.

Create HintDb keeps discriminated.
#[local] Hint Resolve keeps_trace_ret keeps_trace_raise keeps_trace_lift
  keeps_trace_mkstemp keeps_trace_print keeps_trace_print_stderr
  keeps_trace_nc_Dataset keeps_trace_nc_sync keeps_trace_read_grid_file
  keeps_trace_shutil_move keeps_trace_dict_get keeps_trace_as_path
  keeps_trace_item keeps_trace_os_remove : keeps.

Ltac keeps :=
  repeat first
    [ apply keeps_trace_bind; [|intros ?]
    | solve [auto with keeps]
    | match goal with |- keeps_trace (match ?x with _ => _ end) => destruct x end ].

Lemma keeps_trace_fix_remap_matrix w nw : keeps_trace (fix_remap_matrix w nw).
Proof. unfold fix_remap_matrix. keeps. Qed.

Lemma keeps_trace_bad_grid E : keeps_trace (bad_grid E).
Proof. unfold bad_grid, print_help. keeps. Qed.

Section Emits.
Context (P : event → Prop).

Lemma keeps_emits {A} (m : M A) : keeps_trace m → emits P m.
Proof. intros H st. exists []. by rewrite H, app_nil_r. Qed.

Lemma emits_bind_post {A B} (Q : A → Prop) (m : M A) (f : A → M B) :
  emits P m → returns Q m → (∀ a, Q a → emits P (f a)) → emits P (m ≫= f).
Proof.
  intros Hm HQ Hf st. unfold mbind, M_bind.
  destruct (Hm st) as (evs & Htr & Hevs). specialize (HQ st).
  destruct (m st) as [[a|e] st1]; simpl in *; [|eauto].
  destruct (Hf a (HQ _ _ eq_refl) st1) as (evs' & Htr' & Hevs').
  exists (evs ++ evs'). rewrite Htr', Htr, app_assoc.
  split; [done|]. by apply Forall_app.
Qed.

Lemma emits_bind {A B} (m : M A) (f : A → M B) :
  emits P m → (∀ a, emits P (f a)) → emits P (m ≫= f).
Proof.
  intros Hm Hf. apply emits_bind_post with (Q := λ _, True); [done|done|auto].
Qed.

Lemma emits_for_each {A} (l : list A) (body : A → M unit) :
  (∀ x, x ∈ l → emits P (body x)) → emits P (for_each l body).
Proof.
  induction l as [|x l IH]; intros H; simpl.
  - by apply keeps_emits.
  - apply emits_bind; [apply H; left|].
    intros _. apply IH. intros y Hy. apply H. by right.
Qed.
End Emits.

Lemma check_output_ncrename E w nw st :
  let cmd := ncrename_cmd w nw in
  check_output E cmd st =
  finish_process "ncrename" (ncrename (tail cmd) (fs st)).1
    (add_event (EvExec cmd (ncrename (tail cmd) (fs st)).1)
       (set_fs (λ _, (ncrename (tail cmd) (fs st)).2) st)).
Proof.
  intros cmd. unfold check_output. subst cmd. unfold ncrename_cmd.
  rewrite decide_True by done. cbn [tail].
  by destruct (ncrename _ _).
Qed.

(** The rename step: the command is run; a non-zero status is answered by
    printing the output to the error stream. *)
Lemma rename_step_run E w nw st :
  let cmd := ncrename_cmd w nw in
  let o := (ncrename (tail cmd) (fs st)).1 in
  let st1 := add_event (EvExec cmd o)
               (set_fs (λ _, (ncrename (tail cmd) (fs st)).2) st) in
  rename_step E w nw st =
  match o with
  | Exited rc out =>
      if decide (rc = 0%Z) then (Ok tt, st1) else (Ok tt, add_stderr out st1)
  | SpawnFailed => (Raise (OSError "ncrename"), st1)
  end.
Proof.
  intros cmd o st1. unfold rename_step, try_except_CalledProcessError.
  unfold mbind, M_bind. rewrite check_output_ncrename. fold cmd o st1.
  destruct o as [rc out|]; unfold finish_process; [|done].
  by destruct (decide (rc = 0%Z)).
Qed.

Lemma emits_rename_step E w nw : emits (default_call E) (rename_step E w nw).
Proof.
  intros st. rewrite rename_step_run. cbv zeta.
  exists [EvExec (ncrename_cmd w nw) (ncrename (tail (ncrename_cmd w nw)) (fs st)).1].
  split.
  - destruct (ncrename _ _).1 as [rc out|]; [|done]. by destruct (decide (rc = 0%Z)).
  - constructor; [|done]. simpl. discriminate.
Qed.

Lemma emits_convert E w : emits (default_call E) (convert_to_scrip_output E w).
Proof.
  unfold convert_to_scrip_output.
  apply emits_bind; [apply keeps_emits; keeps|intros nw].
  apply emits_bind; [apply keeps_emits; keeps|intros _].
  apply emits_bind; [apply emits_rename_step|intros _].
  apply keeps_emits.
  apply keeps_trace_bind; [apply keeps_trace_fix_remap_matrix|intros _].
  keeps.
Qed.

Lemma emits_create_weights_default E src dst method :
  gkind src ≠ Mom → gkind dst = Mom →
  emits (default_call E)
    (create_weights E src dst method
       default_ignore_unmapped default_unmasked_src default_unmasked_dest).
Proof.
  intros Hsrc Hdst st. eexists. split; [apply create_weights_trace|].
  repeat constructor; simpl.
  - by destruct (gkind src).
  - by rewrite Hdst.
  - intros _. unfold launch_cmd. eauto 10.
Qed.

Lemma returns_atmosphere d atm :
  returns (λ g, gkind g ≠ Mom)
    (if decide (atm = "CORE2") then
       v ← dict_get d atm; p ← as_path v; Core2Grid p
     else if decide (atm = "JRA55") then
       v ← dict_get d atm; p ← as_path v; Jra55Grid p
     else raise (NameError "Jra552RiverGrid")).
Proof.
  intros st g st' H. repeat case_decide; [| |discriminate].
  all: apply bind_inv_Ok in H as (v & s1 & _ & H);
       apply bind_inv_Ok in H as (p & s2 & _ & H);
       apply bind_inv_Ok in H as (m & s3 & _ & H);
       by injection H as <- _.
Qed.

Lemma returns_MomGrid h mf : returns (λ g, gkind g = Mom) (MomGrid_fromfile h mf).
Proof.
  intros st g st' H.
  apply bind_inv_Ok in H as (m0 & s1 & _ & H).
  apply bind_inv_Ok in H as (m & s2 & _ & H).
  by injection H as <- _.
Qed.

Lemma emits_process_combination E d atm ocean method :
  emits (default_call E) (process_combination E d atm ocean method).
Proof.
  unfold process_combination.
  eapply emits_bind_post; [|apply returns_atmosphere|intros src Hsrc].
  { apply keeps_emits. unfold Core2Grid, Jra55Grid. keeps. }
  apply emits_bind; [apply keeps_emits; keeps|intros hgrid].
  apply emits_bind; [apply keeps_emits; keeps|intros mask_file].
  eapply emits_bind_post; [|apply returns_MomGrid|intros dst Hdst].
  { apply keeps_emits. unfold MomGrid_fromfile. keeps. }
  apply emits_bind; [by apply emits_create_weights_default|intros w].
  apply emits_bind; [apply emits_convert|intros nw].
  apply keeps_emits. keeps.
Qed.

Lemma emits_main_loops E a atms oceans methods :
  emits (default_call E) (main_loops E a atms oceans methods).
Proof.
  unfold main_loops. apply emits_bind; [|intros _; apply keeps_emits; keeps].
  apply emits_for_each. intros atm _.
  apply emits_for_each. intros ocean _.
  apply emits_for_each. intros method _.
  apply emits_process_combination.
Qed.

(** Every event of a run of main has the form the default flags give: a
    grid that is not an ocean grid is written with an all-zero mask, an
    ocean grid with its own, and no generator command line carries a
    trailing flag. *)
Lemma main_emits_default_calls E a st :
  ∃ evs, trace (main E a st).2 = trace st ++ evs ∧ Forall (default_call E) evs.
Proof.
  revert st. change (emits (default_call E) (main E a)).
  unfold main, main_ocean, main_method.
  repeat case_match;
    first [apply emits_main_loops | apply keeps_emits, keeps_trace_bad_grid].
Qed.

(** ** Renaming *)

Lemma has_name_true {A} n (l : list (string * A)) : has_name n l = true ↔ n ∈ l.*1.
Proof. unfold has_name. by rewrite bool_decide_eq_true. Qed.

Lemma has_name_false {A} n (l : list (string * A)) : has_name n l = false ↔ n ∉ l.*1.
Proof. unfold has_name. by rewrite bool_decide_eq_false. Qed.

Lemma renamable_spec {A} tbl (l : list (string * A)) :
  renamable tbl l = true ↔
  (∀ o, o ∈ tbl.*1 → o ∈ l.*1) ∧ (∀ n, n ∈ tbl.*2 → n ∉ l.*1).
Proof.
  unfold renamable. rewrite andb_true_iff, !forallb_forall.
  split; intros [H1 H2]; split; intros x Hx.
  - apply has_name_true, H1. by apply list_elem_of_In.
  - apply has_name_false, negb_true_iff, H2. by apply list_elem_of_In.
  - apply has_name_true, H1. by apply list_elem_of_In.
  - apply negb_true_iff, has_name_false, H2. by apply list_elem_of_In.
Qed.

Lemma rename_name_other tbl x : x ∉ tbl.*1 → rename_name tbl x = x.
Proof.
  induction tbl as [|[o n] t IH]; [done|]. simpl. intros Hx.
  apply not_elem_of_cons in Hx as [Hne Hx]. rewrite decide_False by done. auto.
Qed.

Lemma rename_name_new tbl x : x ∈ tbl.*1 → rename_name tbl x ∈ tbl.*2.
Proof.
  induction tbl as [|[o n] t IH]; simpl; [by intros ?%elem_of_nil|].
  intros Hx. case_decide; [left|right].
  apply IH. by apply elem_of_cons in Hx as [?|?].
Qed.

Lemma rename_name_pair (tbl : list (string * string)) o n :
  NoDup tbl.*1 → (o, n) ∈ tbl → rename_name tbl o = n.
Proof.
  induction tbl as [|[o' n'] t IH]; simpl; [by intros _ ?%elem_of_nil|].
  intros Hnd Hin. apply NoDup_cons in Hnd as [Hno Hnd].
  apply elem_of_cons in Hin as [[= -> ->]|Hin]; [by rewrite decide_True|].
  rewrite decide_False; [by apply IH|].
  intros ->. apply Hno. by apply (list_elem_of_fmap_2 fst _ (o', n)) in Hin.
Qed.

Lemma new_name_inj (tbl : list (string * string)) o o' n :
  NoDup tbl.*2 → (o, n) ∈ tbl → (o', n) ∈ tbl → o = o'.
Proof.
  induction tbl as [|[o1 n1] t IH]; simpl; intros Hnd H1 H2.
  { by apply elem_of_nil in H1. }
  apply NoDup_cons in Hnd as [Hno Hnd].
  apply elem_of_cons in H1 as [H1|H1]; apply elem_of_cons in H2 as [H2|H2].
  - congruence.
  - injection H1 as -> ->. destruct Hno.
    by apply (list_elem_of_fmap_2 snd _ (o', n1)) in H2.
  - injection H2 as -> ->. destruct Hno.
    by apply (list_elem_of_fmap_2 snd _ (o, n1)) in H1.
  - by apply IH.
Qed.

Lemma rename_name_inv (tbl : list (string * string)) o n x :
  one_to_one tbl → (o, n) ∈ tbl → x ≠ n → rename_name tbl x = n → x = o.
Proof.
  intros (Hnd1 & Hnd2 & Hdisj) Hin Hne Hx.
  destruct (decide (x ∈ tbl.*1)) as [Hold|Hold];
    [|by rewrite rename_name_other in Hx].
  apply list_elem_of_fmap_1 in Hold as ([x' n'] & -> & Hin'). simpl in *.
  rewrite (rename_name_pair _ _ _ Hnd1 Hin') in Hx. subst n'.
  by apply (new_name_inj tbl x' o n).
Qed.

Lemma rename_in_Some {A} o n (l : list (string * A)) :
  o ∈ l.*1 → n ∉ l.*1 →
  rename_in o n l = Some ((λ e, (if decide (e.1 = o) then n else e.1, e.2)) <$> l).
Proof.
  intros Ho Hn. unfold rename_in.
  apply has_name_true in Ho. apply has_name_false in Hn. by rewrite Ho, Hn.
Qed.

Lemma rename_seq_ok {A} tbl (l : list (string * A)) :
  one_to_one tbl → renamable tbl l = true →
  rename_seq tbl l = Some (rename_entries tbl l).
Proof.
  intros Htbl Hl. apply renamable_spec in Hl as [Hold Hnew].
  revert l Hold Hnew. induction tbl as [|[o n] t IH]; intros l Hold Hnew.
  { simpl. unfold rename_entries. f_equal. rewrite <- (list_fmap_id l) at 1.
    apply list_fmap_ext. by intros _ [] _. }
  destruct Htbl as (Hnd1 & Hnd2 & Hdisj). simpl in *.
  apply NoDup_cons in Hnd1 as [Ho Hnd1]. apply NoDup_cons in Hnd2 as [Hn Hnd2].
  apply Forall_cons in Hdisj as [Hon Hdisj].
  rewrite rename_in_Some by (first [apply Hold | apply Hnew]; left).
  rewrite IH.
  - f_equal. unfold rename_entries. rewrite <- list_fmap_compose.
    apply list_fmap_ext. intros _ [x a] _. simpl. f_equal.
    case_decide; [|done]. apply rename_name_other.
    intros Hin. rewrite Forall_forall in Hdisj. apply (Hdisj n Hin). left.
  - split_and!; [done|done|].
    eapply Forall_impl; [exact Hdisj|]. intros x Hx Hin. apply Hx. by right.
  - intros o' Ho'. rewrite <- list_fmap_compose.
    assert (o' ∈ l.*1) as Hin by (apply Hold; by right).
    apply list_elem_of_fmap in Hin as ([x a] & -> & Hin).
    apply list_elem_of_fmap. exists (x, a). split; [|done]. simpl.
    rewrite decide_False; [done|]. by intros <-.
  - intros n' Hn' Hin. rewrite <- list_fmap_compose in Hin.
    apply list_elem_of_fmap in Hin as ([x a] & Heq & Hin). simpl in Heq.
    case_decide; [by subst|]. subst n'.
    apply (Hnew x); [by right|]. by apply (list_elem_of_fmap_2 fst _ (x, a)) in Hin.
Qed.

Lemma apply_renames_vars vt ds :
  apply_renames (uncurry RVar <$> vt) ds =
  Dataset (ds_dims ds) <$> rename_seq vt (ds_vars ds).
Proof.
  revert ds. induction vt as [|[o n] t IH]; intros [d v]; [done|].
  simpl. destruct (rename_in o n v) as [v'|]; [|done]. simpl. by rewrite IH.
Qed.

Lemma apply_renames_table dt vt ds :
  apply_renames ((uncurry RDim <$> dt) ++ (uncurry RVar <$> vt)) ds =
  match rename_seq dt (ds_dims ds) with
  | Some d => Dataset d <$> rename_seq vt (ds_vars ds)
  | None => None
  end.
Proof.
  revert ds. induction dt as [|[o n] t IH]; intros [d v].
  { simpl. by rewrite apply_renames_vars. }
  simpl. destruct (rename_in o n d) as [d'|]; [|done]. simpl. by rewrite IH.
Qed.

Lemma dim_renames_one_to_one : one_to_one dim_renames.
Proof. split_and!; by_evaluation. Qed.

Lemma var_renames_one_to_one : one_to_one var_renames.
Proof. split_and!; by_evaluation. Qed.

Lemma apply_rename_table ds :
  renamable dim_renames (ds_dims ds) = true →
  renamable var_renames (ds_vars ds) = true →
  apply_renames rename_table ds = Some (renamed ds).
Proof.
  intros Hd Hv. unfold rename_table. rewrite apply_renames_table.
  rewrite (rename_seq_ok _ _ dim_renames_one_to_one Hd).
  by rewrite (rename_seq_ok _ _ var_renames_one_to_one Hv).
Qed.

(** ** The rename command *)

Lemma parse_ncrename_d x rest :
  parse_ncrename ("-d" :: x :: rest) =
  match split_comma x, parse_ncrename rest with
  | Some (o, n), Some (rs, pos) => Some (RDim o n :: rs, pos)
  | _, _ => None
  end.
Proof. cbn [parse_ncrename]. by rewrite decide_True. Qed.

Lemma parse_ncrename_v x rest :
  parse_ncrename ("-v" :: x :: rest) =
  match split_comma x, parse_ncrename rest with
  | Some (o, n), Some (rs, pos) => Some (RVar o n :: rs, pos)
  | _, _ => None
  end.
Proof.
  cbn [parse_ncrename]. rewrite decide_False by done. by rewrite decide_True.
Qed.

Lemma parse_ncrename_options rest :
  parse_ncrename (ncrename_options ++ rest) =
  match parse_ncrename rest with
  | Some (rs, pos) => Some (rename_table ++ rs, pos)
  | None => None
  end.
Proof.
  unfold ncrename_options. cbn [app].
  rewrite !parse_ncrename_d, !parse_ncrename_v.
  by destruct (parse_ncrename rest) as [[rs pos]|].
Qed.

Lemma parse_ncrename_paths w nw :
  w ≠ "-d" → w ≠ "-v" →
  parse_ncrename (ncrename_options ++ [w; nw]) = Some (rename_table, [w; nw]).
Proof.
  intros Hd Hv. rewrite parse_ncrename_options. cbn [parse_ncrename].
  rewrite !decide_False by done. by rewrite app_nil_r.
Qed.

(** A temp name is no option of the command line. *)
Lemma tmp_path_not_option k : tmp_path k ≠ "-d" ∧ tmp_path k ≠ "-v".
Proof. by split. Qed.

(** ncrename either fails and leaves the file system alone, or exits with
    status 0 having written the renamed copy of its input. *)
Lemma ncrename_cases w nw m :
  (∃ rc out, rc ≠ 0%Z ∧ ncrename (ncrename_options ++ [w; nw]) m = (Exited rc out, m)) ∨
  (∃ ds ds', m !! w = Some (FNc ds) ∧ m !! nw = None ∧
     apply_renames rename_table ds = Some ds' ∧
     ncrename (ncrename_options ++ [w; nw]) m = (Exited 0 "", <[nw := FNc ds']> m)).
Proof.
  unfold ncrename. rewrite parse_ncrename_options.
  destruct (decide (w = "-d")) as [->|Hd].
  { left. rewrite parse_ncrename_d. cbn [parse_ncrename].
    destruct (split_comma nw) as [[o n]|]; (eexists 1%Z, _; split; [done|reflexivity]). }
  destruct (decide (w = "-v")) as [->|Hv].
  { left. rewrite parse_ncrename_v. cbn [parse_ncrename].
    destruct (split_comma nw) as [[o n]|]; (eexists 1%Z, _; split; [done|reflexivity]). }
  cbn [parse_ncrename]. rewrite !decide_False by done.
  rewrite app_nil_r.
  destruct (m !! w) as [[| | |ds]|] eqn:Hw;
    try (left; eexists 1%Z, _; split; [done|reflexivity]).
  destruct (m !! nw) eqn:Hnw; [left; eexists 1%Z, _; split; [done|reflexivity]|].
  destruct (apply_renames rename_table ds) as [ds'|] eqn:Hren.
  - right. eauto 10.
  - left. eexists 1%Z, _; split; [done|reflexivity].
Qed.

Lemma ncrename_ok w nw m ds :
  w ≠ "-d" → w ≠ "-v" →
  m !! w = Some (FNc ds) → m !! nw = None →
  renamable dim_renames (ds_dims ds) = true →
  renamable var_renames (ds_vars ds) = true →
  ncrename (ncrename_options ++ [w; nw]) m = (Exited 0 "", <[nw := FNc (renamed ds)]> m).
Proof.
  intros Hd Hv Hw Hnw Hdims Hvars. unfold ncrename.
  rewrite parse_ncrename_paths by done. rewrite Hw, Hnw.
  by rewrite apply_rename_table.
Qed.

(** ** The converter *)

Lemma convert_run E w st :
  convert_to_scrip_output E w st =
  (rename_step E w (tmp_path (next_tmp st));;
   fix_remap_matrix w (tmp_path (next_tmp st));;
   match w with
   | Some w => os_remove w
   | None => raise TypeError
   end;;
   mret (tmp_path (next_tmp st))) (renaming_from st).
Proof.
  unfold convert_to_scrip_output. unfold mbind at 1 2. unfold M_bind at 1 2.
  unfold mkstemp. cbv zeta iota beta. unfold os_remove at 1.
  cbn [fs set_fs bump_tmp]. by rewrite lookup_insert_eq.
Qed.

Lemma renaming_from_fresh st :
  fs st !! tmp_path (next_tmp st) = None →
  renaming_from st =
  State (fs st) (stdout st) (stderr st) (trace st) (S (next_tmp st)).
Proof.
  intros H. unfold renaming_from, set_fs, bump_tmp. cbn. f_equal.
  by apply delete_insert_id.
Qed.

Lemma fix_remap_matrix_Ok w nw st f_old f_new d :
  fs st !! w = Some (FNc f_old) → fs st !! nw = Some (FNc f_new) →
  fix_dataset f_old f_new = Ok d →
  fix_remap_matrix (Some w) nw st = (Ok tt, set_fs (insert nw (FNc d)) st).
Proof.
  intros Hw Hnw Hfix. unfold fix_remap_matrix, fix_dataset in *.
  unfold mbind, M_bind, nc_Dataset, lift, nc_sync. rewrite Hw, Hnw.
  destruct (createVariable _ _ f_new) as [d1|]; [|done].
  destruct (get_variable "remap_matrix" d1) as [rm|]; [|done].
  destruct (get_variable "S" f_old) as [vS|]; [|done].
  destruct (assign_column0 d1 rm (vdata vS)) as [rm'|]; [|done].
  injection Hfix as <-. f_equal. unfold set_fs. cbn. f_equal.
  apply insert_insert_eq.
Qed.

Lemma fix_remap_matrix_inv w nw st st' :
  fix_remap_matrix w nw st = (Ok tt, st') →
  ∃ w0 f_old d, w = Some w0 ∧ fs st !! w0 = Some (FNc f_old) ∧
    st' = set_fs (insert nw (FNc d)) st.
Proof.
  unfold fix_remap_matrix. unfold mbind, M_bind, nc_Dataset, lift, nc_sync.
  destruct w as [w0|]; [|done].
  destruct (fs st !! w0) as [[| | |f_old]|] eqn:Hw; try done.
  destruct (fs st !! nw) as [[| | |f_new]|] eqn:Hnw; try done.
  destruct (createVariable _ _ f_new) as [d1|]; [|done].
  destruct (get_variable "remap_matrix" d1) as [rm|]; [|done].
  destruct (get_variable "S" f_old) as [vS|]; [|done].
  destruct (assign_column0 d1 rm (vdata vS)) as [rm'|]; [|done].
  intros [= <-]. eexists w0, f_old, _. split_and!; [done|done|].
  unfold set_fs. cbn. f_equal. apply insert_insert_eq.
Qed.

Lemma fix_remap_matrix_missing w nw st :
  fs st !! nw = None →
  fix_remap_matrix w nw st = (Raise (open_error w nw (fs st)), st).
Proof.
  intros Hnw. unfold fix_remap_matrix, open_error.
  unfold mbind, M_bind, nc_Dataset.
  destruct w as [p|]; [|done].
  destruct (fs st !! p) as [[| | |f_old]|]; try done. by rewrite Hnw.
Qed.

Lemma state_eta st :
  st = State (fs st) (stdout st) (stderr st) (trace st) (next_tmp st).
Proof. by destruct st. Qed.

Lemma tail_ncrename_cmd w nw :
  tail (ncrename_cmd w nw) = ncrename_options ++ [format_path w; nw].
Proof. done. Qed.

(** A run of the converter on a raw weight file that can be renamed and
    fixed. *)
Lemma convert_ok E w st ds d :
  w ≠ "-d" → w ≠ "-v" →
  fs st !! w = Some (FNc ds) →
  fs st !! tmp_path (next_tmp st) = None →
  renamable dim_renames (ds_dims ds) = true →
  renamable var_renames (ds_vars ds) = true →
  fix_dataset ds (renamed ds) = Ok d →
  convert_to_scrip_output E (Some w) st =
  (Ok (tmp_path (next_tmp st)),
   State (<[tmp_path (next_tmp st) := FNc d]> (delete w (fs st)))
     (stdout st) (stderr st)
     (trace st ++
        [EvExec (ncrename_cmd (Some w) (tmp_path (next_tmp st))) (Exited 0 "")])
     (S (next_tmp st))).
Proof.
  intros Hd Hv Hw Hnw Hdims Hvars Hfix.
  assert (w ≠ tmp_path (next_tmp st)) as Hne by congruence.
  rewrite convert_run, (renaming_from_fresh st Hnw).
  set (nw := tmp_path (next_tmp st)) in *.
  erewrite bind_Ok; last first.
  { rewrite rename_step_run. cbv zeta. rewrite tail_ncrename_cmd.
    change (format_path (Some w)) with w.
    rewrite (ncrename_ok w nw _ ds) by done.
    cbn [fst snd]. rewrite decide_True by done. reflexivity. }
  erewrite bind_Ok; last first.
  { apply (fix_remap_matrix_Ok w nw _ ds (renamed ds) d); cbn;
      [by rewrite lookup_insert_ne|by rewrite lookup_insert_eq|done]. }
  erewrite bind_Ok; last first.
  { unfold os_remove. cbn. rewrite insert_insert_eq.
    rewrite lookup_insert_ne by done. rewrite Hw. reflexivity. }
  unfold mret, M_ret. f_equal. unfold set_fs, add_event. cbn. f_equal.
  rewrite insert_insert_eq. by rewrite delete_insert_ne.
Qed.

(** ** The weight matrix *)

Lemma list_find_rename_entries {A} tbl (l : list (string * A)) x y :
  (∀ e, e ∈ l → rename_name tbl e.1 = y ↔ e.1 = x) →
  fst <$> list_find (λ e, e.1 = y) (rename_entries tbl l)
  = fst <$> list_find (λ e, e.1 = x) l.
Proof.
  induction l as [|e l IH]; intros H; [done|]. cbn.
  assert (rename_name tbl e.1 = y ↔ e.1 = x) as He by (apply H; left).
  destruct (decide (rename_name tbl e.1 = y)), (decide (e.1 = x));
    try tauto; try done.
  rewrite <- !option_fmap_compose.
  assert (∀ o : option (nat * (string * A)),
            fst ∘ prod_map S id <$> o = S <$> (fst <$> o)) as Hc.
  { by intros [[]|]. }
  rewrite !Hc. f_equal. apply IH. intros e' He'. apply H. by right.
Qed.

Lemma rename_name_fixed tbl x z :
  x ∉ tbl.*1 → x ∉ tbl.*2 → rename_name tbl z = x ↔ z = x.
Proof.
  intros Hold Hnew. split; [|intros ->; by apply rename_name_other].
  intros Hz. destruct (decide (z ∈ tbl.*1)) as [Hin|Hin].
  - apply rename_name_new in Hin. by rewrite Hz in Hin.
  - by rewrite rename_name_other in Hz.
Qed.

Lemma dim_id_renamed_links ds :
  renamable dim_renames (ds_dims ds) = true →
  dim_id "num_links" (renamed ds) = dim_id "n_s" ds.
Proof.
  intros [_ Hnew]%renamable_spec. unfold dim_id, renamed. cbn [ds_dims].
  apply list_find_rename_entries. intros e He. split.
  - apply (rename_name_inv dim_renames); [apply dim_renames_one_to_one|by_evaluation|].
    intros Heq. apply (Hnew "num_links"); [by_evaluation|].
    rewrite <- Heq. by apply list_elem_of_fmap_2.
  - intros ->. reflexivity.
Qed.

Lemma dim_id_renamed_wgts ds :
  dim_id "num_wgts" (renamed ds) = dim_id "num_wgts" ds.
Proof.
  unfold dim_id, renamed. cbn [ds_dims].
  apply list_find_rename_entries. intros e _.
  apply rename_name_fixed; by_evaluation.
Qed.

Lemma dim_size_renamed ds i : dim_size (renamed ds) i = dim_size ds i.
Proof.
  unfold dim_size, renamed, rename_entries. cbn [ds_dims].
  rewrite list_lookup_fmap. by destruct (ds_dims ds !! i).
Qed.

Lemma no_remap_matrix_renamed ds :
  has_name "remap_matrix" (ds_vars ds) = false →
  has_name "remap_matrix" (ds_vars (renamed ds)) = false.
Proof.
  rewrite !has_name_false. intros H Hin. apply H.
  unfold renamed, rename_entries in Hin. cbn [ds_vars] in Hin.
  rewrite <- list_fmap_compose in Hin.
  apply list_elem_of_fmap_1 in Hin as (e & Heq & Hin).
  change ("remap_matrix" = rename_name var_renames e.1) in Heq.
  symmetry in Heq. apply rename_name_fixed in Heq; [|by_evaluation..].
  rewrite <- Heq. by apply list_elem_of_fmap_2.
Qed.

Lemma get_variable_last d vars name v :
  has_name name vars = false →
  get_variable name (Dataset d (vars ++ [(name, v)])) = Ok v.
Proof.
  intros H%has_name_false. unfold get_variable. cbn [ds_vars].
  induction vars as [|e vars IH]; cbn.
  - by rewrite decide_True.
  - apply not_elem_of_cons in H as [Hne H]. rewrite decide_False by done.
    specialize (IH H). destruct (list_find _ _) as [[? []]|]; [|done].
    cbn. by injection IH as ->.
Qed.

Lemma set_variable_last d vars name v v' :
  has_name name vars = false →
  set_variable name v' (Dataset d (vars ++ [(name, v)]))
  = Dataset d (vars ++ [(name, v')]).
Proof.
  intros H%has_name_false. unfold set_variable. cbn [ds_dims ds_vars]. f_equal.
  rewrite map_app. cbn. rewrite decide_True by done. f_equal.
  induction vars as [|e vars IH]; [done|]. cbn.
  apply not_elem_of_cons in H as [Hne H]. rewrite decide_False by done.
  f_equal. by apply IH.
Qed.

Lemma raw_weight_file_spec ds :
  raw_weight_file ds = true →
  renamable dim_renames (ds_dims ds) = true ∧
  renamable var_renames (ds_vars ds) = true ∧
  ∃ i j s, dim_id "n_s" ds = Some i ∧ dim_id "num_wgts" ds = Some j ∧
    get_variable "S" ds = Ok s ∧ dim_size ds j ≠ 0%nat ∧
    length (vdata s) = dim_size ds i ∧
    fix_dataset ds (renamed ds) = Ok (converted ds i j s).
Proof.
  unfold raw_weight_file. rewrite !andb_true_iff, negb_true_iff.
  intros [[[Hdims Hvars] Hrm] H]. split_and!; [done..|].
  destruct (dim_id "n_s" ds) as [i|] eqn:Hi; [|done].
  destruct (dim_id "num_wgts" ds) as [j|] eqn:Hj; [|done].
  destruct (get_variable "S" ds) as [s|] eqn:Hs; [|done].
  apply andb_true_iff in H as [Hk%bool_decide_eq_true Hlen%bool_decide_eq_true].
  exists i, j, s. split_and!; try done.
  unfold fix_dataset, createVariable. cbn [mapM].
  rewrite (dim_id_renamed_links ds Hdims), dim_id_renamed_wgts, Hi, Hj. cbn.
  pose proof (no_remap_matrix_renamed ds Hrm) as Hrm'.
  unfold renamed in Hrm'. cbn [ds_vars] in Hrm'. rewrite Hrm'.
  rewrite get_variable_last, Hs by done.
  unfold assign_column0. cbn [vdims vdata].
  change (dim_size (Dataset (rename_entries dim_renames (ds_dims ds)) _))
    with (dim_size (renamed ds)).
  rewrite !dim_size_renamed.
  rewrite bool_decide_false by done. rewrite bool_decide_true by done.
  by rewrite set_variable_last.
Qed.

Lemma column0_set_column0 k vals data :
  k ≠ 0%nat → length data = (length vals * k)%nat →
  column0 k (length vals) (set_column0 k vals data) = vals.
Proof.
  intros Hk. revert data. induction vals as [|v vals IH]; intros data Hlen; [done|].
  destruct k as [|k]; [done|]. cbn [length] in Hlen.
  destruct data as [|x data]; [cbn in Hlen; lia|].
  cbn [length set_column0 column0 take tail]. cbn [app head default]. f_equal.
  assert (length (v :: take k data) = S k) as Hrow.
  { cbn [length] in *. rewrite length_take. lia. }
  change (v :: take k data ++ ?r) with ((v :: take k data) ++ r).
  rewrite drop_app_length' by done. apply IH.
  rewrite length_drop. cbn [length] in *. lia.
Qed.

Lemma length_set_column0 k vals data :
  k ≠ 0%nat → length data = (length vals * k)%nat →
  length (set_column0 k vals data) = length data.
Proof.
  intros Hk. revert data. induction vals as [|v vals IH]; intros data Hlen; [done|].
  destruct k as [|k]; [done|]. cbn [length] in Hlen.
  destruct data as [|x data]; [cbn in Hlen; lia|].
  cbn [set_column0 take tail]. rewrite length_app. cbn [length].
  rewrite length_take, IH; rewrite length_drop; cbn [length] in *; lia.
Qed.

Lemma rename_entries_renamed_by {A} tbl (l : list (string * A)) :
  one_to_one tbl → renamable tbl l = true →
  renamed_by tbl l (rename_entries tbl l).
Proof.
  intros Htbl [Hold Hnew]%renamable_spec.
  pose proof Htbl as (Hnd1 & Hnd2 & Hdisj). rewrite Forall_forall in Hdisj.
  unfold renamed_by, rename_entries. split_and!.
  - intros o Ho Hin. rewrite <- list_fmap_compose in Hin.
    apply list_elem_of_fmap_1 in Hin as ([z a] & Heq & Hin).
    change (o = rename_name tbl z) in Heq.
    destruct (decide (z ∈ tbl.*1)) as [Hz|Hz].
    + apply rename_name_new in Hz. rewrite <- Heq in Hz. by apply (Hdisj o).
    + rewrite rename_name_other in Heq by done. by subst.
  - intros n Hn. apply list_elem_of_fmap_1 in Hn as ([o n'] & -> & Hin).
    assert (o ∈ l.*1) as Ho by (apply Hold; by apply (list_elem_of_fmap_2 fst _ (o, n'))).
    apply list_elem_of_fmap_1 in Ho as ([o' a] & -> & Ho).
    rewrite <- list_fmap_compose. apply list_elem_of_fmap. exists (o', a).
    split; [|done]. cbn. symmetry. by apply rename_name_pair.
  - intros i x a Hi Hx. rewrite list_lookup_fmap, Hi. cbn.
    by rewrite rename_name_other.
  - intros i o n a Hin Hi. rewrite list_lookup_fmap, Hi. cbn.
    by rewrite (rename_name_pair tbl o n).
  - apply length_fmap.
Qed.

(** The converter on a raw weight file under a temp name: what it returns
    and what it leaves. *)
Lemma convert_raw_weight_file E j st ds :
  fs st !! tmp_path j = Some (FNc ds) →
  fs st !! tmp_path (next_tmp st) = None →
  raw_weight_file ds = true →
  ∃ i k s st',
    dim_id "n_s" ds = Some i ∧ dim_id "num_wgts" ds = Some k ∧
    get_variable "S" ds = Ok s ∧ dim_size ds k ≠ 0%nat ∧
    length (vdata s) = dim_size ds i ∧
    convert_to_scrip_output E (Some (tmp_path j)) st
    = (Ok (tmp_path (next_tmp st)), st') ∧
    fs st' = <[tmp_path (next_tmp st) := FNc (converted ds i k s)]>
               (delete (tmp_path j) (fs st)).
Proof.
  intros Hw Hnw Hraw.
  apply raw_weight_file_spec in Hraw
    as (Hdims & Hvars & i & k & s & Hi & Hk & Hs & Hk0 & Hlen & Hfix).
  destruct (tmp_path_not_option j) as [Hd Hv].
  eexists i, k, s, _. split_and!; try done.
  - by apply convert_ok with (ds := ds) (d := converted ds i k s).
  - done.
Qed.

(** C6: run on a raw weight file of the generator, the converter returns
    the path of the converted file and has deleted the original; the
    converted file has a variable remap_matrix over the dimensions
    (num_links, num_wgts), and column 0 of that matrix is, cell for cell,
    the array S of the original file. *)
Theorem converter_copies_weights E j st ds :
  fs st !! tmp_path j = Some (FNc ds) →
  fs st !! tmp_path (next_tmp st) = None →
  raw_weight_file ds = true →
  ∃ st' ds' s rm links wgts,
    convert_to_scrip_output E (Some (tmp_path j)) st
    = (Ok (tmp_path (next_tmp st)), st') ∧
    fs st' !! tmp_path j = None ∧
    fs st' !! tmp_path (next_tmp st) = Some (FNc ds') ∧
    get_variable "S" ds = Ok s ∧
    get_variable "remap_matrix" ds' = Ok rm ∧
    dim_id "num_links" ds' = Some links ∧
    dim_id "num_wgts" ds' = Some wgts ∧
    vdims rm = [links; wgts] ∧
    length (vdata rm) = (dim_size ds' links * dim_size ds' wgts)%nat ∧
    column0 (dim_size ds' wgts) (dim_size ds' links) (vdata rm) = vdata s.
Proof.
  intros Hw Hnw Hraw.
  assert (tmp_path j ≠ tmp_path (next_tmp st)) as Hne by congruence.
  pose proof (raw_weight_file_spec ds Hraw) as (Hdims & Hvars & _).
  assert (has_name "remap_matrix" (ds_vars ds) = false) as Hrm.
  { unfold raw_weight_file in Hraw. rewrite !andb_true_iff in Hraw.
    destruct Hraw as [[_ Hrm] _]. by apply negb_true_iff. }
  destruct (convert_raw_weight_file E j st ds Hw Hnw Hraw)
    as (i & k & s & st' & Hi & Hk & Hs & Hk0 & Hlen & Hrun & Hfs).
  assert (∀ x, dim_size (converted ds i k s) x = dim_size ds x) as Hsize.
  { intros x. change (dim_size (renamed ds) x = dim_size ds x).
    apply dim_size_renamed. }
  assert (length (replicate (dim_size ds i * (dim_size ds k * 1)) NC_FILL_DOUBLE)
          = (length (vdata s) * dim_size ds k)%nat) as Hfill.
  { rewrite length_replicate. lia. }
  exists st', (converted ds i k s), s, (remap_matrix_of ds i k s), i, k.
  split_and!; try done.
  - rewrite Hfs. rewrite lookup_insert_ne by done. apply lookup_delete_eq.
  - rewrite Hfs. apply lookup_insert_eq.
  - unfold converted. apply get_variable_last.
    pose proof (no_remap_matrix_renamed ds Hrm) as H. exact H.
  - change (dim_id "num_links" (renamed ds) = Some i).
    by rewrite dim_id_renamed_links.
  - change (dim_id "num_wgts" (renamed ds) = Some k).
    by rewrite dim_id_renamed_wgts.
  - rewrite !Hsize. unfold remap_matrix_of. cbn [vdata].
    rewrite length_set_column0 by done. rewrite length_replicate. lia.
  - rewrite !Hsize. unfold remap_matrix_of. cbn [vdata].
    pose proof (column0_set_column0 (dim_size ds k) (vdata s) _ Hk0 Hfill) as H.
    by rewrite Hlen in H.
Qed.

Lemma converter_copies_weights_witness :
  ∃ st' ds' s rm links wgts,
    convert_to_scrip_output Sample.E_ok (Some (tmp_path 2)) Sample.st_raw
    = (Ok (tmp_path (next_tmp Sample.st_raw)), st') ∧
    fs st' !! tmp_path 2 = None ∧
    fs st' !! tmp_path (next_tmp Sample.st_raw) = Some (FNc ds') ∧
    get_variable "S" Sample.raw_weights = Ok s ∧
    get_variable "remap_matrix" ds' = Ok rm ∧
    dim_id "num_links" ds' = Some links ∧
    dim_id "num_wgts" ds' = Some wgts ∧
    vdims rm = [links; wgts] ∧
    length (vdata rm) = (dim_size ds' links * dim_size ds' wgts)%nat ∧
    column0 (dim_size ds' wgts) (dim_size ds' links) (vdata rm) = vdata s.
Proof.
  apply (converter_copies_weights Sample.E_ok 2 Sample.st_raw Sample.raw_weights).
  - vm_compute. reflexivity.
  - vm_compute. reflexivity.
  - vm_compute. reflexivity.
Defined.

(** C7 as stated counts sixteen renames on the command line; there are
    twenty-one. *)
Lemma rename_table_is_not_16 :
  parse_ncrename ncrename_options = Some (rename_table, []) ∧
  length rename_table ≠ 16%nat.
Proof. split; [reflexivity|]. vm_compute. lia. Qed.

(** C7, amended: the renames of the converter's command line are a fixed
    table of 21 entries, 5 for dimensions and 16 for variables, each one to
    one.  After a conversion of a raw weight file every old name of the
    table is absent and every new one present, and each dimension and
    variable is in its place with its content unchanged, under its own name
    if the table does not list it; the only addition is the variable
    remap_matrix. *)
Theorem converter_renames E j st ds :
  fs st !! tmp_path j = Some (FNc ds) →
  fs st !! tmp_path (next_tmp st) = None →
  raw_weight_file ds = true →
  parse_ncrename ncrename_options = Some (rename_table, []) ∧
  length rename_table = 21%nat ∧
  length dim_renames = 5%nat ∧ length var_renames = 16%nat ∧
  one_to_one dim_renames ∧ one_to_one var_renames ∧
  ∃ st' ds' vars' rm,
    convert_to_scrip_output E (Some (tmp_path j)) st
    = (Ok (tmp_path (next_tmp st)), st') ∧
    fs st' !! tmp_path (next_tmp st) = Some (FNc ds') ∧
    renamed_by dim_renames (ds_dims ds) (ds_dims ds') ∧
    renamed_by var_renames (ds_vars ds) vars' ∧
    ds_vars ds' = vars' ++ [("remap_matrix", rm)].
Proof.
  intros Hw Hnw Hraw.
  split_and!; try reflexivity;
    try apply dim_renames_one_to_one; try apply var_renames_one_to_one.
  pose proof (raw_weight_file_spec ds Hraw) as (Hdims & Hvars & _).
  destruct (convert_raw_weight_file E j st ds Hw Hnw Hraw)
    as (i & k & s & st' & _ & _ & _ & _ & _ & Hrun & Hfs).
  exists st', (converted ds i k s),
    (rename_entries var_renames (ds_vars ds)), (remap_matrix_of ds i k s).
  split_and!; try done.
  - rewrite Hfs. apply lookup_insert_eq.
  - apply rename_entries_renamed_by; [apply dim_renames_one_to_one|done].
  - apply rename_entries_renamed_by; [apply var_renames_one_to_one|done].
Qed.

Lemma converter_renames_witness :
  parse_ncrename ncrename_options = Some (rename_table, []) ∧
  length rename_table = 21%nat ∧
  length dim_renames = 5%nat ∧ length var_renames = 16%nat ∧
  one_to_one dim_renames ∧ one_to_one var_renames ∧
  ∃ st' ds' vars' rm,
    convert_to_scrip_output Sample.E_ok (Some (tmp_path 2)) Sample.st_raw
    = (Ok (tmp_path (next_tmp Sample.st_raw)), st') ∧
    fs st' !! tmp_path (next_tmp Sample.st_raw) = Some (FNc ds') ∧
    renamed_by dim_renames (ds_dims Sample.raw_weights) (ds_dims ds') ∧
    renamed_by var_renames (ds_vars Sample.raw_weights) vars' ∧
    ds_vars ds' = vars' ++ [("remap_matrix", rm)].
Proof.
  apply (converter_renames Sample.E_ok 2 Sample.st_raw Sample.raw_weights).
  - vm_compute. reflexivity.
  - vm_compute. reflexivity.
  - vm_compute. reflexivity.
Defined.

(** ** A failed rename *)

Lemma keeps_trace_after_rename w nw :
  keeps_trace
    (fix_remap_matrix w nw;;
     match w with
     | Some w => os_remove w
     | None => raise TypeError
     end;;
     mret nw).
Proof.
  apply keeps_trace_bind; [apply keeps_trace_fix_remap_matrix|intros _].
  keeps.
Qed.

(** ** Temp names *)

Lemma string_length_app (s t : string) :
  String.length (s +:+ t) = (String.length s + String.length t)%nat.
Proof. induction s as [|c s IH]; simpl; [done|]. by rewrite IH. Qed.

Lemma string_app_inj_r (s1 s2 t : string) : s1 +:+ t = s2 +:+ t → s1 = s2.
Proof.
  revert s2. induction s1 as [|c s1 IH]; intros [|c' s2] H; simpl in H.
  - done.
  - apply (f_equal String.length) in H. simpl in H.
    rewrite !string_length_app in H. simpl in H. lia.
  - apply (f_equal String.length) in H. simpl in H.
    rewrite !string_length_app in H. simpl in H. lia.
  - injection H as -> H. f_equal. by apply IH.
Qed.

#[local] Instance tmp_path_inj : Inj (=) (=) tmp_path.
Proof.
  intros k1 k2 H. unfold tmp_path in H.
  apply (inj (String.app "/tmp/tmp")) in H.
  apply string_app_inj_r in H. by apply (inj pretty) in H.
Qed.

Lemma tmp_path_slash k : ∃ s, tmp_path k = String "/" s.
Proof. by eexists. Qed.

Lemma tmp_path_not_log k : tmp_path k ≠ esmf_log_name.
Proof. done. Qed.

Lemma tmp_path_not_output k atm ocean method :
  atm = "CORE2" ∨ atm = "JRA55" → tmp_path k ≠ output_name atm ocean method.
Proof. by intros [-> | ->]. Qed.

(** ** One combination *)

Lemma keeps_state_ret {A} (a : A) : keeps_state (mret a).
Proof. done. Qed.

Lemma keeps_state_raise {A} e : keeps_state (raise (A := A) e).
Proof. done. Qed.

Lemma keeps_state_bind {A B} (m : M A) (f : A → M B) :
  keeps_state m → (∀ a, keeps_state (f a)) → keeps_state (m ≫= f).
Proof.
  intros Hm Hf st. unfold mbind, M_bind. specialize (Hm st).
  destruct (m st) as [[a|e] st1]; simpl in *; subst; [apply Hf|done].
Qed.

Lemma keeps_state_read_grid_file p : keeps_state (read_grid_file p).
Proof. intros st. unfold read_grid_file. by repeat case_match. Qed.

Lemma keeps_state_dict_get d k : keeps_state (dict_get d k).
Proof. intros st. unfold dict_get. by case_match. Qed.

Lemma keeps_state_as_path v : keeps_state (as_path v).
Proof. by destruct v. Qed.

Lemma keeps_state_item i v : keeps_state (item i v).
Proof. intros st. unfold item. by repeat case_match. Qed.

#[local] Hint Resolve keeps_state_ret keeps_state_raise keeps_state_read_grid_file
  keeps_state_dict_get keeps_state_as_path keeps_state_item : keeps.

Ltac reads :=
  repeat first
    [ apply keeps_state_bind; [|intros ?]
    | solve [auto with keeps]
    | match goal with |- keeps_state (match ?x with _ => _ end) => destruct x end ].

Lemma keeps_state_inv {A} (m : M A) st r st' :
  keeps_state m → m st = (r, st') → st' = st.
Proof. intros H Hrun. specialize (H st). by rewrite Hrun in H. Qed.

Lemma os_remove_inv p st st' :
  os_remove p st = (Ok tt, st') → st' = set_fs (delete p) st.
Proof. unfold os_remove. destruct (fs st !! p); by intros [= <-]. Qed.

Lemma shutil_move_inv a b st st' :
  shutil_move a b st = (Ok tt, st') →
  ∃ f, fs st !! a = Some f ∧ st' = set_fs (λ m, <[b := f]> (delete a m)) st.
Proof. unfold shutil_move. destruct (fs st !! a); [|done]. intros [= <-]. eauto. Qed.

(** A successful conversion: the result is the fresh temp name, holding a
    NetCDF file; the original is gone. *)
Lemma convert_inv E w st p st' :
  convert_to_scrip_output E w st = (Ok p, st') →
  fs st !! tmp_path (next_tmp st) = None →
  ∃ w0 d, w = Some w0 ∧ p = tmp_path (next_tmp st) ∧
    fs st' = <[p := FNc d]> (delete w0 (fs st)) ∧
    next_tmp st' = S (next_tmp st).
Proof.
  intros Hrun Hnw. rewrite convert_run, (renaming_from_fresh st Hnw) in Hrun.
  set (nw := tmp_path (next_tmp st)) in *.
  set (s0 := State (fs st) (stdout st) (stderr st) (trace st) (S (next_tmp st))) in *.
  pose proof (rename_step_run E w nw s0) as Hstep. cbv zeta in Hstep.
  rewrite tail_ncrename_cmd in Hstep.
  destruct (ncrename_cases (format_path w) nw (fs s0))
    as [(rc0 & out0 & Hrc0 & Hnc)|(ds & ds' & Hw & _ & _ & Hnc)];
    rewrite Hnc in Hstep; cbn [fst snd] in Hstep.
  - rewrite decide_False in Hstep by done.
    rewrite (bind_Ok _ _ _ _ _ Hstep) in Hrun.
    erewrite bind_Raise in Hrun; [done|].
    by apply fix_remap_matrix_missing.
  - rewrite decide_True in Hstep by done.
    rewrite (bind_Ok _ _ _ _ _ Hstep) in Hrun.
    apply bind_inv_Ok in Hrun as ([] & s2 & Hfix & Hrun).
    apply fix_remap_matrix_inv in Hfix as (w0 & f_old & d & -> & _ & ->).
    apply bind_inv_Ok in Hrun as ([] & s3 & Hrm & Hrun).
    apply os_remove_inv in Hrm as ->. injection Hrun as <- <-.
    assert (w0 ≠ nw) as Hne by (cbn in Hw; congruence).
    exists w0, d. split_and!; [done..| |done]. cbn.
    rewrite insert_insert_eq. by apply delete_insert_ne.
Qed.

Lemma find_opt_esmf_cmd E esmf s d m w flags :
  find_opt "-w" (drop 3 (tail (esmf_cmd E esmf s d m w flags))) = Some w.
Proof.
  unfold esmf_cmd. cbn [app tail drop find_opt].
  rewrite !decide_False by done. by rewrite decide_True.
Qed.

(** The file system after the generator ran. *)
Lemma fs_launched E method iu st st1 :
  let cmd := launch_cmd E method iu st st1 in
  let eff := esmf_run E cmd (fs st1) in
  fs (launched E cmd st1) =
  let m1 := match esmf_weights eff with
            | Some ds => <[tmp_path (S (S (next_tmp st))) := FNc ds]> (fs st1)
            | None => fs st1
            end in
  match esmf_log eff with
  | Some s => <[esmf_log_name := FText s]> m1
  | None => m1
  end.
Proof.
  intros cmd eff. unfold launched, esmf_writes. cbn [fs set_fs add_event add_stdout].
  fold eff. unfold cmd at 1, launch_cmd. by rewrite find_opt_esmf_cmd.
Qed.

Lemma temps_free_spec st :
  temps_free st →
  fs st !! tmp_path (next_tmp st) = None ∧
  fs st !! tmp_path (S (next_tmp st)) = None ∧
  fs st !! tmp_path (S (S (next_tmp st))) = None ∧
  fs st !! tmp_path (S (S (S (next_tmp st)))) = None.
Proof.
  unfold temps_free. cbn [seq]. rewrite !Forall_cons.
  replace (next_tmp st + 0)%nat with (next_tmp st) by lia.
  replace (next_tmp st + 1)%nat with (S (next_tmp st)) by lia.
  replace (next_tmp st + 2)%nat with (S (S (next_tmp st))) by lia.
  replace (next_tmp st + 3)%nat with (S (S (S (next_tmp st)))) by lia.
  tauto.
Qed.

(** Two temp names with different numbers differ, and no temp name is the
    log's. *)
Ltac tmp_ne :=
  first [ apply tmp_path_not_log
        | intros ?%(inj tmp_path); lia ].

(** C8: a successful run of one valid combination leaves the final file
    {atm}_{ocean}_{method}.nc, a NetCDF file, and nothing else of its own:
    the four temp files it made (the two grid descriptions, the raw weight
    file and the converter's) are gone, and every other path holds what it
    held before, but for the log the generator may have left. *)
Theorem combination_leaves_one_file E i jd atm ocean method st st' :
  atm ∈ atm_options → ocean ∈ ocean_options → method ∈ method_options →
  temps_free st →
  process_combination E (find_grid_defs i jd) atm ocean method st = (Ok tt, st') →
  ∃ d log,
    fs st' = <[output_name atm ocean method := FNc d]> (with_log log (fs st)) ∧
    Forall (λ k, fs st' !! tmp_path (next_tmp st + k) = None) (seq 0 4) ∧
    next_tmp st' = (next_tmp st + 4)%nat.
Proof.
  intros _ _ _ Hfree Hrun.
  apply temps_free_spec in Hfree as (H0 & H1 & H2 & H3).
  unfold process_combination in Hrun.
  apply bind_inv_Ok in Hrun as (src & s1 & Hsrc & Hrun).
  assert (atm = "CORE2" ∨ atm = "JRA55") as Hatm.
  { repeat case_decide; [by left|by right|done]. }
  assert (s1 = st) as ->.
  { eapply keeps_state_inv; [|exact Hsrc]. unfold Core2Grid, Jra55Grid. reads. }
  clear Hsrc.
  apply bind_inv_Ok in Hrun as (hgrid & s1 & Hh & Hrun).
  assert (s1 = st) as -> by (eapply keeps_state_inv; [|exact Hh]; reads).
  apply bind_inv_Ok in Hrun as (mask_file & s1 & Hm & Hrun).
  assert (s1 = st) as -> by (eapply keeps_state_inv; [|exact Hm]; reads).
  apply bind_inv_Ok in Hrun as (dst & s1 & Hdst & Hrun).
  assert (s1 = st) as ->.
  { eapply keeps_state_inv; [|exact Hdst]. unfold MomGrid_fromfile. reads. }
  clear Hh Hm Hdst.
  apply bind_inv_Ok in Hrun as (w & s2 & Hcw & Hrun).
  apply bind_inv_Ok in Hrun as (nw & s3 & Hcv & Hmv).
  rewrite create_weights_run in Hcw. cbv zeta in Hcw.
  set (st1 := prepared src dst default_unmasked_src default_unmasked_dest st) in *.
  set (cmd := launch_cmd E method default_ignore_unmapped st st1) in *.
  pose proof (fs_launched E method default_ignore_unmapped st st1) as Hfs2.
  cbv zeta in Hfs2. fold cmd in Hfs2.
  set (eff := esmf_run E cmd (fs st1)) in *.
  assert (next_tmp (launched E cmd st1) = S (S (S (next_tmp st)))) as Hn2 by done.
  assert (fs st1 =
          <[tmp_path (S (next_tmp st)) := FScrip dst (written_mask dst default_unmasked_dest)]>
            (<[tmp_path (next_tmp st) := FScrip src (written_mask src default_unmasked_src)]>
               (<[tmp_path (S (S (next_tmp st))) := FText ""]>
                  (<[tmp_path (S (next_tmp st)) := FText ""]>
                     (<[tmp_path (next_tmp st) := FText ""]> (fs st)))))) as Hfs1 by done.
  set (s := launched E cmd st1) in *. clearbody s. clearbody st1.
  destruct (esmf_proc eff) as [rc out|]; [|done].
  destruct (decide (rc = 0%Z)) as [->|Hrc]; last first.
  { unfold mbind, M_bind in Hcw. rewrite report_esmf_failure_run in Hcw.
    injection Hcw as <- <-.
    apply convert_inv in Hcv as (w0 & d & [=] & _). cbn.
    rewrite Hn2. rewrite Hfs2, Hfs1.
    destruct (esmf_weights eff), (esmf_log eff);
      rewrite ?lookup_insert_ne; try done;
      try (intros ?%(inj tmp_path); lia). }
  apply bind_inv_Ok in Hcw as ([] & s' & Hr1 & Hcw).
  apply os_remove_inv in Hr1 as ->.
  apply bind_inv_Ok in Hcw as ([] & s' & Hr2 & Hcw).
  apply os_remove_inv in Hr2 as ->. injection Hcw as <- <-.
  assert (∀ a b : nat, a ≠ b → tmp_path a ≠ tmp_path b) as Hinj.
  { intros a b Hab ?%(inj tmp_path). done. }
  apply convert_inv in Hcv as (w0 & d & [= <-] & -> & Hfs3 & Hn3); last first.
  { cbn. rewrite Hn2, Hfs2, Hfs1.
    rewrite !lookup_delete_ne by (apply Hinj; lia).
    destruct (esmf_weights eff), (esmf_log eff);
      rewrite ?lookup_insert_ne; try done;
      try (apply Hinj; lia); try apply not_eq_sym, tmp_path_not_log. }
  cbn [next_tmp set_fs fs] in Hfs3, Hn3, Hmv. rewrite Hn2 in Hfs3, Hn3, Hmv.
  apply shutil_move_inv in Hmv as (f & Hf & ->).
  rewrite Hfs3, lookup_insert_eq in Hf. injection Hf as <-.
  assert (∀ k, tmp_path k ≠ output_name atm ocean method) as Hout.
  { intros k. by apply tmp_path_not_output. }
  assert (fs (set_fs (λ m, <[output_name atm ocean method := FNc d]>
                             (delete (tmp_path (S (S (S (next_tmp st))))) m)) s3)
          = <[output_name atm ocean method := FNc d]>
              (with_log (esmf_log eff) (fs st))) as Hfinal.
  { cbn. rewrite Hfs3. f_equal. rewrite delete_insert_eq.
    rewrite Hfs2, Hfs1. unfold with_log.
    destruct (esmf_weights eff), (esmf_log eff).
    all: repeat first
           [ rewrite (delete_insert_eq _ (tmp_path (next_tmp st)))
           | rewrite (delete_insert_ne _ (tmp_path (next_tmp st))) by tmp_ne ].
    all: rewrite (delete_id _ (tmp_path (next_tmp st))) by done.
    all: repeat first
           [ rewrite (delete_insert_eq _ (tmp_path (S (next_tmp st))))
           | rewrite (delete_insert_ne _ (tmp_path (S (next_tmp st)))) by tmp_ne ].
    all: rewrite (delete_id _ (tmp_path (S (next_tmp st)))) by done.
    all: repeat first
           [ rewrite (delete_insert_eq _ (tmp_path (S (S (next_tmp st)))))
           | rewrite (delete_insert_ne _ (tmp_path (S (S (next_tmp st))))) by tmp_ne ].
    all: rewrite (delete_id _ (tmp_path (S (S (next_tmp st))))) by done.
    all: repeat first
           [ rewrite (delete_insert_eq _ (tmp_path (S (S (S (next_tmp st))))))
           | rewrite (delete_insert_ne _ (tmp_path (S (S (S (next_tmp st)))))) by tmp_ne ].
    all: by rewrite (delete_id _ (tmp_path (S (S (S (next_tmp st)))))). }
  exists d, (esmf_log eff). split_and!; [exact Hfinal| |cbn; lia].
  rewrite Hfinal. cbn [seq]. repeat apply Forall_cons_2; [..|done].
  all: rewrite lookup_insert_ne by (apply not_eq_sym, Hout).
  all: unfold with_log; destruct (esmf_log eff);
       rewrite ?lookup_insert_ne by apply not_eq_sym, tmp_path_not_log.
  all: first [ by replace (next_tmp st + 0)%nat with (next_tmp st) by lia
             | by replace (next_tmp st + 1)%nat with (S (next_tmp st)) by lia
             | by replace (next_tmp st + 2)%nat with (S (S (next_tmp st))) by lia
             | by replace (next_tmp st + 3)%nat with (S (S (S (next_tmp st)))) by lia ].
Qed.

Lemma combination_leaves_one_file_witness :
  ∃ d log,
    fs (process_combination Sample.E_ok (find_grid_defs "/in" "/jra")
          "CORE2" "MOM1" "patch" Sample.st0).2
    = <[output_name "CORE2" "MOM1" "patch" := FNc d]>
        (with_log log (fs Sample.st0)) ∧
    Forall (λ k, fs (process_combination Sample.E_ok (find_grid_defs "/in" "/jra")
                       "CORE2" "MOM1" "patch" Sample.st0).2
                 !! tmp_path (next_tmp Sample.st0 + k) = None) (seq 0 4) ∧
    next_tmp (process_combination Sample.E_ok (find_grid_defs "/in" "/jra")
                "CORE2" "MOM1" "patch" Sample.st0).2
    = (next_tmp Sample.st0 + 4)%nat.
Proof.
  apply (combination_leaves_one_file Sample.E_ok "/in" "/jra"
           "CORE2" "MOM1" "patch" Sample.st0).
  - by_evaluation.
  - by_evaluation.
  - by_evaluation.
  - unfold temps_free. cbn [seq].
    repeat (apply Forall_cons_2; [vm_compute; reflexivity|]). apply Forall_nil_2.
  - etransitivity; [apply surjective_pairing|].
    apply (f_equal (λ r, (r, _))). vm_compute. reflexivity.
Defined.

(** ** Exit status and the commands run *)

Lemma keeps_emits_if_ok P {A} (m : M A) : keeps_trace m → emits_if_ok P m.
Proof.
  intros H st a st' Hrun. exists []. specialize (H st).
  rewrite Hrun in H. by rewrite app_nil_r.
Qed.

Lemma emits_if_ok_bind P {A B} (m : M A) (f : A → M B) :
  emits_if_ok P m → (∀ a, emits_if_ok P (f a)) → emits_if_ok P (m ≫= f).
Proof.
  intros Hm Hf st b st' Hrun.
  apply bind_inv_Ok in Hrun as (a & s1 & Hm1 & Hf1).
  destruct (Hm _ _ _ Hm1) as (evs & Htr & Hevs).
  destruct (Hf _ _ _ _ Hf1) as (evs' & Htr' & Hevs').
  exists (evs ++ evs'). rewrite Htr', Htr, app_assoc.
  split; [done|]. by apply Forall_app.
Qed.

Lemma emits_if_ok_for_each P {A} (l : list A) (body : A → M unit) :
  (∀ x, x ∈ l → emits_if_ok P (body x)) → emits_if_ok P (for_each l body).
Proof.
  induction l as [|x l IH]; intros H; simpl.
  - apply keeps_emits_if_ok, keeps_trace_ret.
  - apply emits_if_ok_bind; [apply H; left|].
    intros _. apply IH. intros y Hy. apply H. by right.
Qed.

(** The converter cannot end normally on [None]. *)
Lemma convert_None_not_Ok E st p st' :
  convert_to_scrip_output E None st ≠ (Ok p, st').
Proof.
  rewrite convert_run. intros H.
  apply bind_inv_Ok in H as ([] & s1 & _ & H).
  by apply bind_inv_Ok in H as ([] & s2 & Hfix & _).
Qed.

(** A converter that ends normally ran a rename that exited with 0. *)
Lemma convert_Ok_trace E w st p st' :
  convert_to_scrip_output E w st = (Ok p, st') →
  trace st' =
  trace st ++ [EvExec (ncrename_cmd w (tmp_path (next_tmp st))) (Exited 0 "")].
Proof.
  intros Hrun. rewrite convert_run in Hrun.
  set (nw := tmp_path (next_tmp st)) in *. set (s0 := renaming_from st) in *.
  assert (fs s0 !! nw = None) as Hnw by apply lookup_delete_eq.
  assert (trace s0 = trace st) as Htr0 by done.
  clearbody s0.
  pose proof (rename_step_run E w nw s0) as Hstep. cbv zeta in Hstep.
  rewrite tail_ncrename_cmd in Hstep.
  destruct (ncrename_cases (format_path w) nw (fs s0))
    as [(rc0 & out0 & Hrc0 & Hnc)|(ds & ds' & _ & _ & _ & Hnc)];
    rewrite Hnc in Hstep; cbn [fst snd] in Hstep.
  - rewrite decide_False in Hstep by done.
    rewrite (bind_Ok _ _ _ _ _ Hstep) in Hrun.
    erewrite bind_Raise in Hrun; [done|].
    by apply fix_remap_matrix_missing.
  - rewrite decide_True in Hstep by done.
    rewrite (bind_Ok _ _ _ _ _ Hstep) in Hrun.
    match type of Hstep with _ = (_, ?s) => set (s1 := s) in * end.
    pose proof (keeps_trace_after_rename w nw s1) as Hkeep.
    rewrite Hrun in Hkeep. cbn [snd] in Hkeep.
    rewrite Hkeep. subst s1. cbn. by rewrite Htr0.
Qed.

(** A weight computation that returns a path ran a generator that exited
    with 0. *)
Lemma create_weights_Some_trace E src dst method iu us ud st w st' :
  create_weights E src dst method iu us ud st = (Ok (Some w), st') →
  ∃ cmd out,
    trace st' =
    trace st ++
      [EvWriteScrip (tmp_path (next_tmp st)) src (written_mask src us);
       EvWriteScrip (tmp_path (S (next_tmp st))) dst (written_mask dst ud);
       EvExec cmd (Exited 0 out)].
Proof.
  intros Hrun.
  pose proof (create_weights_trace E src dst method iu us ud st) as Htr.
  cbv zeta in Htr. rewrite Hrun in Htr. cbn [snd] in Htr.
  rewrite create_weights_run in Hrun. cbv zeta in Hrun.
  set (o := esmf_proc _) in Htr, Hrun. clearbody o.
  destruct o as [rc out|]; [|done].
  destruct (decide (rc = 0%Z)) as [->|Hrc]; [by eauto|].
  unfold mbind, M_bind in Hrun. by rewrite report_esmf_failure_run in Hrun.
Qed.

Lemma emits_if_ok_process_combination E d atm ocean method :
  emits_if_ok exited_zero (process_combination E d atm ocean method).
Proof.
  intros st [] st' Hrun. unfold process_combination in Hrun.
  apply bind_inv_Ok in Hrun as (src & s1 & Hsrc & Hrun).
  assert (trace s1 = trace st) as Ht1.
  { assert (keeps_trace
              (if decide (atm = "CORE2") then
                 v ← dict_get d atm; p ← as_path v; Core2Grid p
               else if decide (atm = "JRA55") then
                 v ← dict_get d atm; p ← as_path v; Jra55Grid p
               else raise (NameError "Jra552RiverGrid"))) as Hk.
    { unfold Core2Grid, Jra55Grid. keeps. }
    specialize (Hk st). by rewrite Hsrc in Hk. }
  apply bind_inv_Ok in Hrun as (hgrid & s2 & Hh & Hrun).
  assert (trace s2 = trace s1) as Ht2.
  { assert (keeps_trace (v ← dict_get d ocean; item 0 v)) as Hk by keeps.
    specialize (Hk s1). by rewrite Hh in Hk. }
  apply bind_inv_Ok in Hrun as (mask_file & s3 & Hm & Hrun).
  assert (trace s3 = trace s2) as Ht3.
  { assert (keeps_trace (v ← dict_get d ocean; item 1 v)) as Hk by keeps.
    specialize (Hk s2). by rewrite Hm in Hk. }
  apply bind_inv_Ok in Hrun as (dst & s4 & Hdst & Hrun).
  assert (trace s4 = trace s3) as Ht4.
  { assert (keeps_trace (MomGrid_fromfile hgrid mask_file)) as Hk.
    { unfold MomGrid_fromfile. keeps. }
    specialize (Hk s3). by rewrite Hdst in Hk. }
  apply bind_inv_Ok in Hrun as (w & s5 & Hcw & Hrun).
  apply bind_inv_Ok in Hrun as (nw & s6 & Hcv & Hmv).
  destruct w as [w|]; [|by apply convert_None_not_Ok in Hcv].
  apply create_weights_Some_trace in Hcw as (cmd & out & Ht5).
  apply convert_Ok_trace in Hcv as Ht6.
  pose proof (keeps_trace_shutil_move nw (output_name atm ocean method) s6) as Ht7.
  rewrite Hmv in Ht7. cbn [snd] in Ht7.
  eexists. split.
  - rewrite Ht7, Ht6, Ht5, Ht4, Ht3, Ht2, Ht1, <- app_assoc. reflexivity.
  - repeat constructor; cbn; eauto.
Qed.

Lemma emits_if_ok_main_loops E a atms oceans methods :
  emits_if_ok exited_zero (main_loops E a atms oceans methods).
Proof.
  unfold main_loops.
  apply emits_if_ok_bind;
    [|intros _; apply keeps_emits_if_ok, keeps_trace_ret].
  apply emits_if_ok_for_each. intros atm _.
  apply emits_if_ok_for_each. intros ocean _.
  apply emits_if_ok_for_each. intros method _.
  apply emits_if_ok_process_combination.
Qed.

(** X1: main checks the status of no command, and yet it returns normally
    only if every command it ran, generator and rename alike, exited with
    status 0: a failed command always ends in an exception further on. *)
Theorem main_returns_only_after_clean_commands E a st code st' :
  main E a st = (Ok code, st') →
  ∃ evs, trace st' = trace st ++ evs ∧ Forall exited_zero evs.
Proof.
  revert st code st'. change (emits_if_ok exited_zero (main E a)).
  unfold main, main_ocean, main_method.
  repeat case_match;
    first [ apply emits_if_ok_main_loops
          | apply keeps_emits_if_ok, keeps_trace_bad_grid ].
Qed.

Lemma main_returns_only_after_clean_commands_witness :
  ∃ evs,
    trace (main Sample.E_ok (Sample.cli (Some "CORE2") (Some "MOM1") None)
             Sample.st0).2
    = trace Sample.st0 ++ evs ∧ Forall exited_zero evs.
Proof.
  apply (main_returns_only_after_clean_commands Sample.E_ok
           (Sample.cli (Some "CORE2") (Some "MOM1") None) Sample.st0 0%Z).
  etransitivity; [apply surjective_pairing|].
  apply (f_equal (λ r, (r, _))). vm_compute. reflexivity.
Defined.

(** ** The generator's command line and its temp files *)

Lemma string_app_nonempty (a b : string) : b ≠ "" → a +:+ b ≠ "".
Proof. intros Hb. by destruct a. Qed.

Lemma last_char_app (a b : string) :
  b ≠ "" → last_char (a +:+ b) = last_char b.
Proof.
  intros Hb. induction a as [|c a IH]; [done|].
  rewrite <- IH. simpl. destruct (a +:+ b) eqn:Hab; [|done].
  by apply string_app_nonempty in Hab.
Qed.

Lemma last_char_tmp_path k : last_char (tmp_path k) = Some "c"%char.
Proof.
  unfold tmp_path. rewrite last_char_app by by apply string_app_nonempty.
  by rewrite last_char_app.
Qed.

Lemma last_char_path_join2 a b :
  b ≠ "" → last_char (path_join2 a b) = last_char b.
Proof.
  intros Hb. unfold path_join2.
  repeat case_match; rewrite ?last_char_app; done.
Qed.

Lemma contrib_esmf_not_temp E k : contrib_esmf E ≠ tmp_path k.
Proof.
  intros H. apply (f_equal last_char) in H.
  rewrite last_char_tmp_path in H. unfold contrib_esmf, path_join in H.
  cbn [foldl] in H. by rewrite last_char_path_join2 in H.
Qed.

Lemma fs_prepared src dst us ud st :
  fs (prepared src dst us ud st) =
  <[tmp_path (S (next_tmp st)) := FScrip dst (written_mask dst ud)]>
    (<[tmp_path (next_tmp st) := FScrip src (written_mask src us)]>
       (<[tmp_path (S (S (next_tmp st))) := FText ""]>
          (<[tmp_path (S (next_tmp st)) := FText ""]>
             (<[tmp_path (next_tmp st) := FText ""]> (fs st))))).
Proof. done. Qed.

Lemma contrib_esmf_prepared E src dst us ud st :
  is_Some (fs (prepared src dst us ud st) !! contrib_esmf E)
  ↔ is_Some (fs st !! contrib_esmf E).
Proof.
  rewrite fs_prepared.
  by rewrite !lookup_insert_ne by (apply not_eq_sym, contrib_esmf_not_temp).
Qed.

Lemma launch_cmd_tokens E src dst us ud method iu st :
  launch_cmd E method iu st (prepared src dst us ud st) =
  ["mpirun"; "-np"; pretty (cpu_count E `div` 2)%nat;
   if bool_decide (is_Some (fs st !! contrib_esmf E))
   then contrib_esmf E else "ESMF_RegridWeightGen";
   "-s"; tmp_path (next_tmp st); "-d"; tmp_path (S (next_tmp st));
   "-m"; method; "-w"; tmp_path (S (S (next_tmp st)))] ++
  (if iu then ["--ignore_unmapped"] else []).
Proof.
  unfold launch_cmd, esmf_cmd. fold (contrib_esmf E). cbn [app].
  by rewrite (bool_decide_ext _ _ (contrib_esmf_prepared E src dst us ud st)).
Qed.

Lemma stdout_create_weights E src dst method iu us ud st :
  stdout (create_weights E src dst method iu us ud st).2 =
  stdout st ++
    [repr_list E (launch_cmd E method iu st (prepared src dst us ud st))].
Proof.
  rewrite create_weights_run. cbv zeta.
  set (st1 := prepared src dst us ud st).
  set (cmd := launch_cmd E method iu st st1).
  assert (stdout (launched E cmd st1) = stdout st ++ [repr_list E cmd]) as Hl by done.
  set (s := launched E cmd st1) in *. clearbody s.
  destruct (esmf_proc (esmf_run E cmd (fs st1))) as [rc out|]; [|done].
  destruct (decide (rc = 0%Z)).
  - unfold mbind, M_bind, os_remove. cbn [fs set_fs].
    destruct (fs s !! _); [|done]. cbn [fs set_fs].
    by destruct (delete _ (fs s) !! _).
  - unfold mbind, M_bind. by rewrite report_esmf_failure_run.
Qed.

(** X3: the generator is run as
    [mpirun -np <cpu_count // 2> <generator> -s <src> -d <dst> -m <method>
    -w <weights>], the three paths being the three temp files in the order
    they were made, with [--ignore_unmapped] appended exactly when the flag
    is set; the generator is the one under the script's contrib/bin if that
    file exists, else the bare name.  The one line the function adds to
    standard output is that list as Python prints it: the [repr] of each
    token, which is the token between single quotes unless it needs escapes
    or other quotes. *)
Theorem generator_command_line E src dst method iu us ud st :
  ∃ o,
    last (trace (create_weights E src dst method iu us ud st).2) =
    Some (EvExec
            (["mpirun"; "-np"; pretty (cpu_count E `div` 2)%nat;
              if bool_decide (is_Some (fs st !! contrib_esmf E))
              then contrib_esmf E else "ESMF_RegridWeightGen";
              "-s"; tmp_path (next_tmp st); "-d"; tmp_path (S (next_tmp st));
              "-m"; method; "-w"; tmp_path (S (S (next_tmp st)))] ++
             (if iu then ["--ignore_unmapped"] else [])) o) ∧
    stdout (create_weights E src dst method iu us ud st).2 =
    stdout st ++
      [repr_list E
         (["mpirun"; "-np"; pretty (cpu_count E `div` 2)%nat;
           if bool_decide (is_Some (fs st !! contrib_esmf E))
           then contrib_esmf E else "ESMF_RegridWeightGen";
           "-s"; tmp_path (next_tmp st); "-d"; tmp_path (S (next_tmp st));
           "-m"; method; "-w"; tmp_path (S (S (next_tmp st)))] ++
          (if iu then ["--ignore_unmapped"] else []))].
Proof.
  eexists. rewrite create_weights_trace, stdout_create_weights.
  cbv zeta. rewrite launch_cmd_tokens, last_app. cbn [last]. done.
Qed.

(** The state a failed generation leaves. *)
Lemma create_weights_failed E src dst method iu us ud st r st' cmd rc out :
  create_weights E src dst method iu us ud st = (r, st') →
  last (trace st') = Some (EvExec cmd (Exited rc out)) →
  rc ≠ 0%Z →
  fs st' =
    fs (launched E (launch_cmd E method iu st (prepared src dst us ud st))
          (prepared src dst us ud st)) ∧
  next_tmp st' = S (S (S (next_tmp st))).
Proof.
  intros Hrun Hlast Hrc.
  pose proof (create_weights_trace E src dst method iu us ud st) as Htr.
  cbv zeta in Htr. rewrite Hrun in Htr. cbn [snd] in Htr.
  rewrite create_weights_run in Hrun. cbv zeta in Hrun.
  set (o := esmf_proc _) in Htr, Hrun. clearbody o.
  rewrite Htr, last_app in Hlast. cbn [last] in Hlast.
  injection Hlast as _ ->.
  rewrite decide_False in Hrun by done.
  unfold mbind, M_bind in Hrun. rewrite report_esmf_failure_run in Hrun.
  by injection Hrun as <- <-.
Qed.

(** X2: when the generator exits with a non-zero status, create_weights
    returns without removing anything: the two grid descriptions it wrote
    and the weight temp file are still there. *)
Theorem failed_generation_leaves_temp_files
    E src dst method iu us ud st r st' cmd rc out :
  create_weights E src dst method iu us ud st = (r, st') →
  last (trace st') = Some (EvExec cmd (Exited rc out)) →
  rc ≠ 0%Z →
  fs st' !! tmp_path (next_tmp st)
  = Some (FScrip src (if us then zeros_like (mask_t src) else mask_t src)) ∧
  fs st' !! tmp_path (S (next_tmp st))
  = Some (FScrip dst (if ud then zeros_like (mask_t dst) else mask_t dst)) ∧
  is_Some (fs st' !! tmp_path (S (S (next_tmp st)))) ∧
  next_tmp st' = S (S (S (next_tmp st))).
Proof.
  intros Hrun Hlast Hrc.
  destruct (create_weights_failed _ _ _ _ _ _ _ _ _ _ _ _ _ Hrun Hlast Hrc)
    as [Hfs Hn].
  split_and!; [| | |done]; rewrite Hfs, fs_launched; cbv zeta;
    rewrite fs_prepared.
  - destruct (esmf_log _), (esmf_weights _);
      rewrite ?(lookup_insert_ne _ esmf_log_name)
        by apply not_eq_sym, tmp_path_not_log;
      rewrite !lookup_insert_ne by tmp_ne; by rewrite lookup_insert_eq.
  - destruct (esmf_log _), (esmf_weights _);
      rewrite ?(lookup_insert_ne _ esmf_log_name)
        by apply not_eq_sym, tmp_path_not_log;
      rewrite ?lookup_insert_ne by tmp_ne; by rewrite lookup_insert_eq.
  - destruct (esmf_log _), (esmf_weights _);
      rewrite ?(lookup_insert_ne _ esmf_log_name)
        by apply not_eq_sym, tmp_path_not_log;
      rewrite ?lookup_insert_eq; try done;
      rewrite !lookup_insert_ne by tmp_ne; by rewrite lookup_insert_eq.
Qed.

Lemma failed_generation_leaves_temp_files_witness :
  fs (create_weights Sample.E_fail Sample.atm_grid Sample.ocean_grid "patch"
        false true false Sample.st0).2 !! tmp_path (next_tmp Sample.st0)
  = Some (FScrip Sample.atm_grid
            (if true then zeros_like (mask_t Sample.atm_grid)
             else mask_t Sample.atm_grid)) ∧
  fs (create_weights Sample.E_fail Sample.atm_grid Sample.ocean_grid "patch"
        false true false Sample.st0).2 !! tmp_path (S (next_tmp Sample.st0))
  = Some (FScrip Sample.ocean_grid
            (if false then zeros_like (mask_t Sample.ocean_grid)
             else mask_t Sample.ocean_grid)) ∧
  is_Some (fs (create_weights Sample.E_fail Sample.atm_grid Sample.ocean_grid
                 "patch" false true false Sample.st0).2
           !! tmp_path (S (S (next_tmp Sample.st0)))) ∧
  next_tmp (create_weights Sample.E_fail Sample.atm_grid Sample.ocean_grid
              "patch" false true false Sample.st0).2
  = S (S (S (next_tmp Sample.st0))).
Proof.
  eapply (failed_generation_leaves_temp_files Sample.E_fail Sample.atm_grid
           Sample.ocean_grid "patch" false true false Sample.st0 _ _
           (launch_cmd Sample.E_fail "patch" false Sample.st0
              (prepared Sample.atm_grid Sample.ocean_grid true false Sample.st0))
           3%Z "aborted").
  - apply surjective_pairing.
  - vm_compute. reflexivity.
  - lia.
Defined.

(** ** A successful weight computation *)

Lemma free_temps_3 st :
  free_temps 3 st →
  fs st !! tmp_path (next_tmp st) = None ∧
  fs st !! tmp_path (S (next_tmp st)) = None ∧
  fs st !! tmp_path (S (S (next_tmp st))) = None.
Proof.
  unfold free_temps. cbn [seq]. rewrite !Forall_cons.
  replace (next_tmp st + 0)%nat with (next_tmp st) by lia.
  replace (next_tmp st + 1)%nat with (S (next_tmp st)) by lia.
  replace (next_tmp st + 2)%nat with (S (S (next_tmp st))) by lia.
  tauto.
Qed.

Lemma create_weights_Some_fs E src dst method iu us ud st w st' :
  free_temps 3 st →
  create_weights E src dst method iu us ud st = (Ok (Some w), st') →
  w = tmp_path (S (S (next_tmp st))) ∧
  ∃ f log,
    (f = FText "" ∨ ∃ ds, f = FNc ds) ∧
    fs st' = with_log log (<[w := f]> (fs st)) ∧
    next_tmp st' = S (S (S (next_tmp st))).
Proof.
  intros (H0 & H1 & H2)%free_temps_3 Hrun.
  rewrite create_weights_run in Hrun. cbv zeta in Hrun.
  set (st1 := prepared src dst us ud st) in *.
  set (cmd := launch_cmd E method iu st st1) in *.
  pose proof (fs_launched E method iu st st1) as Hfs2.
  cbv zeta in Hfs2. fold cmd in Hfs2.
  pose proof (fs_prepared src dst us ud st) as Hfs1. fold st1 in Hfs1.
  set (eff := esmf_run E cmd (fs st1)) in *.
  assert (next_tmp (launched E cmd st1) = S (S (S (next_tmp st)))) as Hn2 by done.
  set (s := launched E cmd st1) in *. clearbody s. clearbody st1.
  destruct (esmf_proc eff) as [rc out|]; [|done].
  destruct (decide (rc = 0%Z)) as [->|Hrc]; last first.
  { unfold mbind, M_bind in Hrun. by rewrite report_esmf_failure_run in Hrun. }
  apply bind_inv_Ok in Hrun as ([] & s' & Hr1 & Hrun).
  apply os_remove_inv in Hr1 as ->.
  apply bind_inv_Ok in Hrun as ([] & s' & Hr2 & Hrun).
  apply os_remove_inv in Hr2 as ->. injection Hrun as <- <-.
  split; [done|].
  exists (match esmf_weights eff with Some ds => FNc ds | None => FText "" end),
         (esmf_log eff).
  split_and!; [destruct (esmf_weights eff); eauto| |done].
  cbn [fs set_fs]. rewrite Hfs2, Hfs1. unfold with_log.
  destruct (esmf_weights eff), (esmf_log eff).
  all: repeat first
         [ rewrite (delete_insert_eq _ (tmp_path (next_tmp st)))
         | rewrite (delete_insert_ne _ (tmp_path (next_tmp st))) by tmp_ne ].
  all: rewrite (delete_id _ (tmp_path (next_tmp st))) by done.
  all: repeat first
         [ rewrite (delete_insert_eq _ (tmp_path (S (next_tmp st))))
         | rewrite (delete_insert_ne _ (tmp_path (S (next_tmp st)))) by tmp_ne ].
  all: rewrite (delete_id _ (tmp_path (S (next_tmp st)))) by done.
  all: by rewrite ?insert_insert_eq.
Qed.

(** X4: when create_weights returns a path, it is the third temp name it
    drew; that file holds what the generator wrote there (it is still the
    empty temp file if the generator wrote nothing), the two grid
    descriptions are removed again, and nothing else in the file system has
    changed but for the log the generator may have left. *)
Theorem successful_generation_leaves_weights E src dst method iu us ud st w st' :
  free_temps 3 st →
  create_weights E src dst method iu us ud st = (Ok (Some w), st') →
  w = tmp_path (next_tmp st + 2) ∧
  fs st' !! tmp_path (next_tmp st) = None ∧
  fs st' !! tmp_path (next_tmp st + 1) = None ∧
  ∃ f log,
    (f = FText "" ∨ ∃ ds, f = FNc ds) ∧
    fs st' = with_log log (<[w := f]> (fs st)).
Proof.
  intros Hfree Hrun.
  pose proof (free_temps_3 st Hfree) as (H0 & H1 & H2).
  destruct (create_weights_Some_fs _ _ _ _ _ _ _ _ _ _ Hfree Hrun)
    as (-> & f & log & Hf & Hfs & Hn).
  replace (next_tmp st + 2)%nat with (S (S (next_tmp st))) by lia.
  replace (next_tmp st + 1)%nat with (S (next_tmp st)) by lia.
  split_and!; [done| | |by eauto].
  - rewrite Hfs. unfold with_log.
    destruct log; rewrite ?(lookup_insert_ne _ esmf_log_name)
      by apply not_eq_sym, tmp_path_not_log;
    by rewrite lookup_insert_ne by tmp_ne.
  - rewrite Hfs. unfold with_log.
    destruct log; rewrite ?(lookup_insert_ne _ esmf_log_name)
      by apply not_eq_sym, tmp_path_not_log;
    by rewrite lookup_insert_ne by tmp_ne.
Qed.

Lemma successful_generation_leaves_weights_witness :
  tmp_path 2 = tmp_path (next_tmp Sample.st0 + 2) ∧
  fs (create_weights Sample.E_ok Sample.atm_grid Sample.ocean_grid "patch"
        false true false Sample.st0).2 !! tmp_path (next_tmp Sample.st0) = None ∧
  fs (create_weights Sample.E_ok Sample.atm_grid Sample.ocean_grid "patch"
        false true false Sample.st0).2 !! tmp_path (next_tmp Sample.st0 + 1) = None ∧
  ∃ f log,
    (f = FText "" ∨ ∃ ds, f = FNc ds) ∧
    fs (create_weights Sample.E_ok Sample.atm_grid Sample.ocean_grid "patch"
          false true false Sample.st0).2
    = with_log log (<[tmp_path 2 := f]> (fs Sample.st0)).
Proof.
  apply (successful_generation_leaves_weights Sample.E_ok Sample.atm_grid
           Sample.ocean_grid "patch" false true false Sample.st0).
  - unfold free_temps. cbn [seq].
    repeat (apply Forall_cons_2; [vm_compute; reflexivity|]). apply Forall_nil_2.
  - etransitivity; [apply surjective_pairing|].
    apply (f_equal (λ r, (r, _))). vm_compute. reflexivity.
Defined.

(** ** A successful combination, for the loops *)

Lemma output_not_log atm ocean method :
  atm = "CORE2" ∨ atm = "JRA55" → output_name atm ocean method ≠ esmf_log_name.
Proof. by intros [-> | ->]. Qed.

Lemma process_combination_Ok E d atm ocean method st st' :
  free_temps 4 st →
  process_combination E d atm ocean method st = (Ok tt, st') →
  (atm = "CORE2" ∨ atm = "JRA55") ∧
  ∃ ds log,
    fs st' = <[output_name atm ocean method := FNc ds]> (with_log log (fs st)) ∧
    next_tmp st' = (next_tmp st + 4)%nat.
Proof.
  intros Hfree Hrun.
  assert (free_temps 3 st) as Hfree3.
  { unfold free_temps in *. cbn [seq] in *.
    repeat (apply Forall_cons in Hfree as [? Hfree]).
    repeat (apply Forall_cons_2; [done|]). done. }
  apply temps_free_spec in Hfree as (H0 & H1 & H2 & H3).
  unfold process_combination in Hrun.
  apply bind_inv_Ok in Hrun as (src & s1 & Hsrc & Hrun).
  assert (atm = "CORE2" ∨ atm = "JRA55") as Hatm.
  { repeat case_decide; [by left|by right|done]. }
  assert (s1 = st) as ->.
  { eapply keeps_state_inv; [|exact Hsrc]. unfold Core2Grid, Jra55Grid. reads. }
  clear Hsrc.
  apply bind_inv_Ok in Hrun as (hgrid & s1 & Hh & Hrun).
  assert (s1 = st) as -> by (eapply keeps_state_inv; [|exact Hh]; reads).
  apply bind_inv_Ok in Hrun as (mask_file & s1 & Hm & Hrun).
  assert (s1 = st) as -> by (eapply keeps_state_inv; [|exact Hm]; reads).
  apply bind_inv_Ok in Hrun as (dst & s1 & Hdst & Hrun).
  assert (s1 = st) as ->.
  { eapply keeps_state_inv; [|exact Hdst]. unfold MomGrid_fromfile. reads. }
  clear Hh Hm Hdst.
  apply bind_inv_Ok in Hrun as (w & s2 & Hcw & Hrun).
  apply bind_inv_Ok in Hrun as (nw & s3 & Hcv & Hmv).
  destruct w as [w|]; [|by apply convert_None_not_Ok in Hcv].
  apply create_weights_Some_fs in Hcw as (-> & f & log & _ & Hfs2 & Hn2);
    [|done].
  apply convert_inv in Hcv as (w0 & ds & [= <-] & -> & Hfs3 & Hn3); last first.
  { rewrite Hn2, Hfs2. unfold with_log.
    destruct log; rewrite ?(lookup_insert_ne _ esmf_log_name)
      by apply not_eq_sym, tmp_path_not_log;
    by rewrite lookup_insert_ne by tmp_ne. }
  rewrite Hn2 in Hfs3, Hn3, Hmv.
  apply shutil_move_inv in Hmv as (f' & Hf & ->).
  rewrite Hfs3, lookup_insert_eq in Hf. injection Hf as <-.
  split; [done|]. exists ds, log. split; [|cbn; lia].
  cbn [fs set_fs]. rewrite Hfs3. f_equal. rewrite delete_insert_eq.
  rewrite Hfs2. unfold with_log. destruct log.
  all: repeat first
         [ rewrite (delete_insert_eq _ (tmp_path (S (S (next_tmp st)))))
         | rewrite (delete_insert_ne _ (tmp_path (S (S (next_tmp st))))) by tmp_ne ].
  all: rewrite (delete_id _ (tmp_path (S (S (next_tmp st))))) by done.
  all: repeat first
         [ rewrite (delete_insert_eq _ (tmp_path (S (S (S (next_tmp st))))))
         | rewrite (delete_insert_ne _ (tmp_path (S (S (S (next_tmp st)))))) by tmp_ne ].
  all: by rewrite (delete_id _ (tmp_path (S (S (S (next_tmp st)))))).
Qed.

(** ** The loops of main as one loop over the product *)

Lemma bind_ext {A B} (m : M A) (f g : A → M B) st :
  (∀ a s, f a s = g a s) → (m ≫= f) st = (m ≫= g) st.
Proof. intros H. unfold mbind, M_bind. by destruct (m st) as [[a|e] s]. Qed.

Lemma bind_ext_l {A B} (m m' : M A) (f : A → M B) st :
  m st = m' st → (m ≫= f) st = (m' ≫= f) st.
Proof. intros H. unfold mbind, M_bind. by rewrite H. Qed.

Lemma bind_assoc {A B C} (m : M A) (f : A → M B) (g : B → M C) st :
  ((m ≫= f) ≫= g) st = (m ≫= λ a, f a ≫= g) st.
Proof. unfold mbind, M_bind. by destruct (m st) as [[a|e] s]. Qed.

Lemma bind_ret_unit (m : M unit) st : (m ≫= λ _, mret tt) st = m st.
Proof. unfold mbind, M_bind. by destruct (m st) as [[[]|e] s]. Qed.

Lemma for_each_ext {A} (l : list A) (body body' : A → M unit) st :
  (∀ x s, body x s = body' x s) → for_each l body st = for_each l body' st.
Proof.
  intros H. revert st. induction l as [|x l IH]; intros st; [done|].
  simpl. unfold mbind, M_bind. rewrite H.
  by destruct (body' x st) as [[[]|e] s].
Qed.

Lemma for_each_app {A} (l1 l2 : list A) (body : A → M unit) st :
  for_each (l1 ++ l2) body st = (for_each l1 body ≫= λ _, for_each l2 body) st.
Proof.
  revert st. induction l1 as [|x l1 IH]; intros st; [done|].
  simpl. rewrite bind_assoc. by apply bind_ext.
Qed.

Lemma for_each_bind {A B} (l : list A) (g : A → list B) (body : B → M unit) st :
  for_each (l ≫= g) body st = for_each l (λ x, for_each (g x) body) st.
Proof.
  revert st. induction l as [|x l IH]; intros st; [done|].
  change ((x :: l) ≫= g) with (g x ++ (l ≫= g)).
  rewrite for_each_app. simpl. by apply bind_ext.
Qed.

Lemma for_each_combinations (atms oceans methods : list string)
    (body : string * string * string → M unit) st :
  for_each atms (λ a, for_each oceans (λ o, for_each methods (λ m, body (a, o, m)))) st
  = for_each (combinations atms oceans methods) body st.
Proof.
  unfold combinations. rewrite for_each_bind.
  apply for_each_ext. intros a s. rewrite for_each_bind.
  apply for_each_ext. intros o s'. rewrite for_each_bind.
  apply for_each_ext. intros m s''. simpl. by rewrite bind_ret_unit.
Qed.

Lemma main_loops_combinations E a atms oceans methods st :
  main_loops E a atms oceans methods st =
  (for_each (combinations atms oceans methods)
     (combination_body E (find_grid_defs (input_dir a) (jra55_input a)));;
   mret 0%Z) st.
Proof.
  unfold main_loops. cbv zeta. apply bind_ext_l.
  apply (for_each_combinations atms oceans methods (combination_body E _)).
Qed.

Lemma main_selected E a st :
  main E a st =
  if valid_filters a then
    (for_each (selected_combinations a)
       (combination_body E (find_grid_defs (input_dir a) (jra55_input a)));;
     mret 0%Z) st
  else bad_grid E st.
Proof.
  unfold main, main_ocean, main_method, valid_filters, selected_combinations.
  destruct (atm a) as [x|], (ocean a) as [y|], (method a) as [z|]; cbn [selected];
    repeat case_bool_decide; cbn [andb];
    by rewrite ?main_loops_combinations.
Qed.

Lemma for_each_Raise_inv {A} (l : list A) (body : A → M unit) st e st' :
  for_each l body st = (Raise e, st') →
  ∃ l1 x l2 s1, l = l1 ++ x :: l2 ∧
    for_each l1 body st = (Ok tt, s1) ∧ body x s1 = (Raise e, st').
Proof.
  revert st. induction l as [|x l IH]; intros st H; [done|].
  simpl in H. unfold mbind, M_bind in H.
  destruct (body x st) as [[[]|e0] s] eqn:Hx.
  - destruct (IH _ H) as (l1 & y & l2 & s1 & -> & Hl1 & Hy).
    exists (x :: l1), y, l2, s1. split_and!; [done| |done].
    simpl. by rewrite (bind_Ok _ _ _ _ _ Hx).
  - injection H as <- <-. by exists [], x, l, st.
Qed.

(** X5: main catches nothing.  When it ends in an exception, that exception
    was raised by one combination; the combinations before it, in the order
    of the product with the atmosphere grid outermost, had all run to their
    end, and the state is the one in which the exception was raised: no
    later combination was started. *)
Theorem main_stops_at_first_failure E a st e st' :
  main E a st = (Raise e, st') →
  ∃ before c after s1,
    selected_combinations a = before ++ c :: after ∧
    for_each before
      (combination_body E (find_grid_defs (input_dir a) (jra55_input a))) st
    = (Ok tt, s1) ∧
    process_combination E (find_grid_defs (input_dir a) (jra55_input a))
      c.1.1 c.1.2 c.2 s1
    = (Raise e, st').
Proof.
  rewrite main_selected. destruct (valid_filters a); [|by rewrite bad_grid_run].
  intros H. unfold mbind at 1, M_bind at 1 in H.
  destruct (for_each _ _ st) as [[[]|e0] s] eqn:Hloop; [done|].
  injection H as <- <-. by apply for_each_Raise_inv in Hloop.
Qed.

Lemma main_stops_at_first_failure_witness :
  ∃ before c after s1,
    selected_combinations (Sample.cli None None None) = before ++ c :: after ∧
    for_each before
      (combination_body Sample.E_ok
         (find_grid_defs (input_dir (Sample.cli None None None))
            (jra55_input (Sample.cli None None None)))) Sample.st0
    = (Ok tt, s1) ∧
    process_combination Sample.E_ok
      (find_grid_defs (input_dir (Sample.cli None None None))
         (jra55_input (Sample.cli None None None)))
      c.1.1 c.1.2 c.2 s1
    = (Raise (NameError "Jra552RiverGrid"),
       (main Sample.E_ok (Sample.cli None None None) Sample.st0).2).
Proof.
  apply (main_stops_at_first_failure Sample.E_ok (Sample.cli None None None)
           Sample.st0).
  etransitivity; [apply surjective_pairing|].
  apply (f_equal (λ r, (r, _))). vm_compute. reflexivity.
Defined.

(** ** A whole run *)

Lemma free_temps_unused n st : temps_unused st → free_temps n st.
Proof.
  intros H. apply Forall_forall. intros k _. apply H. lia.
Qed.

Lemma for_each_combination_Ok E d l st st' :
  temps_unused st →
  for_each l (combination_body E d) st = (Ok tt, st') →
  temps_unused st' ∧
  Forall (λ c, c.1.1 = "CORE2" ∨ c.1.1 = "JRA55") l ∧
  (∀ c, c ∈ l → ∃ ds, fs st' !! combination_output c = Some (FNc ds)) ∧
  (∀ k, fs st' !! tmp_path k = fs st !! tmp_path k) ∧
  (∀ p, p ∉ combination_output <$> l → p ≠ esmf_log_name →
        fs st' !! p = fs st !! p) ∧
  next_tmp st' = (next_tmp st + 4 * length l)%nat.
Proof.
  revert st. induction l as [|c l IH]; intros st Hun Hrun.
  { injection Hrun as <-. split_and!; try done.
    all: try (intros c Hc; by apply elem_of_nil in Hc).
    all: cbn; lia. }
  simpl in Hrun. apply bind_inv_Ok in Hrun as ([] & s1 & Hc & Hl).
  unfold combination_body in Hc.
  apply process_combination_Ok in Hc as (Hatm & ds & log & Hfs1 & Hn1);
    [|by apply free_temps_unused].
  assert (∀ p, p ≠ combination_output c → p ≠ esmf_log_name →
               fs s1 !! p = fs st !! p) as Hother.
  { intros p Hp Hlog. rewrite Hfs1, lookup_insert_ne by done.
    unfold with_log. destruct log; [by rewrite lookup_insert_ne|done]. }
  assert (∀ k, fs s1 !! tmp_path k = fs st !! tmp_path k) as Htmp.
  { intros k. apply Hother; [by apply tmp_path_not_output|apply tmp_path_not_log]. }
  apply IH in Hl as (Hun' & Hatms & Hout & Htmp' & Hother' & Hn').
  2:{ intros k Hk. rewrite Htmp. apply Hun. lia. }
  split_and!.
  - done.
  - by apply Forall_cons_2.
  - intros c' [->|Hc']%elem_of_cons; [|by apply Hout].
    destruct (decide (combination_output c ∈ combination_output <$> l))
      as [Hin|Hin].
    + apply list_elem_of_fmap in Hin as (c' & -> & Hc'). by apply Hout.
    + rewrite Hother'; [|done|by apply output_not_log].
      exists ds. by rewrite Hfs1, lookup_insert_eq.
  - intros k. by rewrite Htmp'.
  - intros p Hp Hlog. rewrite fmap_cons, not_elem_of_cons in Hp.
    destruct Hp as [Hp1 Hp2]. rewrite Hother' by done. by apply Hother.
  - rewrite Hn', Hn1. cbn [length]. lia.
Qed.

Lemma main_Ok_0 E a st st' :
  main E a st = (Ok 0%Z, st') →
  for_each (selected_combinations a)
    (combination_body E (find_grid_defs (input_dir a) (jra55_input a))) st
  = (Ok tt, st').
Proof.
  rewrite main_selected. destruct (valid_filters a); [|by rewrite bad_grid_run].
  intros H. apply bind_inv_Ok in H as ([] & s & Hloop & [= <-]). done.
Qed.

(** X6: a run of main that returns 0 has left, for every selected
    combination, a NetCDF file under the combination's output name; every
    temp name holds what it held before the run, so none of the four temp
    files of any combination is left; every path that is neither an output
    name nor the generator's log holds what it held before; and the run has
    drawn four temp names for each combination. *)
Theorem successful_run_outputs E a st st' :
  temps_unused st →
  main E a st = (Ok 0%Z, st') →
  (∀ c, c ∈ selected_combinations a →
        ∃ ds, fs st' !! combination_output c = Some (FNc ds)) ∧
  (∀ k, fs st' !! tmp_path k = fs st !! tmp_path k) ∧
  (∀ p, p ∉ combination_output <$> selected_combinations a →
        p ≠ esmf_log_name → fs st' !! p = fs st !! p) ∧
  next_tmp st' = (next_tmp st + 4 * length (selected_combinations a))%nat.
Proof.
  intros Hun Hrun. apply main_Ok_0 in Hrun.
  by apply for_each_combination_Ok in Hrun as (_ & _ & ? & ? & ? & ?).
Qed.

Lemma temps_unused_st0 : temps_unused Sample.st0.
Proof.
  intros k _. apply not_elem_of_list_to_map_1. cbn [fmap list_fmap fst].
  rewrite !not_elem_of_cons. split_and!; try done. apply not_elem_of_nil.
Qed.

Lemma successful_run_outputs_witness :
  (∀ c, c ∈ selected_combinations (Sample.cli (Some "CORE2") None None) →
        ∃ ds, fs (main Sample.E_ok (Sample.cli (Some "CORE2") None None)
                    Sample.st0).2 !! combination_output c = Some (FNc ds)) ∧
  (∀ k, fs (main Sample.E_ok (Sample.cli (Some "CORE2") None None)
              Sample.st0).2 !! tmp_path k = fs Sample.st0 !! tmp_path k) ∧
  (∀ p, p ∉ combination_output <$>
              selected_combinations (Sample.cli (Some "CORE2") None None) →
        p ≠ esmf_log_name →
        fs (main Sample.E_ok (Sample.cli (Some "CORE2") None None)
              Sample.st0).2 !! p = fs Sample.st0 !! p) ∧
  next_tmp (main Sample.E_ok (Sample.cli (Some "CORE2") None None) Sample.st0).2
  = (next_tmp Sample.st0
     + 4 * length (selected_combinations (Sample.cli (Some "CORE2") None None)))%nat.
Proof.
  apply (successful_run_outputs Sample.E_ok (Sample.cli (Some "CORE2") None None)
           Sample.st0).
  - apply temps_unused_st0.
  - etransitivity; [apply surjective_pairing|].
    apply (f_equal (λ r, (r, _))). vm_compute. reflexivity.
Defined.

Lemma elem_of_combinations atms oceans methods x o m :
  (x, o, m) ∈ combinations atms oceans methods ↔
  x ∈ atms ∧ o ∈ oceans ∧ m ∈ methods.
Proof.
  unfold combinations. split.
  - intros (x' & H & Hx)%list_elem_of_bind.
    apply list_elem_of_bind in H as (o' & H & Ho).
    apply list_elem_of_bind in H as (m' & H & Hm).
    apply list_elem_of_singleton in H as [= -> -> ->]. done.
  - intros (Hx & Ho & Hm).
    apply list_elem_of_bind. exists x. split; [|done].
    apply list_elem_of_bind. exists o. split; [|done].
    apply list_elem_of_bind. exists m. split; [|done].
    by apply list_elem_of_singleton.
Qed.

Lemma for_each_Ok_atm E d l st st' :
  for_each l (combination_body E d) st = (Ok tt, st') →
  Forall (λ c, c.1.1 = "CORE2" ∨ c.1.1 = "JRA55") l.
Proof.
  revert st. induction l as [|c l IH]; intros st Hrun; [done|].
  simpl in Hrun. apply bind_inv_Ok in Hrun as ([] & s1 & Hc & Hl).
  apply Forall_cons_2; [|by eapply IH].
  unfold combination_body, process_combination in Hc.
  apply bind_inv_Ok in Hc as (src & s2 & Hsrc & _).
  repeat case_decide; [by left|by right|done].
Qed.

(** X7: main returns 0 only when --atm names CORE2 or JRA55: with the
    filter omitted, or set to JRA55_runoff or to any other value, the run
    never returns 0 (the third grid class is called by a name that is not
    bound, and an unknown value is rejected). *)
Theorem main_returns_0_only_for_two_grids E a st st' :
  main E a st = (Ok 0%Z, st') →
  atm a = Some "CORE2" ∨ atm a = Some "JRA55".
Proof.
  intros Hrun. apply main_Ok_0, for_each_Ok_atm in Hrun.
  rewrite Forall_forall in Hrun.
  assert (∃ o m, o ∈ selected (ocean a) ocean_options ∧
                 m ∈ selected (method a) method_options) as (o & m & Ho & Hm).
  { destruct (ocean a), (method a); cbn; eexists _, _; split; by left. }
  destruct (atm a) as [x|] eqn:Ha.
  - assert ((x, o, m) ∈ selected_combinations a) as Hin.
    { unfold selected_combinations. rewrite Ha. apply elem_of_combinations.
      split_and!; [by left|done|done]. }
    apply Hrun in Hin as [H|H]; cbn in H; subst; [by left|by right].
  - assert (("JRA55_runoff", o, m) ∈ selected_combinations a) as Hin.
    { unfold selected_combinations. rewrite Ha. apply elem_of_combinations.
      split_and!; [by_evaluation|done|done]. }
    by apply Hrun in Hin as [H|H].
Qed.

Lemma main_returns_0_only_for_two_grids_witness :
  atm (Sample.cli (Some "JRA55") (Some "MOM01") (Some "patch")) = Some "CORE2" ∨
  atm (Sample.cli (Some "JRA55") (Some "MOM01") (Some "patch")) = Some "JRA55".
Proof.
  apply (main_returns_0_only_for_two_grids Sample.E_ok
           (Sample.cli (Some "JRA55") (Some "MOM01") (Some "patch")) Sample.st0
           (main Sample.E_ok (Sample.cli (Some "JRA55") (Some "MOM01") (Some "patch"))
              Sample.st0).2).
  etransitivity; [apply surjective_pairing|].
  apply (f_equal (λ r, (r, _))). vm_compute. reflexivity.
Defined.

(** ** What a computation leaves alone *)

Lemma bind_inv {A B} (m : M A) (f : A → M B) st r st' :
  (m ≫= f) st = (r, st') →
  (∃ e, m st = (Raise e, st') ∧ r = Raise e) ∨
  (∃ a s1, m st = (Ok a, s1) ∧ f a s1 = (r, st')).
Proof.
  unfold mbind, M_bind. destruct (m st) as [[a|e] s1]; [by eauto|].
  intros [= <- <-]. by eauto.
Qed.

Section Preserves.
Context {B : Type} (proj : state → B).

Lemma preserves_ret {A} (a : A) : preserves proj (mret a).
Proof. done. Qed.

Lemma preserves_raise {A} e : preserves proj (raise (A := A) e).
Proof. done. Qed.

Lemma preserves_lift {A} (r : result A) : preserves proj (lift r).
Proof. done. Qed.

Lemma preserves_keeps_state {A} (m : M A) : keeps_state m → preserves proj m.
Proof. intros H st. by rewrite H. Qed.

Lemma preserves_bind {A C} (m : M A) (f : A → M C) :
  preserves proj m → (∀ a, preserves proj (f a)) → preserves proj (m ≫= f).
Proof.
  intros Hm Hf st. unfold mbind, M_bind. specialize (Hm st).
  destruct (m st) as [[a|e] st1]; simpl in *; [|done].
  by rewrite Hf.
Qed.

Lemma preserves_nc_Dataset p : preserves proj (nc_Dataset p).
Proof. intros st. unfold nc_Dataset. by repeat case_match. Qed.

Lemma preserves_inv {A} (m : M A) st r st' :
  preserves proj m → m st = (r, st') → proj st' = proj st.
Proof. intros H Hrun. specialize (H st). by rewrite Hrun in H. Qed.

End Preserves.

Lemma fs_off_lookup q st st' p :
  fs_off q st' = fs_off q st → p ≠ q → fs st' !! p = fs st !! p.
Proof.
  unfold fs_off. intros H Hp.
  rewrite <- (lookup_delete_ne (fs st') q p), <- (lookup_delete_ne (fs st) q p)
    by done.
  by rewrite H.
Qed.

Lemma preserves_fs_off_nc_sync q ds : preserves (fs_off q) (nc_sync q ds).
Proof. intros st. unfold fs_off. cbn. apply delete_insert_eq. Qed.

Lemma preserves_fs_off_fix_remap_matrix w nw :
  preserves (fs_off nw) (fix_remap_matrix w nw).
Proof.
  unfold fix_remap_matrix.
  repeat first
    [ apply preserves_bind; [|intros ?]
    | apply preserves_nc_Dataset
    | apply preserves_lift
    | apply preserves_fs_off_nc_sync ].
Qed.

Lemma preserves_fs_off_rename_step E w nw :
  preserves (fs_off nw) (rename_step E w nw).
Proof.
  intros st. rewrite rename_step_run. cbv zeta. rewrite tail_ncrename_cmd.
  destruct (ncrename_cases (format_path w) nw (fs st))
    as [(rc0 & out0 & Hrc0 & ->)|(ds & ds' & _ & _ & _ & ->)]; cbn [fst snd].
  - by rewrite decide_False by done.
  - rewrite decide_True by done. unfold fs_off. cbn. apply delete_insert_eq.
Qed.

Lemma fs_off_renaming_from st :
  fs_off (tmp_path (next_tmp st)) (renaming_from st)
  = fs_off (tmp_path (next_tmp st)) st.
Proof.
  unfold fs_off, renaming_from. cbn.
  by rewrite delete_delete_eq, delete_insert_eq.
Qed.

Lemma os_remove_Raise p st e st' : os_remove p st = (Raise e, st') → st' = st.
Proof. unfold os_remove. destruct (fs st !! p); by intros [= <-]. Qed.


(** ** The three ways a weight computation can end *)

Lemma fs_launched_scrip E src dst method iu us ud st :
  let st1 := prepared src dst us ud st in
  let s := launched E (launch_cmd E method iu st st1) st1 in
  fs s !! tmp_path (next_tmp st) = Some (FScrip src (written_mask src us)) ∧
  fs s !! tmp_path (S (next_tmp st)) = Some (FScrip dst (written_mask dst ud)).
Proof.
  intros st1 s. unfold s. rewrite fs_launched. cbv zeta. unfold st1.
  rewrite fs_prepared.
  split; destruct (esmf_log _), (esmf_weights _);
    rewrite ?(lookup_insert_ne _ esmf_log_name)
      by apply not_eq_sym, tmp_path_not_log;
    rewrite ?lookup_insert_ne by tmp_ne; by rewrite lookup_insert_eq.
Qed.

Lemma create_weights_result E src dst method iu us ud st :
  let st1 := prepared src dst us ud st in
  let cmd := launch_cmd E method iu st st1 in
  (create_weights E src dst method iu us ud st).1 =
  match esmf_proc (esmf_run E cmd (fs st1)) with
  | Exited rc _ =>
      if decide (rc = 0%Z) then Ok (Some (tmp_path (S (S (next_tmp st)))))
      else Ok None
  | SpawnFailed => Raise (OSError "mpirun")
  end.
Proof.
  intros st1 cmd. rewrite create_weights_run. fold st1 cmd.
  destruct (fs_launched_scrip E src dst method iu us ud st) as [H0 H1].
  fold st1 cmd in H0, H1.
  set (s := launched E cmd st1) in *. clearbody s.
  destruct (esmf_proc _) as [rc out|]; [|done].
  destruct (decide (rc = 0%Z)).
  - unfold mbind, M_bind, os_remove. rewrite H0. cbn [fs set_fs].
    rewrite lookup_delete_ne by tmp_ne. by rewrite H1.
  - unfold mbind, M_bind. by rewrite report_esmf_failure_run.
Qed.

(** X9: how create_weights ends depends on the generator's run alone.  It
    returns the path of the third temp file when the command exits with
    status 0, returns None when it exits with another status, and lets the
    OSError through when the command cannot be started; removing the two
    grid descriptions never fails, whatever the generator wrote. *)
Theorem create_weights_outcome E src dst method iu us ud st :
  ∃ cmd o,
    last (trace (create_weights E src dst method iu us ud st).2)
    = Some (EvExec cmd o) ∧
    (create_weights E src dst method iu us ud st).1 =
    match o with
    | Exited rc _ =>
        if decide (rc = 0%Z) then Ok (Some (tmp_path (next_tmp st + 2)))
        else Ok None
    | SpawnFailed => Raise (OSError "mpirun")
    end.
Proof.
  eexists _, _. rewrite create_weights_trace, create_weights_result.
  cbv zeta. rewrite last_app. cbn [last]. split; [done|].
  by replace (next_tmp st + 2)%nat with (S (S (next_tmp st))) by lia.
Qed.

(** ** A failed generator inside a combination *)

Lemma trace_convert E w st :
  ∃ o, trace (convert_to_scrip_output E w st).2 =
       trace st ++ [EvExec (ncrename_cmd w (tmp_path (next_tmp st))) o].
Proof.
  rewrite convert_run.
  set (nw := tmp_path (next_tmp st)). set (s0 := renaming_from st).
  assert (trace s0 = trace st) as <- by done. clearbody s0.
  pose proof (rename_step_run E w nw s0) as Hstep. cbv zeta in Hstep.
  exists (ncrename (tail (ncrename_cmd w nw)) (fs s0)).1.
  unfold mbind at 1, M_bind at 1. rewrite Hstep.
  destruct (ncrename _ _).1 as [rc out|]; [|done].
  destruct (decide (rc = 0%Z)).
  - by rewrite (keeps_trace_after_rename w nw).
  - by rewrite (keeps_trace_after_rename w nw).
Qed.

Lemma convert_Raise_fs_off E w st e st' :
  convert_to_scrip_output E w st = (Raise e, st') →
  fs_off (tmp_path (next_tmp st)) st' = fs_off (tmp_path (next_tmp st)) st.
Proof.
  intros Hrun. rewrite <- fs_off_renaming_from.
  rewrite convert_run in Hrun.
  set (nw := tmp_path (next_tmp st)) in *. set (s0 := renaming_from st) in *.
  clearbody s0.
  apply bind_inv in Hrun as [(e1 & H1 & _)|([] & s1 & H1 & Hrun)].
  { by eapply preserves_inv; [apply (preserves_fs_off_rename_step E w)|]. }
  apply (preserves_inv _ _ _ _ _ (preserves_fs_off_rename_step E w nw)) in H1.
  rewrite <- H1.
  apply bind_inv in Hrun as [(e2 & H2 & _)|([] & s2 & H2 & Hrun)].
  { by eapply preserves_inv; [apply (preserves_fs_off_fix_remap_matrix w)|]. }
  apply (preserves_inv _ _ _ _ _ (preserves_fs_off_fix_remap_matrix w nw)) in H2.
  rewrite <- H2.
  apply bind_inv in Hrun as [(e3 & H3 & _)|([] & s3 & _ & [=])].
  destruct w as [w|].
  - by apply os_remove_Raise in H3 as ->.
  - by injection H3 as _ ->.
Qed.

Lemma next_tmp_create_weights E src dst method iu us ud st :
  next_tmp (create_weights E src dst method iu us ud st).2
  = S (S (S (next_tmp st))).
Proof.
  rewrite create_weights_run. cbv zeta.
  set (st1 := prepared src dst us ud st).
  set (cmd := launch_cmd E method iu st st1).
  assert (next_tmp (launched E cmd st1) = S (S (S (next_tmp st)))) as Hl by done.
  set (s := launched E cmd st1) in *. clearbody s.
  destruct (esmf_proc (esmf_run E cmd (fs st1))) as [rc out|]; [|done].
  destruct (decide (rc = 0%Z)).
  - unfold mbind, M_bind, os_remove. cbn [fs set_fs].
    destruct (fs s !! _); [|done]. cbn [fs set_fs].
    by destruct (delete _ (fs s) !! _).
  - unfold mbind, M_bind. by rewrite report_esmf_failure_run.
Qed.

Lemma fs_create_weights_other E src dst method iu us ud st p :
  (∀ k, p ≠ tmp_path k) → p ≠ esmf_log_name →
  fs (create_weights E src dst method iu us ud st).2 !! p = fs st !! p.
Proof.
  intros Htmp Hlog. rewrite create_weights_run. cbv zeta.
  set (st1 := prepared src dst us ud st).
  set (cmd := launch_cmd E method iu st st1).
  assert (fs (launched E cmd st1) !! p = fs st !! p) as Hl.
  { unfold cmd. rewrite fs_launched. cbv zeta. unfold st1. rewrite fs_prepared.
    destruct (esmf_log _), (esmf_weights _);
      rewrite ?(lookup_insert_ne _ esmf_log_name) by done;
      by rewrite !lookup_insert_ne by (apply not_eq_sym, Htmp). }
  set (s := launched E cmd st1) in *. clearbody s.
  destruct (esmf_proc (esmf_run E cmd (fs st1))) as [rc out|]; [|done].
  destruct (decide (rc = 0%Z)).
  - unfold mbind, M_bind, os_remove. cbn [fs set_fs].
    destruct (fs s !! tmp_path (next_tmp st)) eqn:H0; [|exact Hl].
    cbn [fs set_fs].
    destruct (delete _ (fs s) !! tmp_path (S (next_tmp st))) eqn:H1;
      unfold mret, M_ret; cbn [fs set_fs snd].
    + by rewrite !lookup_delete_ne by (apply not_eq_sym, Htmp).
    + by rewrite !lookup_delete_ne by (apply not_eq_sym, Htmp).
  - unfold mbind, M_bind. rewrite report_esmf_failure_run. exact Hl.
Qed.

(** The run of a combination: its grids are read without a change of the
    state, and then the weights are computed, converted and moved. *)
Lemma process_combination_inv E d atm ocean method st r st' :
  process_combination E d atm ocean method st = (r, st') →
  (st' = st ∧ ∃ e, r = Raise e) ∨
  ((atm = "CORE2" ∨ atm = "JRA55") ∧
   ∃ src dst,
     (weights ← create_weights E src dst method default_ignore_unmapped
                  default_unmasked_src default_unmasked_dest;
      weights ← convert_to_scrip_output E weights;
      shutil_move weights (output_name atm ocean method)) st = (r, st')).
Proof.
  unfold process_combination. intros Hrun.
  apply bind_inv in Hrun as [(e & H & ->)|(src & s1 & Hsrc & Hrun)].
  { left. split; [|by eauto]. eapply keeps_state_inv; [|exact H].
    unfold Core2Grid, Jra55Grid. reads. }
  assert (atm = "CORE2" ∨ atm = "JRA55") as Hatm.
  { repeat case_decide; [by left|by right|done]. }
  assert (s1 = st) as ->.
  { eapply keeps_state_inv; [|exact Hsrc]. unfold Core2Grid, Jra55Grid. reads. }
  apply bind_inv in Hrun as [(e & H & ->)|(hgrid & s1 & Hh & Hrun)].
  { left. split; [|by eauto]. eapply keeps_state_inv; [|exact H]. reads. }
  assert (s1 = st) as -> by (eapply keeps_state_inv; [|exact Hh]; reads).
  apply bind_inv in Hrun as [(e & H & ->)|(mask_file & s1 & Hm & Hrun)].
  { left. split; [|by eauto]. eapply keeps_state_inv; [|exact H]. reads. }
  assert (s1 = st) as -> by (eapply keeps_state_inv; [|exact Hm]; reads).
  apply bind_inv in Hrun as [(e & H & ->)|(dst & s1 & Hdst & Hrun)].
  { left. split; [|by eauto]. eapply keeps_state_inv; [|exact H].
    unfold MomGrid_fromfile. reads. }
  assert (s1 = st) as ->.
  { eapply keeps_state_inv; [|exact Hdst]. unfold MomGrid_fromfile. reads. }
  right. split; [done|]. by exists src, dst.
Qed.

(** X10: main does not look at what create_weights returns.  When the
    generator of a combination exits with a non-zero status, the converter
    is called on None all the same: ncrename is run on a file named None,
    and the combination ends in an exception, with no output file written
    under the combination's name. *)
Theorem failed_generation_is_not_noticed
    E d atm ocean method st r st' cmd rc out :
  process_combination E d atm ocean method st = (r, st') →
  EvExec cmd (Exited rc out) ∈ drop (length (trace st)) (trace st') →
  head cmd = Some "mpirun" →
  rc ≠ 0%Z →
  (∃ e, r = Raise e) ∧
  (∃ o, last (trace st') =
        Some (EvExec ("ncrename" :: ncrename_options ++
                        ["None"; tmp_path (next_tmp st + 3)]) o)) ∧
  fs st' !! output_name atm ocean method = fs st !! output_name atm ocean method.
Proof.
  intros Hrun Hin Hhead Hrc.
  apply process_combination_inv in Hrun as [[-> _]|(Hatm & src & dst & Hrun)].
  { rewrite drop_all in Hin. by apply elem_of_nil in Hin. }
  set (cw := create_weights E src dst method default_ignore_unmapped
               default_unmasked_src default_unmasked_dest) in *.
  pose proof (create_weights_trace E src dst method default_ignore_unmapped
                default_unmasked_src default_unmasked_dest st) as Htr.
  pose proof (create_weights_result E src dst method default_ignore_unmapped
                default_unmasked_src default_unmasked_dest st) as Hres.
  pose proof (next_tmp_create_weights E src dst method default_ignore_unmapped
                default_unmasked_src default_unmasked_dest st) as Hn.
  pose proof (fs_create_weights_other E src dst method default_ignore_unmapped
                default_unmasked_src default_unmasked_dest st
                (output_name atm ocean method)) as Hfs.
  cbv zeta in Htr, Hres. fold cw in Htr, Hres, Hn, Hfs.
  set (cmd0 := launch_cmd _ _ _ _ _) in Htr, Hres.
  set (o0 := esmf_proc _) in Htr, Hres. clearbody o0 cmd0.
  destruct (cw st) as [w s5] eqn:Hcw. cbn [fst snd] in Htr, Hres, Hn, Hfs.
  assert (fs s5 !! output_name atm ocean method
          = fs st !! output_name atm ocean method) as Hout.
  { apply Hfs; [|by apply output_not_log].
    intros k. by apply not_eq_sym, tmp_path_not_output. }
  clear Hfs.
  apply bind_inv in Hrun as [(e & H & ->)|(w0 & s5' & H & Hrun)];
    rewrite Hcw in H; injection H as -> <-.
  { (* the generator could not be started *)
    rewrite Htr, drop_app_length in Hin.
    destruct o0 as [rc0 out0|].
    - by destruct (decide (rc0 = 0%Z)).
    - apply elem_of_cons in Hin as [[=]|Hin].
      apply elem_of_cons in Hin as [[=]|Hin].
      apply elem_of_cons in Hin as [[=]|Hin]. by apply elem_of_nil in Hin. }
  destruct (trace_convert E w0 s5) as (o & Htc).
  assert (trace st' = trace (convert_to_scrip_output E w0 s5).2 ∧
          w0 = None ∧
          fs_off (tmp_path (next_tmp s5)) st' = fs_off (tmp_path (next_tmp s5)) s5 ∧
          ∃ e, r = Raise e) as (Htr' & -> & Hoff & He).
  { assert (w0 = None) as ->.
    { apply bind_inv in Hrun as [(e & H & ->)|(nw & s6 & H & Hrun)].
      - rewrite H in Htc. cbn [snd] in Htc.
        rewrite Htc, Htr, <- app_assoc, drop_app_length in Hin.
        cbn [app] in Hin.
        apply elem_of_cons in Hin as [[=]|Hin].
        apply elem_of_cons in Hin as [[=]|Hin].
        apply elem_of_cons in Hin as [[= -> <-]|Hin].
        + rewrite decide_False in Hres by done. congruence.
        + apply elem_of_cons in Hin as [[= -> _]|Hin]; [done|].
          by apply elem_of_nil in Hin.
      - rewrite H in Htc. cbn [snd] in Htc.
        pose proof (keeps_trace_shutil_move nw (output_name atm ocean method) s6)
          as Hmv.
        destruct (shutil_move _ _ s6) as [r' s7] eqn:Hs7.
        injection Hrun as -> ->. cbn [snd] in Hmv.
        rewrite Hmv, Htc, Htr, <- app_assoc, drop_app_length in Hin.
        cbn [app] in Hin.
        apply elem_of_cons in Hin as [[=]|Hin].
        apply elem_of_cons in Hin as [[=]|Hin].
        apply elem_of_cons in Hin as [[= -> <-]|Hin].
        + rewrite decide_False in Hres by done. congruence.
        + apply elem_of_cons in Hin as [[= -> _]|Hin]; [done|].
          by apply elem_of_nil in Hin. }
    apply bind_inv in Hrun as [(e & H & ->)|(nw & s6 & H & Hrun)].
    - rewrite H. split_and!; [done|done|by eapply convert_Raise_fs_off|by eauto].
    - by apply convert_None_not_Ok in H. }
  split_and!.
  - done.
  - exists o. rewrite Htr', Htc, last_app. cbn [last].
    rewrite Hn. by replace (next_tmp st + 3)%nat with (S (S (S (next_tmp st)))) by lia.
  - rewrite <- Hout. apply fs_off_lookup with (q := tmp_path (next_tmp s5)); [done|].
    by apply not_eq_sym, tmp_path_not_output.
Qed.

Lemma failed_generation_is_not_noticed_witness :
  (∃ e, (process_combination Sample.E_fail (find_grid_defs "/in" "/jra")
           "CORE2" "MOM1" "patch" Sample.st0).1 = Raise e) ∧
  (∃ o, last (trace (process_combination Sample.E_fail
                       (find_grid_defs "/in" "/jra") "CORE2" "MOM1" "patch"
                       Sample.st0).2) =
        Some (EvExec ("ncrename" :: ncrename_options ++
                        ["None"; tmp_path (next_tmp Sample.st0 + 3)]) o)) ∧
  fs (process_combination Sample.E_fail (find_grid_defs "/in" "/jra")
        "CORE2" "MOM1" "patch" Sample.st0).2 !! output_name "CORE2" "MOM1" "patch"
  = fs Sample.st0 !! output_name "CORE2" "MOM1" "patch".
Proof.
  eapply (failed_generation_is_not_noticed Sample.E_fail
            (find_grid_defs "/in" "/jra") "CORE2" "MOM1" "patch" Sample.st0 _ _
            (launch_cmd Sample.E_fail "patch" false Sample.st0
               (prepared Sample.atm_grid Sample.ocean_grid true false Sample.st0))
            3%Z "aborted").
  - apply surjective_pairing.
  - apply list_elem_of_lookup_2 with 2%nat. vm_compute. reflexivity.
  - vm_compute. reflexivity.
  - lia.
Defined.

(** X8: a conversion that ends in an exception has changed no file but its
    own temp file: the original weight file is removed only after the
    with-block has gone through, and a failed rename or a failed open leaves
    it, and every other path, as it was. *)
Theorem failed_conversion_keeps_files E w st e st' p :
  convert_to_scrip_output E w st = (Raise e, st') →
  p ≠ tmp_path (next_tmp st) →
  fs st' !! p = fs st !! p.
Proof.
  intros Hrun Hp. apply fs_off_lookup with (q := tmp_path (next_tmp st)); [|done].
  by eapply convert_Raise_fs_off.
Qed.

Lemma failed_conversion_keeps_files_witness :
  fs (convert_to_scrip_output Sample.E_ok (Some "/in/core_nyf/t_10.0001.nc")
        Sample.st0).2 !! "/in/core_nyf/t_10.0001.nc"
  = fs Sample.st0 !! "/in/core_nyf/t_10.0001.nc".
Proof.
  apply (failed_conversion_keeps_files Sample.E_ok
           (Some "/in/core_nyf/t_10.0001.nc") Sample.st0
           (OSError "/in/core_nyf/t_10.0001.nc")).
  - etransitivity; [apply surjective_pairing|].
    apply (f_equal (λ r, (r, _))). vm_compute. reflexivity.
  - vm_compute. congruence.
Defined.

(** ** What a successful run prints *)

Lemma preserves_printed_os_remove p : preserves printed (os_remove p).
Proof. intros st. unfold os_remove. by case_match. Qed.

Lemma preserves_printed_nc_sync p ds : preserves printed (nc_sync p ds).
Proof. done. Qed.

Lemma preserves_printed_shutil_move a b : preserves printed (shutil_move a b).
Proof. intros st. unfold shutil_move. by case_match. Qed.

Lemma preserves_printed_after_rename w nw :
  preserves printed
    (fix_remap_matrix w nw;;
     match w with
     | Some w => os_remove w
     | None => raise TypeError
     end;;
     mret nw).
Proof.
  unfold fix_remap_matrix.
  repeat first
    [ apply preserves_bind; [|intros ?]
    | apply preserves_nc_Dataset
    | apply preserves_lift
    | apply preserves_printed_nc_sync
    | apply preserves_ret
    | destruct w; [apply preserves_printed_os_remove|apply preserves_raise] ].
Qed.

(** A converter that ends normally has printed nothing. *)
Lemma convert_Ok_printed E w st p st' :
  convert_to_scrip_output E w st = (Ok p, st') → printed st' = printed st.
Proof.
  intros Hrun. rewrite convert_run in Hrun.
  set (nw := tmp_path (next_tmp st)) in *. set (s0 := renaming_from st) in *.
  assert (fs s0 !! nw = None) as Hnw by apply lookup_delete_eq.
  assert (printed s0 = printed st) as <- by done.
  clearbody s0.
  pose proof (rename_step_run E w nw s0) as Hstep. cbv zeta in Hstep.
  rewrite tail_ncrename_cmd in Hstep.
  destruct (ncrename_cases (format_path w) nw (fs s0))
    as [(rc0 & out0 & Hrc0 & Hnc)|(ds & ds' & _ & _ & _ & Hnc)];
    rewrite Hnc in Hstep; cbn [fst snd] in Hstep.
  - rewrite decide_False in Hstep by done.
    rewrite (bind_Ok _ _ _ _ _ Hstep) in Hrun.
    erewrite bind_Raise in Hrun; [done|].
    by apply fix_remap_matrix_missing.
  - rewrite decide_True in Hstep by done.
    rewrite (bind_Ok _ _ _ _ _ Hstep) in Hrun.
    by apply (preserves_inv _ _ _ _ _ (preserves_printed_after_rename w nw)) in Hrun.
Qed.

(** A weight computation that returns a path has printed its command and
    nothing else. *)
Lemma create_weights_Some_printed E src dst method iu us ud st w st' :
  create_weights E src dst method iu us ud st = (Ok (Some w), st') →
  printed st' =
  (stdout st ++ [repr_list E (launch_cmd E method iu st (prepared src dst us ud st))],
   stderr st).
Proof.
  intros Hrun. rewrite create_weights_run in Hrun. cbv zeta in Hrun.
  set (st1 := prepared src dst us ud st) in *.
  set (cmd := launch_cmd E method iu st st1) in *.
  assert (printed (launched E cmd st1) = (stdout st ++ [repr_list E cmd], stderr st))
    as <- by done.
  set (s := launched E cmd st1) in *. clearbody s.
  destruct (esmf_proc (esmf_run E cmd (fs st1))) as [rc out|]; [|done].
  destruct (decide (rc = 0%Z)) as [->|Hrc]; last first.
  { unfold mbind, M_bind in Hrun. by rewrite report_esmf_failure_run in Hrun. }
  eapply preserves_inv; [|exact Hrun].
  repeat first [ apply preserves_bind; [|intros ?]
               | apply preserves_printed_os_remove
               | apply preserves_ret ].
Qed.

Lemma head_launch_cmd E method iu st st1 :
  head (launch_cmd E method iu st st1) = Some "mpirun".
Proof. done. Qed.

(** ** The exit status *)

Lemma main_result E a st :
  (main E a st).1 = Ok 0%Z ∨ (main E a st).1 = Ok 1%Z ∨
  ∃ e, (main E a st).1 = Raise e.
Proof.
  rewrite main_selected. destruct (valid_filters a).
  - unfold mbind, M_bind.
    destruct (for_each _ _ st) as [[[]|e] s]; [by left|right; right; by eauto].
  - rewrite bad_grid_run. right. by left.
Qed.

(** X12: once argparse has accepted the command line, the exit status of
    the script is 0 or 1, and it is 0 exactly when main returned 0: from
    there on main returns nothing but 0 and 1, and an exception that
    escapes it ends the process with status 1. *)
Theorem exit_status_0_or_1 E a st :
  ((run E a st).1 = 0%Z ∨ (run E a st).1 = 1%Z) ∧
  ((run E a st).1 = 0%Z ↔ (main E a st).1 = Ok 0%Z).
Proof.
  unfold run.
  destruct (main_result E a st) as [H|[H|[e H]]];
    destruct (main E a st) as [r s]; cbn [fst] in H; subst r; cbn.
  - by split; [left|].
  - split; [by right|]. by split.
  - split; [by right|]. by split.
Qed.

(** ** The cells of the weight matrix outside column 0 *)

Lemma set_column0_other k vals data c :
  k ≠ 0%nat → length data = (length vals * k)%nat →
  c `mod` k ≠ 0%nat → set_column0 k vals data !! c = data !! c.
Proof.
  intros Hk. revert data c.
  induction vals as [|v vals IH]; intros data c Hlen Hc; [done|].
  destruct k as [|k]; [done|]. cbn [length] in Hlen.
  destruct data as [|x data]; [cbn in Hlen; lia|].
  cbn [set_column0 take tail drop]. cbn [length] in Hlen.
  assert (length (v :: take k data) = S k) as Hrow.
  { cbn [length]. rewrite length_take. lia. }
  destruct (decide (c < S k)%nat) as [Hlt|Hge].
  - rewrite lookup_app_l by (rewrite Hrow; lia).
    destruct c as [|c]; [by rewrite Nat.Div0.mod_0_l in Hc|].
    change ((v :: take k data) !! S c) with (take k data !! c).
    change ((x :: data) !! S c) with (data !! c).
    by rewrite lookup_take_lt by lia.
  - rewrite lookup_app_r by (rewrite Hrow; lia). rewrite Hrow.
    rewrite IH.
    + replace c with (S (k + (c - S k)))%nat at 2 by lia.
      change ((x :: data) !! S (k + (c - S k))) with (data !! (k + (c - S k)))%nat.
      by rewrite lookup_drop.
    + rewrite length_drop. lia.
    + replace c with ((c - S k) + 1 * S k)%nat in Hc by lia.
      by rewrite Nat.Div0.mod_add in Hc.
Qed.

(** X13: the converter writes column 0 of remap_matrix and nothing else of
    it: in the converted file every cell of the matrix outside column 0
    still holds the fill value the variable was created with. *)
Theorem converter_leaves_other_columns_unset E j st ds :
  fs st !! tmp_path j = Some (FNc ds) →
  fs st !! tmp_path (next_tmp st) = None →
  raw_weight_file ds = true →
  ∃ st' ds' rm wgts,
    convert_to_scrip_output E (Some (tmp_path j)) st
    = (Ok (tmp_path (next_tmp st)), st') ∧
    fs st' !! tmp_path (next_tmp st) = Some (FNc ds') ∧
    get_variable "remap_matrix" ds' = Ok rm ∧
    dim_id "num_wgts" ds' = Some wgts ∧
    ∀ c, (c < length (vdata rm))%nat → c `mod` dim_size ds' wgts ≠ 0%nat →
         vdata rm !! c = Some NC_FILL_DOUBLE.
Proof.
  intros Hw Hnw Hraw.
  assert (has_name "remap_matrix" (ds_vars ds) = false) as Hrm.
  { unfold raw_weight_file in Hraw. rewrite !andb_true_iff in Hraw.
    destruct Hraw as [[_ Hrm] _]. by apply negb_true_iff. }
  destruct (convert_raw_weight_file E j st ds Hw Hnw Hraw)
    as (i & k & s & st' & Hi & Hk & Hs & Hk0 & Hlen & Hrun & Hfs).
  assert (length (replicate (dim_size ds i * (dim_size ds k * 1)) NC_FILL_DOUBLE)
          = (length (vdata s) * dim_size ds k)%nat) as Hfill.
  { rewrite length_replicate. lia. }
  exists st', (converted ds i k s), (remap_matrix_of ds i k s), k.
  split_and!.
  - done.
  - rewrite Hfs. apply lookup_insert_eq.
  - unfold converted. apply get_variable_last.
    pose proof (no_remap_matrix_renamed ds Hrm) as H. exact H.
  - change (dim_id "num_wgts" (renamed ds) = Some k).
    by rewrite dim_id_renamed_wgts.
  - intros c Hc Hmod.
    change (dim_size (converted ds i k s) k) with (dim_size (renamed ds) k) in Hmod.
    rewrite dim_size_renamed in Hmod.
    unfold remap_matrix_of in *. cbn [vdata] in *.
    rewrite length_set_column0 in Hc by done.
    rewrite set_column0_other by done.
    apply lookup_replicate_2. by rewrite length_replicate in Hc.
Qed.

Lemma converter_leaves_other_columns_unset_witness :
  ∃ st' ds' rm wgts,
    convert_to_scrip_output Sample.E_ok (Some (tmp_path 2)) st_wide
    = (Ok (tmp_path (next_tmp st_wide)), st') ∧
    fs st' !! tmp_path (next_tmp st_wide) = Some (FNc ds') ∧
    get_variable "remap_matrix" ds' = Ok rm ∧
    dim_id "num_wgts" ds' = Some wgts ∧
    ∀ c, (c < length (vdata rm))%nat → c `mod` dim_size ds' wgts ≠ 0%nat →
         vdata rm !! c = Some NC_FILL_DOUBLE.
Proof.
  apply (converter_leaves_other_columns_unset Sample.E_ok 2 st_wide wide_weights).
  - vm_compute. reflexivity.
  - vm_compute. reflexivity.
  - vm_compute. reflexivity.
Defined.

(** ** The grid definitions *)

Lemma find_grid_defs_lookup i j k :
  find_grid_defs i j !! k =
  if decide (k = "JRA55_runoff") then
    Some (OnePath (path_join j ["RYF.runoff_all.1990_1991.nc"]))
  else if decide (k = "JRA55") then
    Some (OnePath (path_join j ["RYF.t_10.1990_1991.nc"]))
  else if decide (k = "CORE2") then
    Some (OnePath (path_join i ["core_nyf"; "t_10.0001.nc"]))
  else if decide (k = "MOM01") then
    Some (TwoPaths (path_join i ["mom_01deg"; "ocean_hgrid.nc"])
                   (path_join i ["mom_01deg"; "ocean_mask.nc"]))
  else if decide (k = "MOM025") then
    Some (TwoPaths (path_join i ["mom_025deg"; "ocean_hgrid.nc"])
                   (path_join i ["mom_025deg"; "ocean_mask.nc"]))
  else if decide (k = "MOM1") then
    Some (TwoPaths (path_join i ["mom_1deg"; "ocean_hgrid.nc"])
                   (path_join i ["mom_1deg"; "ocean_mask.nc"]))
  else None.
Proof.
  unfold find_grid_defs. cbv zeta.
  repeat (case_decide;
          [subst k; rewrite ?lookup_insert_ne by done; by rewrite lookup_insert_eq|]).
  rewrite !lookup_insert_ne by congruence. apply lookup_empty.
Qed.

(** X14: the dictionary of find_grid_defs has an entry for every grid main
    accepts and no other: a key holds a single path exactly when it is an
    atmosphere option, and a pair of paths exactly when it is an ocean
    option.  So, after the checks of main, no lookup grid_file_dict[atm] or
    grid_file_dict[ocean][i] can fail. *)
Theorem find_grid_defs_covers_options i j k :
  (k ∈ atm_options ↔ ∃ p, find_grid_defs i j !! k = Some (OnePath p)) ∧
  (k ∈ ocean_options ↔ ∃ h m, find_grid_defs i j !! k = Some (TwoPaths h m)).
Proof.
  rewrite find_grid_defs_lookup. unfold atm_options, ocean_options.
  rewrite !elem_of_cons. 
  repeat case_decide; subst; split; split;
    first [ by eauto 6
          | intros [?|[?|[?|?%elem_of_nil]]]; done
          | intros (? & ?); done
          | intros (? & ? & ?); done ].
Qed.

(** ** Directories given with a trailing slash *)

Lemma string_app_assoc (a b c : string) : (a +:+ b) +:+ c = a +:+ (b +:+ c).
Proof.
  induction a as [|x a IH]; [done|].
  change (String x ((a +:+ b) +:+ c) = String x (a +:+ (b +:+ c))).
  by f_equal.
Qed.

Lemma ends_with_slash_app_slash a : ends_with_slash (a +:+ "/") = true.
Proof.
  induction a as [|c a IH]; [done|].
  simpl. destruct (a +:+ "/") eqn:H; [by destruct a|done].
Qed.

Lemma path_join2_slash a b :
  a ≠ "" → ends_with_slash a = false →
  path_join2 (a +:+ "/") b = path_join2 a b.
Proof.
  intros Ha Hs. unfold path_join2.
  destruct (starts_with_slash b); [done|].
  rewrite ends_with_slash_app_slash, orb_true_r, Hs.
  rewrite bool_decide_eq_false_2 by done. cbn [orb].
  apply string_app_assoc.
Qed.

(** X15: find_grid_defs gives the same paths whether or not a directory is
    written with a trailing slash (as in the run example of the script's
    docstring): os.path.join adds the separator only where it is missing. *)
Theorem find_grid_defs_trailing_slash i j :
  i ≠ "" → j ≠ "" → ends_with_slash i = false → ends_with_slash j = false →
  find_grid_defs (i +:+ "/") (j +:+ "/") = find_grid_defs i j.
Proof.
  intros Hi Hj Hsi Hsj. unfold find_grid_defs, path_join. cbv zeta.
  cbn [foldl]. by rewrite !path_join2_slash by done.
Qed.

Lemma find_grid_defs_trailing_slash_witness :
  find_grid_defs ("/in" +:+ "/") ("/jra" +:+ "/") = find_grid_defs "/in" "/jra".
Proof.
  apply (find_grid_defs_trailing_slash "/in" "/jra"); vm_compute; congruence.
Defined.

(** ** The generator's run within a run of main *)

Lemma keeps_state_source_grid d atm : keeps_state (source_grid d atm).
Proof. unfold source_grid, Core2Grid, Jra55Grid. reads. Qed.

Lemma keeps_state_dest_grid d ocean : keeps_state (dest_grid d ocean).
Proof. unfold dest_grid, MomGrid_fromfile. reads. Qed.

Lemma keeps_state_run {A} (m : M A) st a :
  keeps_state m → (m st).1 = Ok a → m st = (Ok a, st).
Proof.
  intros Hk H. specialize (Hk st). destruct (m st) as [r s].
  cbn in *. by subst.
Qed.

(** With its two grids read, a combination is the weight computation, the
    conversion and the move. *)
Lemma process_combination_grids E d atm ocean method st src dst :
  (source_grid d atm st).1 = Ok src →
  (dest_grid d ocean st).1 = Ok dst →
  process_combination E d atm ocean method st =
  (weights ← create_weights E src dst method default_ignore_unmapped
                default_unmasked_src default_unmasked_dest;
   weights ← convert_to_scrip_output E weights;
   shutil_move weights (output_name atm ocean method)) st.
Proof.
  intros Hsrc Hdst.
  apply keeps_state_run in Hsrc; [|apply keeps_state_source_grid].
  apply keeps_state_run in Hdst; [|apply keeps_state_dest_grid].
  unfold dest_grid in Hdst.
  apply bind_inv_Ok in Hdst as (hgrid & s1 & Hh & Hdst).
  assert (s1 = st) as -> by (eapply keeps_state_inv; [|exact Hh]; reads).
  apply bind_inv_Ok in Hdst as (mask_file & s1 & Hm & Hdst).
  assert (s1 = st) as -> by (eapply keeps_state_inv; [|exact Hm]; reads).
  unfold process_combination. unfold source_grid in Hsrc.
  rewrite (bind_Ok _ _ _ _ _ Hsrc), (bind_Ok _ _ _ _ _ Hh),
    (bind_Ok _ _ _ _ _ Hm), (bind_Ok _ _ _ _ _ Hdst).
  done.
Qed.

(** What a combination does first, once its grids are read: it writes the
    atmosphere grid with an all-zero mask to the first temp file and the
    ocean grid with its own mask to the second, and runs the generator on
    these two files, with the method and without a trailing flag. *)
Lemma trace_process_combination E d atm ocean method st src dst :
  (source_grid d atm st).1 = Ok src →
  (dest_grid d ocean st).1 = Ok dst →
  ∃ o rest,
    trace (process_combination E d atm ocean method st).2 =
    trace st ++
      [EvWriteScrip (tmp_path (next_tmp st)) src (zeros_like (mask_t src));
       EvWriteScrip (tmp_path (S (next_tmp st))) dst (mask_t dst);
       EvExec ["mpirun"; "-np"; pretty (cpu_count E `div` 2)%nat;
               if bool_decide (is_Some (fs st !! contrib_esmf E))
               then contrib_esmf E else "ESMF_RegridWeightGen";
               "-s"; tmp_path (next_tmp st); "-d"; tmp_path (S (next_tmp st));
               "-m"; method; "-w"; tmp_path (S (S (next_tmp st)))] o] ++
      rest.
Proof.
  intros Hsrc Hdst. rewrite (process_combination_grids _ _ _ _ _ _ _ _ Hsrc Hdst).
  pose proof (create_weights_trace E src dst method default_ignore_unmapped
                default_unmasked_src default_unmasked_dest st) as Htr.
  cbv zeta in Htr. rewrite launch_cmd_tokens in Htr.
  unfold default_ignore_unmapped in Htr at 2. rewrite app_nil_r in Htr.
  change (written_mask src default_unmasked_src) with (zeros_like (mask_t src)) in Htr.
  change (written_mask dst default_unmasked_dest) with (mask_t dst) in Htr.
  set (o := esmf_proc _) in Htr. clearbody o.
  unfold mbind at 1, M_bind at 1.
  destruct (create_weights _ _ _ _ _ _ _ st) as [[w|e] s5]; cbn [snd] in Htr.
  - assert (emits (λ _, True)
              (weights ← convert_to_scrip_output E w;
               shutil_move weights (output_name atm ocean method))) as Hem.
    { apply emits_bind.
      - intros s. destruct (emits_convert E w s) as (evs & H & _).
        exists evs. split; [done|]. by apply Forall_forall.
      - intros nw. apply keeps_emits. keeps. }
    destruct (Hem s5) as (rest & Hrest & _).
    exists o, rest. by rewrite Hrest, Htr, <- app_assoc.
  - exists o, []. by rewrite app_nil_r.
Qed.

Lemma trace_for_each_extends E d l st :
  ∃ evs, trace (for_each l (combination_body E d) st).2 = trace st ++ evs.
Proof.
  assert (emits (default_call E) (for_each l (combination_body E d))) as H.
  { apply emits_for_each. intros c _. apply emits_process_combination. }
  destruct (H st) as (evs & Hevs & _). by exists evs.
Qed.

(** The same within a loop over combinations: the combination the loop has
    come to, its predecessors being done. *)
Lemma trace_for_each_at E d before c after st s src dst :
  for_each before (combination_body E d) st = (Ok tt, s) →
  (source_grid d c.1.1 s).1 = Ok src →
  (dest_grid d c.1.2 s).1 = Ok dst →
  ∃ o rest,
    trace (for_each (before ++ c :: after) (combination_body E d) st).2 =
    trace s ++
      [EvWriteScrip (tmp_path (next_tmp s)) src (zeros_like (mask_t src));
       EvWriteScrip (tmp_path (S (next_tmp s))) dst (mask_t dst);
       EvExec ["mpirun"; "-np"; pretty (cpu_count E `div` 2)%nat;
               if bool_decide (is_Some (fs s !! contrib_esmf E))
               then contrib_esmf E else "ESMF_RegridWeightGen";
               "-s"; tmp_path (next_tmp s); "-d"; tmp_path (S (next_tmp s));
               "-m"; c.2; "-w"; tmp_path (S (S (next_tmp s)))] o] ++
      rest.
Proof.
  intros Hbefore Hsrc Hdst.
  rewrite for_each_app, (bind_Ok _ _ _ _ _ Hbefore). simpl.
  destruct (trace_process_combination E d c.1.1 c.1.2 c.2 s src dst Hsrc Hdst)
    as (o & rest & Htr).
  unfold mbind, M_bind. unfold combination_body at 1.
  destruct (process_combination _ _ _ _ _ s) as [[[]|e] s1]; cbn [snd] in Htr.
  - destruct (trace_for_each_extends E d after s1) as (evs & Hevs).
    exists o, (rest ++ evs). rewrite Hevs, Htr. by rewrite <- !app_assoc.
  - by exists o, rest.
Qed.

Lemma trace_main_at E a before c after st s src dst :
  valid_filters a = true →
  selected_combinations a = before ++ c :: after →
  for_each before
    (combination_body E (find_grid_defs (input_dir a) (jra55_input a))) st
  = (Ok tt, s) →
  (source_grid (find_grid_defs (input_dir a) (jra55_input a)) c.1.1 s).1 = Ok src →
  (dest_grid (find_grid_defs (input_dir a) (jra55_input a)) c.1.2 s).1 = Ok dst →
  ∃ o rest,
    trace (main E a st).2 =
    trace s ++
      [EvWriteScrip (tmp_path (next_tmp s)) src (zeros_like (mask_t src));
       EvWriteScrip (tmp_path (S (next_tmp s))) dst (mask_t dst);
       EvExec ["mpirun"; "-np"; pretty (cpu_count E `div` 2)%nat;
               if bool_decide (is_Some (fs s !! contrib_esmf E))
               then contrib_esmf E else "ESMF_RegridWeightGen";
               "-s"; tmp_path (next_tmp s); "-d"; tmp_path (S (next_tmp s));
               "-m"; c.2; "-w"; tmp_path (S (S (next_tmp s)))] o] ++
      rest.
Proof.
  intros Hvalid Hsel Hbefore Hsrc Hdst.
  rewrite main_selected, Hvalid, Hsel.
  destruct (trace_for_each_at E _ before c after st s src dst Hbefore Hsrc Hdst)
    as (o & rest & Htr).
  exists o, rest. rewrite <- Htr. unfold mbind, M_bind.
  by destruct (for_each (before ++ c :: after) _ st) as [[[]|e] s1].
Qed.



Lemma selected_method a x c :
  method a = Some x → c ∈ selected_combinations a → c.2 = x.
Proof.
  intros Hx Hc. destruct c as [[ca co] cm]. unfold selected_combinations in Hc.
  apply elem_of_combinations in Hc as (_ & _ & Hm). rewrite Hx in Hm.
  by apply list_elem_of_singleton in Hm.
Qed.

(** C2, amended: for --atm and --ocean, a value outside the option set makes
    the driver print its error line and the help message and return 1, with
    no file touched and no command run.  A --method value is compared with
    nothing: whatever it is, every combination main comes to, and whose
    grids can be read, runs the generator with that value after -m. *)
Theorem invalid_grid_prints_usage E a st :
  (rejected (atm a) atm_options ∨ rejected (ocean a) ocean_options →
   ∃ st', main E a st = (Ok 1%Z, st') ∧
     stdout st' = stdout st ++ [help_text E] ∧
     stderr st' = stderr st ++ ["Error: bad atm grid."] ∧
     fs st' = fs st ∧ trace st' = trace st) ∧
  (∀ x before c after s src dst,
     method a = Some x →
     valid_filters a = true →
     selected_combinations a = before ++ c :: after →
     for_each before
       (combination_body E (find_grid_defs (input_dir a) (jra55_input a))) st
     = (Ok tt, s) →
     (source_grid (find_grid_defs (input_dir a) (jra55_input a)) c.1.1 s).1
     = Ok src →
     (dest_grid (find_grid_defs (input_dir a) (jra55_input a)) c.1.2 s).1
     = Ok dst →
     ∃ o rest,
       trace (main E a st).2 =
       trace s ++
         [EvWriteScrip (tmp_path (next_tmp s)) src (zeros_like (mask_t src));
          EvWriteScrip (tmp_path (S (next_tmp s))) dst (mask_t dst);
          EvExec ["mpirun"; "-np"; pretty (cpu_count E `div` 2)%nat;
                  if bool_decide (is_Some (fs s !! contrib_esmf E))
                  then contrib_esmf E else "ESMF_RegridWeightGen";
                  "-s"; tmp_path (next_tmp s); "-d"; tmp_path (S (next_tmp s));
                  "-m"; x; "-w"; tmp_path (S (S (next_tmp s)))] o] ++
         rest).
Proof.
  split.
  - intros H. rewrite (main_rejected E a st H), bad_grid_run.
    eexists. split; [reflexivity|]. done.
  - intros x before c after s src dst Hx Hvalid Hsel Hbefore Hsrc Hdst.
    assert (c.2 = x) as <-.
    { apply (selected_method a); [done|]. rewrite Hsel.
      apply elem_of_app. right. by left. }
    by eapply trace_main_at.
Qed.

Lemma invalid_grid_prints_usage_witness :
  (∃ st', main Sample.E_ok (Sample.cli (Some "ERA5") None None) Sample.st0
          = (Ok 1%Z, st') ∧
     stdout st' = stdout Sample.st0 ++ [help_text Sample.E_ok] ∧
     stderr st' = stderr Sample.st0 ++ ["Error: bad atm grid."] ∧
     fs st' = fs Sample.st0 ∧ trace st' = trace Sample.st0) ∧
  (∃ o rest,
     trace (main Sample.E_ok
              (Sample.cli (Some "CORE2") (Some "MOM1") (Some "bilinear"))
              Sample.st0).2 =
     trace Sample.st0 ++
       [EvWriteScrip (tmp_path 0) Sample.atm_grid (zeros_like (mask_t Sample.atm_grid));
        EvWriteScrip (tmp_path 1) Sample.ocean_grid (mask_t Sample.ocean_grid);
        EvExec ["mpirun"; "-np"; "4"; "ESMF_RegridWeightGen";
                "-s"; tmp_path 0; "-d"; tmp_path 1;
                "-m"; "bilinear"; "-w"; tmp_path 2] o] ++
       rest).
Proof.
  split.
  - apply (proj1 (invalid_grid_prints_usage Sample.E_ok
                    (Sample.cli (Some "ERA5") None None) Sample.st0)).
    left. exists "ERA5". split; [reflexivity|]. by_evaluation.
  - apply (proj2 (invalid_grid_prints_usage Sample.E_ok
                    (Sample.cli (Some "CORE2") (Some "MOM1") (Some "bilinear"))
                    Sample.st0)
             "bilinear" [] ("CORE2", "MOM1", "bilinear") [] Sample.st0
             Sample.atm_grid Sample.ocean_grid).
    + reflexivity.
    + reflexivity.
    + vm_compute. reflexivity.
    + reflexivity.
    + vm_compute. reflexivity.
    + vm_compute. reflexivity.
Defined.

(** ** The converter after a failed rename *)

(** C9: when the rename command exits with a non-zero status, the converter
    prints the command's output to the error stream and goes on: the rename
    step itself ends normally, and what the converter returns or raises, and
    the state it leaves, are those of the with-block on the two files and of
    the statements after it, run in the state the failed rename left. *)
Theorem converter_goes_on_after_failed_rename E w st r st' rc out :
  convert_to_scrip_output E w st = (r, st') →
  last (trace st') =
    Some (EvExec (ncrename_cmd w (tmp_path (next_tmp st))) (Exited rc out)) →
  rc ≠ 0%Z →
  (rename_step E w (tmp_path (next_tmp st)) (renaming_from st)).1 = Ok tt ∧
  stderr st' = stderr st ++ [out] ∧
  (fix_remap_matrix w (tmp_path (next_tmp st));;
   match w with
   | Some w => os_remove w
   | None => raise TypeError
   end;;
   mret (tmp_path (next_tmp st)))
    (rename_step E w (tmp_path (next_tmp st)) (renaming_from st)).2
  = (r, st').
Proof.
  intros Hrun Hlast Hrc. rewrite convert_run in Hrun.
  set (nw := tmp_path (next_tmp st)) in *. set (s0 := renaming_from st) in *.
  assert (trace s0 = trace st) as Htr0 by done.
  assert (stderr s0 = stderr st) as Herr0 by done.
  clearbody s0.
  pose proof (rename_step_run E w nw s0) as Hstep. cbv zeta in Hstep.
  rewrite tail_ncrename_cmd in Hstep.
  destruct (ncrename_cases (format_path w) nw (fs s0))
    as [(rc0 & out0 & Hrc0 & Hnc)|(ds & ds' & _ & _ & _ & Hnc)];
    rewrite Hnc in Hstep; cbn [fst snd] in Hstep.
  - rewrite decide_False in Hstep by done.
    rewrite (bind_Ok _ _ _ _ _ Hstep) in Hrun. rewrite Hstep. cbn [fst snd].
    match type of Hstep with _ = (_, ?s) => set (s1 := s) in * end.
    pose proof (keeps_trace_after_rename w nw s1) as Hkeep.
    pose proof (preserves_printed_after_rename w nw s1) as Hprint.
    rewrite Hrun in Hkeep, Hprint. cbn [snd] in Hkeep, Hprint.
    assert (trace s1 = trace st ++ [EvExec (ncrename_cmd w nw) (Exited rc0 out0)])
      as Htr1 by (subst s1; cbn; by rewrite Htr0).
    rewrite Hkeep, Htr1, last_snoc in Hlast. injection Hlast as -> ->.
    split_and!; [done| |done].
    unfold printed in Hprint. injection Hprint as _ ->.
    subst s1. cbn. by rewrite Herr0.
  - rewrite decide_True in Hstep by done.
    rewrite (bind_Ok _ _ _ _ _ Hstep) in Hrun.
    match type of Hstep with _ = (_, ?s) => set (s1 := s) in * end.
    pose proof (keeps_trace_after_rename w nw s1) as Hkeep.
    rewrite Hrun in Hkeep. cbn [snd] in Hkeep.
    assert (trace s1 = trace st ++ [EvExec (ncrename_cmd w nw) (Exited 0 "")])
      as Htr1 by (subst s1; cbn; by rewrite Htr0).
    rewrite Hkeep, Htr1, last_snoc in Hlast. by injection Hlast as <- _.
Qed.

Lemma converter_goes_on_after_failed_rename_witness :
  (rename_step Sample.E_ok None (tmp_path (next_tmp Sample.st0))
     (renaming_from Sample.st0)).1 = Ok tt ∧
  stderr (convert_to_scrip_output Sample.E_ok None Sample.st0).2
  = stderr Sample.st0 ++ ["ncrename: ERROR file None not found"] ∧
  (fix_remap_matrix None (tmp_path (next_tmp Sample.st0));;
   match None with
   | Some w => os_remove w
   | None => raise TypeError
   end;;
   mret (tmp_path (next_tmp Sample.st0)))
    (rename_step Sample.E_ok None (tmp_path (next_tmp Sample.st0))
       (renaming_from Sample.st0)).2
  = ((convert_to_scrip_output Sample.E_ok None Sample.st0).1,
     (convert_to_scrip_output Sample.E_ok None Sample.st0).2).
Proof.
  apply (converter_goes_on_after_failed_rename Sample.E_ok None Sample.st0 _ _ 1%Z).
  - apply surjective_pairing.
  - vm_compute. reflexivity.
  - lia.
Defined.

(** ** The lines of a successful run and the commands it ran *)

Lemma repr_plain E s : plain s = true → repr E s = "'" +:+ s +:+ "'".
Proof. intros H. unfold repr. by rewrite H. Qed.

Lemma generator_cmds_combination src dst m1 m2 cmd o w nw o' p1 p2 :
  head cmd = Some "mpirun" →
  generator_cmds
    [EvWriteScrip p1 src m1; EvWriteScrip p2 dst m2; EvExec cmd o;
     EvExec (ncrename_cmd w nw) o'] = [cmd].
Proof.
  intros Hcmd. unfold generator_cmds. cbn [omap list_omap].
  rewrite decide_True by done. by rewrite decide_False.
Qed.

Lemma generator_cmds_app evs1 evs2 :
  generator_cmds (evs1 ++ evs2) = generator_cmds evs1 ++ generator_cmds evs2.
Proof. apply omap_app. Qed.

Lemma process_combination_Ok_printed E d atm ocean method st st' :
  process_combination E d atm ocean method st = (Ok tt, st') →
  ∃ evs cmd, trace st' = trace st ++ evs ∧ generator_cmds evs = [cmd] ∧
             printed st' = (stdout st ++ [repr_list E cmd], stderr st).
Proof.
  intros Hrun.
  apply process_combination_inv in Hrun as [[_ [e [=]]]|(_ & src & dst & Hrun)].
  apply bind_inv_Ok in Hrun as (w & s2 & Hcw & Hrun).
  apply bind_inv_Ok in Hrun as (nw & s3 & Hcv & Hmv).
  destruct w as [w|]; [|by apply convert_None_not_Ok in Hcv].
  pose proof (create_weights_trace E src dst method default_ignore_unmapped
                default_unmasked_src default_unmasked_dest st) as Ht2.
  cbv zeta in Ht2. rewrite Hcw in Ht2. cbn [snd] in Ht2.
  apply create_weights_Some_printed in Hcw.
  apply convert_Ok_trace in Hcv as Ht3.
  apply convert_Ok_printed in Hcv.
  pose proof (keeps_trace_shutil_move nw (output_name atm ocean method) s3) as Ht4.
  rewrite Hmv in Ht4. cbn [snd] in Ht4.
  apply (preserves_inv _ _ _ _ _ (preserves_printed_shutil_move _ _)) in Hmv.
  eexists _, _. split_and!.
  - rewrite Ht4, Ht3, Ht2, <- app_assoc. reflexivity.
  - apply generator_cmds_combination, head_launch_cmd.
  - rewrite Hmv, Hcv. exact Hcw.
Qed.

Lemma for_each_combination_Ok_printed E d l st st' :
  for_each l (combination_body E d) st = (Ok tt, st') →
  ∃ evs, trace st' = trace st ++ evs ∧
         length (generator_cmds evs) = length l ∧
         printed st' = (stdout st ++ (repr_list E <$> generator_cmds evs), stderr st).
Proof.
  revert st. induction l as [|c l IH]; intros st Hrun.
  { injection Hrun as <-. exists []. split_and!; [by rewrite app_nil_r|done|].
    unfold printed. by rewrite app_nil_r. }
  simpl in Hrun. apply bind_inv_Ok in Hrun as ([] & s1 & Hc & Hl).
  apply process_combination_Ok_printed in Hc as (evs1 & cmd & Ht1 & Hg1 & Hp1).
  apply IH in Hl as (evs & Ht & Hlen & Hp).
  exists (evs1 ++ evs). rewrite generator_cmds_app, Hg1. split_and!.
  - by rewrite Ht, Ht1, <- app_assoc.
  - cbn. by rewrite Hlen.
  - rewrite Hp. unfold printed in Hp1. injection Hp1 as -> ->.
    by rewrite <- app_assoc.
Qed.

(** X11: a run of main that returns 0 has printed nothing to the error
    stream, and has added to standard output exactly the command lines of
    the generator runs it made, as Python prints a list, in the order of the
    runs; there is one such run for each selected combination. *)
Theorem successful_run_is_silent E a st st' :
  main E a st = (Ok 0%Z, st') →
  stderr st' = stderr st ∧
  ∃ evs, trace st' = trace st ++ evs ∧
         length (generator_cmds evs) = length (selected_combinations a) ∧
         stdout st' = stdout st ++ (repr_list E <$> generator_cmds evs).
Proof.
  intros Hrun. apply main_Ok_0 in Hrun.
  apply for_each_combination_Ok_printed in Hrun as (evs & Htr & Hlen & Hp).
  unfold printed in Hp. injection Hp as Hout Herr. by eauto.
Qed.

Lemma successful_run_is_silent_witness :
  stderr (main Sample.E_ok (Sample.cli (Some "JRA55") None (Some "patch"))
            Sample.st0).2 = stderr Sample.st0 ∧
  ∃ evs,
    trace (main Sample.E_ok (Sample.cli (Some "JRA55") None (Some "patch"))
             Sample.st0).2 = trace Sample.st0 ++ evs ∧
    length (generator_cmds evs)
    = length (selected_combinations (Sample.cli (Some "JRA55") None (Some "patch"))) ∧
    stdout (main Sample.E_ok (Sample.cli (Some "JRA55") None (Some "patch"))
              Sample.st0).2
    = stdout Sample.st0 ++ (repr_list Sample.E_ok <$> generator_cmds evs).
Proof.
  apply (successful_run_is_silent Sample.E_ok
           (Sample.cli (Some "JRA55") None (Some "patch")) Sample.st0).
  etransitivity; [apply surjective_pairing|].
  apply (f_equal (λ r, (r, _))). vm_compute. reflexivity.
Defined.
